(** * 68-keypoints annotation tool: annotation state engine

    A shallow embedding of the state-carrying part of
    [keypoint_annotation_tool.py] (class [MainWindow]), of
    [convert_txt_to_json.py] and of [check_dependencies.py], followed by the
    properties of the store, the undo/redo history, the two on-disk formats,
    the session handlers (format switch, navigation, closing), the reference
    view and the two command-line scripts.

    Modelling conventions.
    - A Python [float] is an exact rational ([Qc]); rounding to binary64,
      [nan] and [inf] are not represented.  [round(x, 6)] and the format
      specifier [.6f] round the exact value to six decimals, ties to even.
      No property below states that a conversion and its inverse give back
      the same number: that holds of exact values only.  The product of a
      JSON integer and a float raises [OverflowError] when the integer is
      too large for a float ([int_too_large]); properties of numbers that
      are floats carry [float_store] or [int_too_large] as a hypothesis.
    - [float(token)] is given for plain decimal tokens and [str.split()],
      [str.strip()] for ASCII white space.  Properties of what a text file
      parses to are stated for texts whose tokens are plain decimals
      ([floats_of ... = Ok coords]).
    - [save_annotations] and [load_annotations] print
      [sorted(self.keypoints_data.keys())], which raises [TypeError] on
      keys that cannot be ordered (an integer and a string).  Nothing
      catches it, so it ends the handler that made the call: handlers are
      given as calls in the monad [M], with [raises] telling whether the
      call is ended by an exception and [window_after] the window it
      leaves either way.
    - The dictionary [self.keypoints_data] is a [gmap] from hashable Python
      keys to coordinate pairs.  Snapshots are [dict.copy()] of a dictionary
      of immutable tuples, hence plain values.
    - Python lists used as stacks keep Python's orientation: [append] adds at
      the end, [pop()] removes the last element, [pop(0)] the first.
    - [self.status_label.setText] overwrites the field [status_label];
      every [QMessageBox.warning] is appended to [dialogs].  Answers given
      by the operator to a question dialog, and the selected row of the list
      widget, are parameters of the handler.
    - The graphics scene (items drawn by [ImageView]) is presentation and is
      not part of the state; of the view only [get_image_size()] is kept.
    - Files are read and written without I/O failures, so the error dialogs
      of the two save functions never appear. *)

From stdpp Require Import gmap strings list fin_maps.
From Stdlib Require Import Ascii QArith Qcanon ZArith Lia.

Local Open Scope Z_scope.
Local Open Scope string_scope.
Local Open Scope list_scope.

(** ** Numbers *)

Definition qc (n : Z) (d : positive) : Qc := Q2Qc (n # d).

Definition q0 : Qc := qc 0 1.

Definition qlt (a b : Qc) : bool := bool_decide (a < b)%Qc.

(** ** Keys of [keypoints_data]

    Handlers connected to Qt signals receive [int] identifiers.  A JSON file
    may carry any scalar as ["id"]; Python hashes [5], [5.0] and equal values
    to the same key and [True]/[False] to [1]/[0], so a key is kept in the
    normal form below ([KFrac] holds non-integral numbers only). *)

Inductive pykey :=
  | KInt (n : Z)
  | KFrac (q : Qc)
  | KStr (s : string)
  | KNone.

#[global] Instance pykey_eq_dec : EqDecision pykey.
Proof. solve_decision. Defined.

Definition pykey_encode (k : pykey) : Z + Qc + string + unit :=
  match k with
  | KInt n => inl (inl (inl n))
  | KFrac q => inl (inl (inr q))
  | KStr s => inl (inr s)
  | KNone => inr tt
  end.

Definition pykey_decode (c : Z + Qc + string + unit) : pykey :=
  match c with
  | inl (inl (inl n)) => KInt n
  | inl (inl (inr q)) => KFrac q
  | inl (inr s) => KStr s
  | inr _ => KNone
  end.

#[global] Instance pykey_countable : Countable pykey.
Proof.
  apply (inj_countable' pykey_encode pykey_decode).
  intros []; reflexivity.
Defined.

Definition coord : Type := Qc * Qc.

Abbreviation store := (gmap pykey coord).

(** ** Files *)

(** A value produced by [json.load] / consumed by [json.dump].  An object
    keeps its members in file order; [json_get] gives the last binding of a
    name, as the decoder does for repeated names. *)
#[warnings="-register-all"]
Inductive json :=
  | JNull
  | JBool (b : bool)
  | JNum (q : Qc)
  | JStr (s : string)
  | JArr (items : list json)
  | JObj (members : list (string * json)).

(** An image path is kept as the file name without its suffix, and the
    suffix; [Path.with_suffix] replaces the suffix and [Path.name] is their
    concatenation.  All files of a session lie in one directory, which is
    not represented. *)
Record image_path := { stem : string; suffix : string }.

Definition path_name (p : image_path) : string := stem p +:+ suffix p.

(** Annotation files, indexed by the stem of the image they belong to.
    A [.json] file whose text is not valid JSON is [None]. *)
Record filesystem := {
  txt_files : gmap string string;
  json_files : gmap string (option json)
}.

Inductive format := FmtTxt | FmtJson.

(** Exceptions raised by the loaders and by the debug prints. *)
Inductive pyexn :=
  | ValueError (token : string)
  | KeyError (name : string)
  | IndexError
  | TypeError
  | AttributeError
  | JSONDecodeError
  | OverflowError.

(** Message boxes.  [WarningExc prefix e] is a warning whose text is [prefix]
    followed by [str(e)] for the caught exception [e]. *)
Inductive dialog :=
  | Warning (text : string)
  | WarningExc (prefix : string) (e : pyexn).

(** ** The window state *)

Record MainWindow := {
  image_files : list image_path;
  current_image_index : Z;
  keypoints_data : store;
  auto_save : bool;
  annotation_format : format;
  undo_stack : list store;
  redo_stack : list store;
  max_undo_steps : nat;
  image_size : option (Qc * Qc);
  status_label : string;
  dialogs : list dialog;
  disk : filesystem
}.

Definition set_keypoints_data (d : store) (w : MainWindow) : MainWindow :=
  {| image_files := image_files w; current_image_index := current_image_index w;
     keypoints_data := d; auto_save := auto_save w;
     annotation_format := annotation_format w;
     undo_stack := undo_stack w; redo_stack := redo_stack w;
     max_undo_steps := max_undo_steps w; image_size := image_size w;
     status_label := status_label w; dialogs := dialogs w; disk := disk w |}.

Definition set_undo_stack (s : list store) (w : MainWindow) : MainWindow :=
  {| image_files := image_files w; current_image_index := current_image_index w;
     keypoints_data := keypoints_data w; auto_save := auto_save w;
     annotation_format := annotation_format w;
     undo_stack := s; redo_stack := redo_stack w;
     max_undo_steps := max_undo_steps w; image_size := image_size w;
     status_label := status_label w; dialogs := dialogs w; disk := disk w |}.

Definition set_redo_stack (s : list store) (w : MainWindow) : MainWindow :=
  {| image_files := image_files w; current_image_index := current_image_index w;
     keypoints_data := keypoints_data w; auto_save := auto_save w;
     annotation_format := annotation_format w;
     undo_stack := undo_stack w; redo_stack := s;
     max_undo_steps := max_undo_steps w; image_size := image_size w;
     status_label := status_label w; dialogs := dialogs w; disk := disk w |}.

Definition set_status (t : string) (w : MainWindow) : MainWindow :=
  {| image_files := image_files w; current_image_index := current_image_index w;
     keypoints_data := keypoints_data w; auto_save := auto_save w;
     annotation_format := annotation_format w;
     undo_stack := undo_stack w; redo_stack := redo_stack w;
     max_undo_steps := max_undo_steps w; image_size := image_size w;
     status_label := t; dialogs := dialogs w; disk := disk w |}.

Definition show_dialog (d : dialog) (w : MainWindow) : MainWindow :=
  {| image_files := image_files w; current_image_index := current_image_index w;
     keypoints_data := keypoints_data w; auto_save := auto_save w;
     annotation_format := annotation_format w;
     undo_stack := undo_stack w; redo_stack := redo_stack w;
     max_undo_steps := max_undo_steps w; image_size := image_size w;
     status_label := status_label w; dialogs := dialogs w ++ [d];
     disk := disk w |}.

Definition set_disk (f : filesystem) (w : MainWindow) : MainWindow :=
  {| image_files := image_files w; current_image_index := current_image_index w;
     keypoints_data := keypoints_data w; auto_save := auto_save w;
     annotation_format := annotation_format w;
     undo_stack := undo_stack w; redo_stack := redo_stack w;
     max_undo_steps := max_undo_steps w; image_size := image_size w;
     status_label := status_label w; dialogs := dialogs w; disk := f |}.

(** The state built by [MainWindow.__init__], before any directory is
    opened ([get_image_size()] answers [(None, None)]). *)
Definition init_window : MainWindow :=
  {| image_files := []; current_image_index := -1;
     keypoints_data := ∅; auto_save := true;
     annotation_format := FmtTxt;
     undo_stack := []; redo_stack := [];
     max_undo_steps := 10; image_size := None;
     status_label := ""; dialogs := [];
     disk := {| txt_files := ∅; json_files := ∅ |} |}.

(** ** Coordinate conversion *)

(** [if width and height and width > 0 and height > 0] *)
Definition size_ok (sz : option (Qc * Qc)) : option (Qc * Qc) :=
  match sz with
  | Some (width, height) =>
      if negb (bool_decide (width = q0)) && negb (bool_decide (height = q0))
         && qlt q0 width && qlt q0 height
      then Some (width, height) else None
  | None => None
  end.

(** [pixel_to_ratio]; [None] stands for the answer [(None, None)]. *)
Definition pixel_to_ratio (w : MainWindow) (x y : Qc) : option coord :=
  match size_ok (image_size w) with
  | Some (width, height) => Some ((x / width)%Qc, (y / height)%Qc)
  | None => None
  end.

(** [ratio_to_pixel], on floats.  The view reports its size as floats, so
    on an integer read from a JSON file the two products convert it first;
    the [OverflowError] of that conversion is [check_products] below, which
    the JSON loader runs with the conversion. *)
Definition ratio_to_pixel (w : MainWindow) (ratio_x ratio_y : Qc) : option coord :=
  match size_ok (image_size w) with
  | Some (width, height) => Some ((ratio_x * width)%Qc, (ratio_y * height)%Qc)
  | None => None
  end.

(** ** History *)

(** [list.pop()] on a non-empty list: the list without its last element. *)
Definition pop_last {A} (l : list A) : list A := take (length l - 1)%nat l.

(** [save_state] *)
Definition save_state (w : MainWindow) : MainWindow :=
  let state := keypoints_data w in
  let pushed := undo_stack w ++ [state] in
  let bounded :=
    if decide (max_undo_steps w < length pushed)%nat then tail pushed else pushed in
  set_redo_stack [] (set_undo_stack bounded w).

(** [undo] *)
Definition undo (w : MainWindow) : MainWindow :=
  match last (undo_stack w) with
  | Some previous =>
      let w1 := set_redo_stack (redo_stack w ++ [keypoints_data w]) w in
      let w2 := set_undo_stack (pop_last (undo_stack w1)) w1 in
      let w3 := set_keypoints_data previous w2 in
      set_status "已撤销（未自动保存，如需保存请按Ctrl+S）" w3
  | None => set_status "没有可撤销的操作" w
  end.

(** [redo] *)
Definition redo (w : MainWindow) : MainWindow :=
  match last (redo_stack w) with
  | Some next =>
      let w1 := set_undo_stack (undo_stack w ++ [keypoints_data w]) w in
      let w2 := set_redo_stack (pop_last (redo_stack w1)) w1 in
      let w3 := set_keypoints_data next w2 in
      set_status "已重做（未自动保存，如需保存请按Ctrl+S）" w3
  | None => set_status "没有可重做的操作" w
  end.

(** ** Mutations of the store *)

(** [on_keypoint_added]; [x], [y] are pixel coordinates. *)
Definition on_keypoint_added (kp_id : Z) (x y : Qc) (w : MainWindow) : MainWindow :=
  let w1 := save_state w in
  match pixel_to_ratio w1 x y with
  | None => set_status "错误: 无法保存关键点，图片未正确加载" w1
  | Some ratio => set_keypoints_data (<[KInt kp_id := ratio]> (keypoints_data w1)) w1
  end.

(** [on_keypoint_moved] *)
Definition on_keypoint_moved (kp_id : Z) (x y : Qc) (w : MainWindow) : MainWindow :=
  let w1 := save_state w in
  match pixel_to_ratio w1 x y with
  | None => set_status "错误: 无法保存关键点，图片未正确加载" w1
  | Some ratio => set_keypoints_data (<[KInt kp_id := ratio]> (keypoints_data w1)) w1
  end.

(** [f"{n}"] for an integer. *)
Definition str_of_Z (n : Z) : string := pretty.pretty n.

(** [delete_selected_keypoint]; [current_row] is
    [self.keypoint_list.currentRow()]. *)
Definition delete_selected_keypoint (current_row : Z) (w : MainWindow) : MainWindow :=
  if decide (0 <= current_row) then
    let kp_id := current_row + 1 in
    match keypoints_data w !! KInt kp_id with
    | Some _ =>
        let w1 := save_state w in
        let w2 := set_keypoints_data (delete (KInt kp_id) (keypoints_data w1)) w1 in
        set_status ("已删除第 " +:+ str_of_Z kp_id +:+ " 个关键点") w2
    | None => w
    end
  else w.

(** [swap_keypoints].  [pos1 and pos2] tests two values that are [None] or a
    pair; a pair is never falsy. *)
Definition swap_keypoints (id1 id2 : Z) (w : MainWindow) : MainWindow :=
  let w1 := save_state w in
  let d := keypoints_data w1 in
  let pos1 := d !! KInt id1 in
  let pos2 := d !! KInt id2 in
  let d' :=
    match pos1, pos2 with
    | Some p1, Some p2 => <[KInt id2 := p1]> (<[KInt id1 := p2]> d)
    | Some p1, None => delete (KInt id1) (<[KInt id2 := p1]> d)
    | None, Some p2 => delete (KInt id2) (<[KInt id1 := p2]> d)
    | None, None => d
    end in
  set_status ("已交换第 " +:+ str_of_Z id1 +:+ " 和 " +:+ str_of_Z id2 +:+ " 个关键点")
    (set_keypoints_data d' w1).

(** [clear_annotations]; [reply] is [true] when the operator answers Yes. *)
Definition clear_annotations (reply : bool) (w : MainWindow) : MainWindow :=
  if reply then
    let w1 := save_state w in
    set_status "已清空所有标注" (set_keypoints_data ∅ w1)
  else w.

(** ** Text primitives

    [str.split()] without argument is [String.words]: maximal runs of
    characters other than the ASCII white space characters. *)

Fixpoint str_lstrip (s : string) : string :=
  match s with
  | String a s' => if Ascii.is_space a then str_lstrip s' else s
  | EmptyString => EmptyString
  end.

Fixpoint str_rstrip (s : string) : string :=
  match s with
  | String a s' =>
      match str_rstrip s' with
      | EmptyString => if Ascii.is_space a then EmptyString else String a EmptyString
      | r => String a r
      end
  | EmptyString => EmptyString
  end.

(** [str.strip()] *)
Definition str_strip (s : string) : string := str_rstrip (str_lstrip s).

(** [sep.join(l)] *)
Fixpoint str_join (sep : string) (l : list string) : string :=
  match l with
  | [] => ""
  | [x] => x
  | x :: l' => x +:+ sep +:+ str_join sep l'
  end.

(** Rounding of an exact rational to the nearest integer, ties to even. *)
Definition round_half_even (x : Q) : Z :=
  let a := Qnum x in
  let b := Z.pos (Qden x) in
  let fl := a / b in
  match 2 * (a mod b) ?= b with
  | Lt => fl
  | Gt => fl + 1
  | Eq => if Z.even fl then fl else fl + 1
  end.

(** The number of millionths nearest to [x]. *)
Definition micro (x : Qc) : Z := round_half_even (x * (1000000 # 1))%Q.

(** [round(x, 6)] *)
Definition round6 (x : Qc) : Qc := qc (micro x) 1000000.

(** The [k] low decimal digits of [m], most significant first. *)
Fixpoint fixed_digits (k : nat) (m : N) (acc : string) : string :=
  match k with
  | O => acc
  | S k' => fixed_digits k' (m `div` 10)%N (String (pretty.pretty_N_char (m `mod` 10)%N) acc)
  end.

(** [f"{x:.6f}"]: sign, integer digits, a point and six fraction digits. *)
Definition format6 (x : Qc) : string :=
  let n := Z.abs_N (micro x) in
  (if qlt x q0 then "-" else "")
  +:+ pretty.pretty (n `div` 1000000)%N +:+ "." +:+ fixed_digits 6 (n `mod` 1000000)%N "".

Inductive result (A : Type) :=
  | Ok (a : A)
  | Raise (e : pyexn).
Arguments Ok {A} a.
Arguments Raise {A} e.

Fixpoint digits_value (acc : N) (s : string) : option N :=
  match s with
  | EmptyString => Some acc
  | String a s' =>
      match Ascii.is_nat a with
      | Some d => digits_value (10 * acc + N.of_nat d)%N s'
      | None => None
      end
  end.

(** The text before the first point, and the text after it if there is one. *)
Fixpoint split_point (s : string) : string * option string :=
  match s with
  | EmptyString => (EmptyString, None)
  | String a s' =>
      if Ascii.eqb a "."%char then (EmptyString, Some s')
      else let '(ip, fp) := split_point s' in (String a ip, fp)
  end.

(** A leading sign and the rest of the token. *)
Definition split_sign (token : string) : bool * string :=
  match token with
  | String a r =>
      if Ascii.eqb a "-"%char then (true, r)
      else if Ascii.eqb a "+"%char then (false, r)
      else (false, token)
  | EmptyString => (false, EmptyString)
  end.

(** [float(token)] on plain decimal literals: an optional sign, digits and
    an optional point followed by digits, with at least one digit.  This is
    every token the tool itself writes.  Python also reads exponent
    notation, digit separators and the words [inf] and [nan]; these are not
    represented, and the model counts such a token as not numeric. *)
Definition py_float (token : string) : result Qc :=
  let '(neg, body) := split_sign token in
  let '(ip, fp) := split_point body in
  let fp := default "" fp in
  if (String.length ip + String.length fp =? 0)%nat then Raise (ValueError token)
  else
    match digits_value 0 (ip +:+ fp) with
    | Some m =>
        Ok (qc (if neg then - Z.of_N m else Z.of_N m)
               (Z.to_pos (10 ^ Z.of_nat (String.length fp))))
    | None => Raise (ValueError token)
    end.

(** [[float(c) for c in coords]]: the first token that fails raises. *)
Fixpoint floats_of (tokens : list string) : result (list Qc) :=
  match tokens with
  | [] => Ok []
  | c :: rest =>
      match py_float c with
      | Raise e => Raise e
      | Ok v =>
          match floats_of rest with
          | Raise e => Raise e
          | Ok vs => Ok (v :: vs)
          end
      end
  end.

(** ** Statements that update the window and may raise *)

Definition M (A : Type) : Type := MainWindow → result A * MainWindow.

Definition ret {A} (a : A) : M A := λ w, (Ok a, w).

Definition raise {A} (e : pyexn) : M A := λ w, (Raise e, w).

Definition bind {A B} (m : M A) (k : A → M B) : M B :=
  λ w, match m w with
       | (Ok a, w') => k a w'
       | (Raise e, w') => (Raise e, w')
       end.

Definition lift {A} (r : result A) : M A := λ w, (r, w).

Definition get : M MainWindow := λ w, (Ok w, w).

Definition modify (f : MainWindow → MainWindow) : M unit := λ w, (Ok tt, f w).

Declare Scope py_scope.
Delimit Scope py_scope with py.
Notation "'let!' x ':=' m 'in' k" := (bind m (λ x, k))
  (at level 10, x name, m at level 100, k at level 200) : py_scope.
Notation "'do!' m 'in' k" := (bind m (λ _, k))
  (at level 10, m at level 100, k at level 200) : py_scope.

(** [for x in xs: acc = body(acc, x)], stopping at the first exception. *)
Fixpoint for_each {A B} (xs : list A) (body : B → A → M B) (acc : B) : M B :=
  match xs with
  | [] => ret acc
  | x :: rest => bind (body acc x) (for_each rest body)
  end.

(** [coords[i]] on a list. *)
Definition index {A} (l : list A) (i : nat) : M A :=
  match l !! i with
  | Some a => ret a
  | None => raise IndexError
  end.

(** ** Delimited text format *)

Definition sentinel_token : string := "-1.000000".

(** The list [coords] built by [_save_txt_annotations]. *)
Definition txt_coords (d : store) : list string :=
  flat_map (λ kp_id : Z,
      match d !! KInt kp_id with
      | Some (ratio_x, ratio_y) => [format6 ratio_x; format6 ratio_y]
      | None => [sentinel_token; sentinel_token]
      end) (seqZ 1 68).

Definition write_txt (name content : string) (f : filesystem) : filesystem :=
  {| txt_files := <[name := content]> (txt_files f); json_files := json_files f |}.

Definition write_json (name : string) (data : json) (f : filesystem) : filesystem :=
  {| txt_files := txt_files f; json_files := <[name := Some data]> (json_files f) |}.

(** [_save_txt_annotations] *)
Definition save_txt_annotations (image : image_path) (w : MainWindow) : MainWindow :=
  let txt_content := str_join " " (txt_coords (keypoints_data w)) in
  set_status "标注已保存 (TXT)" (set_disk (write_txt (stem image) txt_content (disk w)) w).

(** Body of the loop of [_load_txt_annotations] for index [i]. *)
Definition load_txt_point (coords : list Qc) (loaded_count : nat) (i : nat) : M nat :=
  (let kp_id := Z.of_nat i + 1 in
   let! ratio_x := index coords (i * 2) in
   let! ratio_y := index coords (i * 2 + 1) in
   if qlt ratio_x q0 || qlt ratio_y q0 then ret loaded_count
   else
     let! w := get in
     match ratio_to_pixel w ratio_x ratio_y with
     | None => ret loaded_count
     | Some _ =>
         do! modify (λ w, set_keypoints_data
                        (<[KInt kp_id := (ratio_x, ratio_y)]> (keypoints_data w)) w) in
         ret (loaded_count + 1)%nat
     end)%py.

Definition txt_count_message (n : nat) : string :=
  "TXT文件格式错误：应包含136个坐标值，实际" +:+ pretty.pretty n +:+ "个".

(** What [_load_txt_annotations] does inside [try]; [None] is the early
    [return] after the warning about the number of values. *)
Definition load_txt_try (content : string) : M (option nat) :=
  (let content := str_strip content in
   let coords := String.words content in
   let! coords := lift (floats_of coords) in
   if decide (length coords ≠ 136%nat) then
     do! modify (show_dialog (Warning (txt_count_message (length coords)))) in
     ret None
   else
     let! loaded_count := for_each (seq 0 68) (load_txt_point coords) 0%nat in
     do! modify (set_status ("加载了 " +:+ pretty.pretty loaded_count +:+ " 个关键点 (TXT)")) in
     ret (Some loaded_count))%py.

(** [try: body except Exception as e: QMessageBox.warning(..., prefix + str(e))] *)
Definition try_warn {A} (prefix : string) (body : M A) (w : MainWindow) : MainWindow :=
  match body w with
  | (Ok _, w') => w'
  | (Raise e, w') => show_dialog (WarningExc prefix e) w'
  end.

(** [_load_txt_annotations]; [content] is the text of the file. *)
Definition load_txt_annotations (content : string) (w : MainWindow) : MainWindow :=
  try_warn "加载TXT标注文件失败：" (load_txt_try content) w.

(** ** Structured record format *)

Definition unset : coord := (qc (-1) 1, qc (-1) 1).

(** The list [keypoints] built by [_save_json_annotations]. *)
Definition json_keypoints (d : store) : list json :=
  map (λ kp_id : Z,
      let '(ratio_x, ratio_y) := default unset (d !! KInt kp_id) in
      JObj [("id", JNum (qc kp_id 1));
            ("x", JNum (round6 ratio_x));
            ("y", JNum (round6 ratio_y))]) (seqZ 1 68).

(** [_save_json_annotations] *)
Definition save_json_annotations (image : image_path) (w : MainWindow) : MainWindow :=
  let data := JObj [("image_name", JStr (path_name image));
                    ("keypoints", JArr (json_keypoints (keypoints_data w)))] in
  set_status "标注已保存 (JSON)" (set_disk (write_json (stem image) data (disk w)) w).

(** Lookup in a decoded object: the last member with that name. *)
Fixpoint json_get (name : string) (members : list (string * json)) : option json :=
  match members with
  | [] => None
  | (k, v) :: rest =>
      match json_get name rest with
      | Some v' => Some v'
      | None => if decide (k = name) then Some v else None
      end
  end.

(** [data.get('keypoints', [])]: only a dictionary has [get]. *)
Definition dict_get_keypoints (data : json) : result json :=
  match data with
  | JObj members => Ok (default (JArr []) (json_get "keypoints" members))
  | _ => Raise AttributeError
  end.

(** The values a [for] loop draws from [v].  A dictionary yields its keys
    and a string its characters; these are strings, on which the first
    subscript of the loop body raises, so only their presence matters. *)
Definition iter_items (v : json) : result (list json) :=
  match v with
  | JArr items => Ok items
  | JObj members => Ok (map (λ m, JStr m.1) members)
  | JStr s => Ok (map (λ c, JStr (String c "")) (Stdlib.Strings.String.list_ascii_of_string s))
  | _ => Raise TypeError
  end.

(** [kp[name]] *)
Definition subscript (kp : json) (name : string) : result json :=
  match kp with
  | JObj members =>
      match json_get name members with
      | Some v => Ok v
      | None => Raise (KeyError name)
      end
  | _ => Raise TypeError
  end.

(** The operand of [v < 0]: numbers, and booleans as [1] and [0]. *)
Definition as_number (v : json) : result Qc :=
  match v with
  | JNum q => Ok q
  | JBool b => Ok (if b then qc 1 1 else q0)
  | _ => Raise TypeError
  end.

(** The key under which [self.keypoints_data[kp_id] = ...] stores; lists
    and dictionaries are unhashable. *)
Definition key_of_json (v : json) : result pykey :=
  match v with
  | JNum q => Ok (if decide (Qden q = 1%positive) then KInt (Qnum q) else KFrac q)
  | JBool b => Ok (KInt (if b then 1 else 0))
  | JStr s => Ok (KStr s)
  | JNull => Ok KNone
  | _ => Raise TypeError
  end.

(** Conversion of a Python integer to a float, as the product of an
    integer by a float performs it, rounds to the nearest float and raises
    [OverflowError] when the result is not finite, that is from
    [2^1024 - 2^970] on in absolute value.  No float is that large, so a
    number of a JSON file in this range is an integer. *)
Definition int_overflow_bound : Z := 2 ^ 1024 - 2 ^ 970.

Definition int_too_large (q : Qc) : bool :=
  negb (qlt (qc (- int_overflow_bound) 1) q && qlt q (qc int_overflow_bound 1)).

(** The two products of [ratio_to_pixel], on numbers read from JSON. *)
Definition check_products (ratio_x ratio_y : Qc) : result unit :=
  if int_too_large ratio_x then Raise OverflowError
  else if int_too_large ratio_y then Raise OverflowError
  else Ok tt.

(** Body of the loop of [_load_json_annotations]. *)
Definition load_json_point (loaded_count : nat) (kp : json) : M nat :=
  (let! kp_id := lift (subscript kp "id") in
   let! ratio_x := lift (subscript kp "x") in
   let! ratio_y := lift (subscript kp "y") in
   let! ratio_x := lift (as_number ratio_x) in
   if qlt ratio_x q0 then ret loaded_count
   else
     let! ratio_y := lift (as_number ratio_y) in
     if qlt ratio_y q0 then ret loaded_count
     else
       let! w := get in
       match ratio_to_pixel w ratio_x ratio_y with
       | None => ret loaded_count
       | Some _ =>
           do! lift (check_products ratio_x ratio_y) in
           let! key := lift (key_of_json kp_id) in
           do! modify (λ w, set_keypoints_data
                          (<[key := (ratio_x, ratio_y)]> (keypoints_data w)) w) in
           ret (loaded_count + 1)%nat
       end)%py.

(** What [_load_json_annotations] does inside [try]. *)
Definition load_json_try (file : option json) : M nat :=
  (let! data := match file with Some data => ret data | None => raise JSONDecodeError end in
   let! keypoints := lift (dict_get_keypoints data) in
   let! items := lift (iter_items keypoints) in
   let! loaded_count := for_each items load_json_point 0%nat in
   do! modify (set_status ("加载了 " +:+ pretty.pretty loaded_count +:+ " 个关键点 (JSON)")) in
   ret loaded_count)%py.

(** [_load_json_annotations]; [file] is the content of the file. *)
Definition load_json_annotations (file : option json) (w : MainWindow) : MainWindow :=
  try_warn "加载JSON标注文件失败：" (load_json_try file) w.

(** ** Loading and saving the current image's annotations *)

(** [load_annotations] up to its last statement, the debug print of the
    sorted keys: the window the method leaves, whether that print then
    returns or raises ([load_annotations_call] below tells which). *)
Definition load_annotations (image : image_path) (w : MainWindow) : MainWindow :=
  let w := set_keypoints_data ∅ w in
  match annotation_format w with
  | FmtJson =>
      match json_files (disk w) !! stem image with
      | Some file => load_json_annotations file w
      | None => set_status "未找到JSON标注文件，创建新标注" w
      end
  | FmtTxt =>
      match txt_files (disk w) !! stem image with
      | Some content => load_txt_annotations content w
      | None => set_status "未找到TXT标注文件，创建新标注" w
      end
  end.

(** [self.image_files[self.current_image_index]] once the index is in range *)
Definition current_image (w : MainWindow) : option image_path :=
  if decide (current_image_index w < 0 ∨ Z.of_nat (length (image_files w)) <= current_image_index w)
  then None
  else image_files w !! Z.to_nat (current_image_index w).

(** Whether [<] orders two keys: numbers with numbers and strings with
    strings; a string and a number, or [None] and anything, raise. *)
Definition comparable (k1 k2 : pykey) : bool :=
  match k1, k2 with
  | KInt _, KInt _ | KInt _, KFrac _ | KFrac _, KInt _ | KFrac _, KFrac _ => true
  | KStr _, KStr _ => true
  | _, _ => false
  end.

(** [sorted(self.keypoints_data.keys())] raises [TypeError].  Sorting has to
    compare keys of every kind present with one another, so it raises
    exactly when two of the keys cannot be ordered. *)
Definition sorted_raises (d : store) : bool :=
  let keys := (map_to_list d).*1 in
  existsb (λ k1, existsb (λ k2, negb (bool_decide (k1 = k2))
                                && negb (comparable k1 k2)) keys) keys.

(** [print(f"... {sorted(self.keypoints_data.keys())}")], outside any [try]. *)
Definition debug_print_sorted_keys : M unit :=
  λ w, if sorted_raises (keypoints_data w) then (Raise TypeError, w) else (Ok tt, w).

(** Whether a call ends by an exception, and the window it leaves. *)
Definition raises {A} (m : M A) (w : MainWindow) : bool :=
  match (m w).1 with
  | Raise _ => true
  | Ok _ => false
  end.

Definition window_after {A} (m : M A) (w : MainWindow) : MainWindow := (m w).2.

(** [load_annotations] as a call that may raise. *)
Definition load_annotations_call (image_path : image_path) : M unit :=
  (do! modify (load_annotations image_path) in
   debug_print_sorted_keys)%py.

(** [save_annotations] as a call that may raise: the debug print comes
    before anything is written. *)
Definition save_annotations_call : M unit :=
  (let! w := get in
   match current_image w with
   | None => ret tt
   | Some image_path =>
       do! debug_print_sorted_keys in
       match annotation_format w with
       | FmtJson => modify (save_json_annotations image_path)
       | FmtTxt => modify (save_txt_annotations image_path)
       end
   end)%py.

(** The window [save_annotations] leaves. *)
Definition save_annotations (w : MainWindow) : MainWindow :=
  window_after save_annotations_call w.

(** ** Batch conversion ([convert_txt_to_json.py]) *)

(** Lines printed on the console; [PrintedExc prefix e] ends with [str(e)]. *)
Inductive console :=
  | Printed (text : string)
  | PrintedExc (prefix : string) (e : pyexn).

Definition convert_count_message (n : nat) : string :=
  "  ✗ 坐标数量不正确: " +:+ pretty.pretty n +:+ "，期望136 (68个点x2)".

(** The list [keypoints] built by [convert_txt_to_json]. *)
Fixpoint convert_keypoints (coords : list Qc) (indices : list nat) : result (list json) :=
  match indices with
  | [] => Ok []
  | i :: rest =>
      match coords !! (i * 2)%nat, coords !! (i * 2 + 1)%nat with
      | Some x, Some y =>
          match convert_keypoints coords rest with
          | Ok kps =>
              Ok (JObj [("id", JNum (qc (Z.of_nat i + 1) 1));
                        ("x", JNum (round6 x)); ("y", JNum (round6 y))] :: kps)
          | Raise e => Raise e
          end
      | _, _ => Raise IndexError
      end
  end.

(** [convert_txt_to_json]; [content] is the text of [txt_file].  The answer
    is the returned flag, the line printed and the files afterwards. *)
Definition convert_txt_to_json (content : string) (image_file : image_path)
    (f : filesystem) : bool * console * filesystem :=
  let content := str_strip content in
  let coords := String.words content in
  match floats_of coords with
  | Raise e => (false, PrintedExc "  ✗ 转换失败: " e, f)
  | Ok coords =>
      if decide (length coords ≠ 136%nat) then
        (false, Printed (convert_count_message (length coords)), f)
      else
        match convert_keypoints coords (seq 0 68) with
        | Raise e => (false, PrintedExc "  ✗ 转换失败: " e, f)
        | Ok keypoints =>
            let data := JObj [("image_name", JStr (path_name image_file));
                              ("keypoints", JArr keypoints)] in
            (true, Printed ("  ✓ 成功转换: " +:+ stem image_file +:+ ".json"),
             write_json (stem image_file) data f)
        end
  end.

(** ** Operator commands *)

Inductive mutation :=
  | AddKeypoint (kp_id : Z) (x y : Qc)
  | MoveKeypoint (kp_id : Z) (x y : Qc)
  | DeleteSelected (current_row : Z)
  | SwapKeypoints (id1 id2 : Z)
  | ClearAnnotations (reply : bool).

Definition mutate (m : mutation) (w : MainWindow) : MainWindow :=
  match m with
  | AddKeypoint kp_id x y => on_keypoint_added kp_id x y w
  | MoveKeypoint kp_id x y => on_keypoint_moved kp_id x y w
  | DeleteSelected current_row => delete_selected_keypoint current_row w
  | SwapKeypoints id1 id2 => swap_keypoints id1 id2 w
  | ClearAnnotations reply => clear_annotations reply w
  end.

Inductive command :=
  | Mutate (m : mutation)
  | Undo
  | Redo.

Definition step (w : MainWindow) (c : command) : MainWindow :=
  match c with
  | Mutate m => mutate m w
  | Undo => undo w
  | Redo => redo w
  end.

Definition run (cs : list command) (w : MainWindow) : MainWindow :=
  fold_left step cs w.

(** ** Driving the history

    [record_snapshot s] is a call of [save_state] at a moment when the live
    store is [s]; [record_all] performs one such call per store of a list,
    in order. *)

Definition record_snapshot (s : store) (w : MainWindow) : MainWindow :=
  save_state (set_keypoints_data s w).

Definition record_all (ss : list store) (w : MainWindow) : MainWindow :=
  fold_left (λ w s, record_snapshot s w) ss w.

(** The [n] most recent entries of a stack. *)
Definition keep_last {A} (n : nat) (l : list A) : list A := drop (length l - n) l.

(** A mutation request that the handler turns down without touching the
    window: no annotated row is selected for deletion, or the operator
    answers No to the confirmation of a clear. *)
Definition declined (m : mutation) (w : MainWindow) : bool :=
  match m with
  | DeleteSelected current_row =>
      negb (bool_decide (0 <= current_row)
            && bool_decide (is_Some (keypoints_data w !! KInt (current_row + 1))))
  | ClearAnnotations reply => negb reply
  | _ => false
  end.

(** The exchange of two identifiers, as a map on keys. *)
Definition transpose (id1 id2 : Z) (k : pykey) : pykey :=
  if decide (k = KInt id1) then KInt id2
  else if decide (k = KInt id2) then KInt id1
  else k.

(** ** Shapes of tokens *)

Fixpoint no_space (s : string) : bool :=
  match s with
  | EmptyString => true
  | String a s' => negb (Ascii.is_space a) && no_space s'
  end.

(** A non-empty string without white space. *)
Definition is_token (s : string) : bool :=
  match s with
  | EmptyString => false
  | String _ _ => no_space s
  end.

Definition is_digit (a : ascii) : bool :=
  match Ascii.is_nat a with
  | Some _ => true
  | None => false
  end.

Fixpoint all_digits (s : string) : bool :=
  match s with
  | EmptyString => true
  | String a s' => is_digit a && all_digits s'
  end.

(** ** The stores the loaders build, as functions of the file content *)

(** Effect on the store of one round of the loop of [_load_txt_annotations],
    given the list of parsed values and the answer of [get_image_size()]. *)
Definition decode_txt_step (coords : list Qc) (sz : option (Qc * Qc))
    (d : store) (i : nat) : store :=
  match coords !! (i * 2)%nat, coords !! (i * 2 + 1)%nat with
  | Some x, Some y =>
      if qlt x q0 || qlt y q0 then d
      else match size_ok sz with
           | Some _ => <[KInt (Z.of_nat i + 1) := (x, y)]> d
           | None => d
           end
  | _, _ => d
  end.

Definition decode_txt (coords : list Qc) (sz : option (Qc * Qc)) (d : store) : store :=
  fold_left (decode_txt_step coords sz) (seq 0 68) d.

(** The entry that round [i] of that loop stores, if it stores one. *)
Definition txt_entry (coords : list Qc) (sz : option (Qc * Qc)) (i : nat) : option coord :=
  match coords !! (i * 2)%nat, coords !! (i * 2 + 1)%nat with
  | Some x, Some y =>
      if qlt x q0 || qlt y q0 then None
      else match size_ok sz with
           | Some _ => Some (x, y)
           | None => None
           end
  | _, _ => None
  end.

(** What one round of the loop of [_load_json_annotations] does with the
    item [kp]: it raises, or skips the item ([None]), or stores a pair under
    a key. *)
Definition json_entry (sz : option (Qc * Qc)) (kp : json) : result (option (pykey * coord)) :=
  match subscript kp "id" with
  | Raise e => Raise e
  | Ok kp_id =>
  match subscript kp "x" with
  | Raise e => Raise e
  | Ok ratio_x =>
  match subscript kp "y" with
  | Raise e => Raise e
  | Ok ratio_y =>
  match as_number ratio_x with
  | Raise e => Raise e
  | Ok x =>
      if qlt x q0 then Ok None
      else
        match as_number ratio_y with
        | Raise e => Raise e
        | Ok y =>
            if qlt y q0 then Ok None
            else
              match size_ok sz with
              | None => Ok None
              | Some _ =>
                  match check_products x y with
                  | Raise e => Raise e
                  | Ok _ =>
                      match key_of_json kp_id with
                      | Raise e => Raise e
                      | Ok key => Ok (Some (key, (x, y)))
                      end
                  end
              end
        end
  end end end end.

(** The store after the loop over [items], and the exception that ended
    the loop if one did. *)
Fixpoint decode_json (sz : option (Qc * Qc)) (items : list json) (d : store)
    : store * option pyexn :=
  match items with
  | [] => (d, None)
  | kp :: rest =>
      match json_entry sz kp with
      | Raise e => (d, Some e)
      | Ok None => decode_json sz rest d
      | Ok (Some (key, p)) => decode_json sz rest (<[key := p]> d)
      end
  end.

(** The items over which [_load_json_annotations] loops, for a file. *)
Definition json_items (file : option json) : result (list json) :=
  match file with
  | None => Raise JSONDecodeError
  | Some data =>
      match dict_get_keypoints data with
      | Raise e => Raise e
      | Ok keypoints => iter_items keypoints
      end
  end.

(** One element of ["keypoints"] as the tool writes it. *)
Definition point_record (id : Z) (x y : Qc) : json :=
  JObj [("id", JNum (qc id 1)); ("x", JNum x); ("y", JNum y)].

(** A ["keypoints"] list made of such elements. *)
Definition point_records (l : list (Z * coord)) : list json :=
  map (λ e, point_record e.1 e.2.1 e.2.2) l.

(** No component of any stored pair is negative. *)
Definition no_negative (d : store) : Prop :=
  ∀ k x y, d !! k = Some (x, y) → ¬ (x < q0)%Qc ∧ ¬ (y < q0)%Qc.

(** The largest finite float, [sys.float_info.max]. *)
Definition float_max : Z := 2 ^ 1024 - 2 ^ 971.

(** A number in the range of the finite floats. *)
Definition in_float_range (x : Qc) : Prop :=
  (qc (- float_max) 1 ≤ x ≤ qc float_max 1)%Qc.

(** The numbers of a store are floats. *)
Definition float_store (d : store) : Prop :=
  ∀ k x y, d !! k = Some (x, y) → in_float_range x ∧ in_float_range y.

(** A pair with both components rounded to six decimals. *)
Definition round_coord (p : coord) : coord := (round6 p.1, round6 p.2).

(** The two numbers a saved file holds for point [id]. *)
Definition saved_pair (d : store) (id : Z) : coord :=
  match d !! KInt id with
  | Some (x, y) => (round6 x, round6 y)
  | None => (qc (-1) 1, qc (-1) 1)
  end.

(** The store obtained by storing, for each [id] of a list in turn, the
    pair [entry id] when there is one. *)
Definition store_entries (entry : Z → option coord) (ids : list Z) (d : store) : store :=
  fold_left (λ d id, match entry id with
                     | Some p => <[KInt id := p]> d
                     | None => d
                     end) ids d.

(** ** Sample data *)

(** A delimited file of 135 values. *)
Definition txt_135_values : string := str_join " " (replicate 135 "0.500000").

Definition parsed_135_values : list Qc :=
  match floats_of (String.words (str_strip txt_135_values)) with
  | Ok coords => coords
  | Raise _ => []
  end.

Definition face : image_path := {| stem := "face"; suffix := ".jpg" |}.

(** A delimited file of 136 values in which point 5 carries the pair
    (-1, -1) and every other point (0.5, 0.5). *)
Definition txt_point_5_unset : string :=
  str_join " " (replicate 8 "0.500000" ++ ["-1.000000"; "-1.000000"]
                ++ replicate 126 "0.500000").

Definition parsed_point_5_unset : list Qc :=
  match floats_of (String.words (str_strip txt_point_5_unset)) with
  | Ok coords => coords
  | Raise _ => []
  end.

Definition no_files : filesystem := {| txt_files := ∅; json_files := ∅ |}.

(** A window showing an 800 x 600 image ["face.jpg"], nothing annotated. *)
Definition sample_window : MainWindow :=
  {| image_files := [ {| stem := "face"; suffix := ".jpg" |} ];
     current_image_index := 0;
     keypoints_data := ∅; auto_save := true;
     annotation_format := FmtTxt;
     undo_stack := []; redo_stack := [];
     max_undo_steps := 10; image_size := Some (qc 800 1, qc 600 1);
     status_label := ""; dialogs := [];
     disk := {| txt_files := ∅; json_files := ∅ |} |}.

(** Twelve points added one after the other, three undos and one redo. *)
Definition sample_commands : list command :=
  map (λ i : Z, Mutate (AddKeypoint i (qc (10 * i) 1) (qc (5 * i) 1))) (seqZ 1 12)
  ++ [Undo; Undo; Undo; Redo].

(** The window after a directory is opened whose first image ["face.jpg"]
    cannot be read as a picture: [load_image] returns early and
    [get_image_size()] keeps answering [(None, None)]. *)
Definition unreadable_image_window : MainWindow :=
  {| image_files := [ {| stem := "face"; suffix := ".jpg" |} ];
     current_image_index := 0;
     keypoints_data := ∅; auto_save := true;
     annotation_format := FmtTxt;
     undo_stack := []; redo_stack := [];
     max_undo_steps := 10; image_size := None;
     status_label := ""; dialogs := [];
     disk := {| txt_files := ∅; json_files := ∅ |} |}.

(** The store [{1: (0.5, 0.5)}]. *)
Definition only_point_half : store := {[ KInt 1 := (qc 1 2, qc 1 2) ]}.

(** A structured file whose second element has no ["y"]. *)
Definition json_second_point_without_y : json :=
  JObj [("image_name", JStr "face.jpg");
        ("keypoints",
         JArr [ point_record 1 (qc 1 2) (qc 1 2);
                JObj [("id", JNum (qc 2 1)); ("x", JNum (qc 1 4))] ])].

(** A structured file with a single, well-formed element. *)
Definition json_single_point : json :=
  JObj [("image_name", JStr "face.jpg");
        ("keypoints", JArr [ point_record 1 (qc 1 2) (qc 1 2) ])].

(** [sample_window] switched to the structured format, with [file] stored
    next to the image. *)
Definition json_window (file : json) : MainWindow :=
  {| image_files := [ {| stem := "face"; suffix := ".jpg" |} ];
     current_image_index := 0;
     keypoints_data := ∅; auto_save := true;
     annotation_format := FmtJson;
     undo_stack := []; redo_stack := [];
     max_undo_steps := 10; image_size := Some (qc 800 1, qc 600 1);
     status_label := ""; dialogs := [];
     disk := {| txt_files := ∅; json_files := {[ "face" := Some file ]} |} |}.

(** The store [{1: (0.1, 0.1)}]. *)
Definition only_point_one : store := {[ KInt 1 := (qc 1 10, qc 1 10) ]}.

(** Twelve distinct stores: point 1 at [(i/100, i/100)] for [i = 1..12]. *)
Definition twelve_snapshots : list store :=
  map (λ i : Z, {[ KInt 1 := (qc i 100, qc i 100) ]}) (seqZ 1 12).

(** The number of snapshots held by the two stacks together. *)
Definition history_size (w : MainWindow) : nat :=
  (length (undo_stack w) + length (redo_stack w))%nat.

(** ** Session handlers *)

Definition set_auto_save (enabled : bool) (w : MainWindow) : MainWindow :=
  {| image_files := image_files w; current_image_index := current_image_index w;
     keypoints_data := keypoints_data w; auto_save := enabled;
     annotation_format := annotation_format w;
     undo_stack := undo_stack w; redo_stack := redo_stack w;
     max_undo_steps := max_undo_steps w; image_size := image_size w;
     status_label := status_label w; dialogs := dialogs w; disk := disk w |}.

Definition set_annotation_format (fmt : format) (w : MainWindow) : MainWindow :=
  {| image_files := image_files w; current_image_index := current_image_index w;
     keypoints_data := keypoints_data w; auto_save := auto_save w;
     annotation_format := fmt;
     undo_stack := undo_stack w; redo_stack := redo_stack w;
     max_undo_steps := max_undo_steps w; image_size := image_size w;
     status_label := status_label w; dialogs := dialogs w; disk := disk w |}.

Definition set_current_image_index (i : Z) (w : MainWindow) : MainWindow :=
  {| image_files := image_files w; current_image_index := i;
     keypoints_data := keypoints_data w; auto_save := auto_save w;
     annotation_format := annotation_format w;
     undo_stack := undo_stack w; redo_stack := redo_stack w;
     max_undo_steps := max_undo_steps w; image_size := image_size w;
     status_label := status_label w; dialogs := dialogs w; disk := disk w |}.

Definition set_image_size (sz : option (Qc * Qc)) (w : MainWindow) : MainWindow :=
  {| image_files := image_files w; current_image_index := current_image_index w;
     keypoints_data := keypoints_data w; auto_save := auto_save w;
     annotation_format := annotation_format w;
     undo_stack := undo_stack w; redo_stack := redo_stack w;
     max_undo_steps := max_undo_steps w; image_size := sz;
     status_label := status_label w; dialogs := dialogs w; disk := disk w |}.

(** [toggle_auto_save] *)
Definition toggle_auto_save (enabled : bool) (w : MainWindow) : MainWindow :=
  set_auto_save enabled w.

(** The session handlers below call [save_annotations] and
    [load_annotations], whose debug prints may raise; nothing catches the
    exception, so it ends the handler.  Each handler is given as a call,
    and the window it leaves (by return or by exception) under the name of
    the method. *)

(** [closeEvent] *)
Definition closeEvent_call : M unit :=
  (let! w := get in
   if auto_save w && bool_decide (0 <= current_image_index w)
   then save_annotations_call else ret tt)%py.

Definition closeEvent (w : MainWindow) : MainWindow := window_after closeEvent_call w.

(** [toggle_annotation_format]; [reply] is [true] when the operator answers
    Yes to the question asked when auto-save is off.  A dictionary is truthy
    when it is not empty. *)
Definition toggle_annotation_format_call (reply : bool) : M unit :=
  (let! w := get in
   do! (if bool_decide (0 <= current_image_index w)
           && negb (bool_decide (keypoints_data w = ∅))
        then
          if auto_save w then save_annotations_call
          else if reply then save_annotations_call else ret tt
        else ret tt) in
   let! w := get in
   do! (match annotation_format w with
        | FmtTxt =>
            modify (λ w, set_status "标注格式已切换为 JSON"
                           (set_annotation_format FmtJson w))
        | FmtJson =>
            modify (λ w, set_status "标注格式已切换为 TXT"
                           (set_annotation_format FmtTxt w))
        end) in
   let! w := get in
   match current_image w with
   | Some image_path => load_annotations_call image_path
   | None => ret tt
   end)%py.

Definition toggle_annotation_format (reply : bool) (w : MainWindow) : MainWindow :=
  window_after (toggle_annotation_format_call reply) w.

(** [load_current_image] when [QPixmap(image_path)] is a picture of size
    [pixmap_size]: the view then answers this size.  The case of a file that
    cannot be read as a picture is not covered. *)
Definition load_current_image_call (pixmap_size : Qc * Qc) : M unit :=
  (let! w := get in
   match current_image w with
   | None => ret tt
   | Some image_path =>
       do! modify (set_image_size (Some pixmap_size)) in
       do! load_annotations_call image_path in
       modify (λ w, set_redo_stack [] (set_undo_stack [] w))
   end)%py.

Definition load_current_image (pixmap_size : Qc * Qc) (w : MainWindow) : MainWindow :=
  window_after (load_current_image_call pixmap_size) w.

(** [previous_image], no event pending at [processEvents()]; [pixmap_size]
    is the size of the picture that gets loaded. *)
Definition previous_image_call (pixmap_size : Qc * Qc) : M unit :=
  (let! w := get in
   if decide (0 < current_image_index w) then
     do! (if auto_save w then save_annotations_call else ret tt) in
     do! modify (λ w, set_current_image_index (current_image_index w - 1) w) in
     load_current_image_call pixmap_size
   else ret tt)%py.

Definition previous_image (pixmap_size : Qc * Qc) (w : MainWindow) : MainWindow :=
  window_after (previous_image_call pixmap_size) w.

(** [next_image], under the same conventions. *)
Definition next_image_call (pixmap_size : Qc * Qc) : M unit :=
  (let! w := get in
   if decide (current_image_index w < Z.of_nat (length (image_files w)) - 1) then
     do! (if auto_save w then save_annotations_call else ret tt) in
     do! modify (λ w, set_current_image_index (current_image_index w + 1) w) in
     load_current_image_call pixmap_size
   else ret tt)%py.

Definition next_image (pixmap_size : Qc * Qc) (w : MainWindow) : MainWindow :=
  window_after (next_image_call pixmap_size) w.

(** What the loaders and the history operations leave alone. *)
Definition settings (w : MainWindow) :
    list image_path * Z * bool * format * nat * option (Qc * Qc) :=
  (image_files w, current_image_index w, auto_save w, annotation_format w,
   max_undo_steps w, image_size w).

(** The store and the two stacks. *)
Definition history (w : MainWindow) : store * list store * list store :=
  (keypoints_data w, undo_stack w, redo_stack w).

(** ** Sequences of mutations *)

(** Every mutation of the list is carried out when its turn comes. *)
Fixpoint all_performed (ms : list mutation) (w : MainWindow) : Prop :=
  match ms with
  | [] => True
  | m :: ms' => declined m w = false ∧ all_performed ms' (mutate m w)
  end.

(** The stores in which the mutations of the list find the window. *)
Fixpoint pre_states (ms : list mutation) (w : MainWindow) : list store :=
  match ms with
  | [] => []
  | m :: ms' => keypoints_data w :: pre_states ms' (mutate m w)
  end.

(** ** What a saved file reads back as *)

(** The pair the loaders store for point [id] when they read a file saved
    from the store [d], if they store one: [saved_pair d id] unless one of
    its numbers is negative or [get_image_size()] gives no positive size. *)
Definition reload_entry (sz : option (Qc * Qc)) (d : store) (id : Z) : option coord :=
  let p := saved_pair d id in
  if qlt p.1 q0 || qlt p.2 q0 then None
  else match size_ok sz with
       | Some _ => Some p
       | None => None
       end.

(** Three records whose ids are outside 1..68, two of them with the same
    id, and the structured file that lists them. *)
Definition records_out_of_range : list (Z * coord) :=
  [(200, (qc 1 2, qc 1 2)); (0, (qc 3 1, qc 1 4)); (200, (qc 1 4, qc 1 4))].

Definition json_out_of_range : json :=
  JObj [("keypoints", JArr (point_records records_out_of_range))].

(** A second image, and a window on a directory of two images showing the
    first one with point 1 placed. *)
Definition side : image_path := {| stem := "side"; suffix := ".png" |}.

Definition two_image_window : MainWindow :=
  {| image_files := [face; side];
     current_image_index := 0;
     keypoints_data := only_point_one; auto_save := true;
     annotation_format := FmtTxt;
     undo_stack := []; redo_stack := [];
     max_undo_steps := 10; image_size := Some (qc 800 1, qc 600 1);
     status_label := ""; dialogs := [];
     disk := {| txt_files := ∅; json_files := ∅ |} |}.

(** A window on a directory that holds the same picture name with two
    extensions, showing the first with point 1 placed. *)
Definition face_png : image_path := {| stem := "face"; suffix := ".png" |}.

Definition same_stem_window : MainWindow :=
  {| image_files := [face; face_png];
     current_image_index := 0;
     keypoints_data := only_point_one; auto_save := true;
     annotation_format := FmtTxt;
     undo_stack := []; redo_stack := [];
     max_undo_steps := 10; image_size := Some (qc 800 1, qc 600 1);
     status_label := ""; dialogs := [];
     disk := {| txt_files := ∅; json_files := ∅ |} |}.

(** ** The reference view ([load_reference_image]) *)

(** [int(x)] on a float: truncation toward zero. *)
Definition py_int (x : Qc) : Z := Z.quot (Qnum x) (Z.pos (Qden x)).

(** The arguments given to [setMinimumHeight] and [setMinimumWidth], as a
    function of the answer of [reference_view.get_image_size()]; [None] when
    the two setters are not called ([img_width and img_height] is falsy for
    [None] and for zero). *)
Definition reference_view_size (img_size : option (Qc * Qc)) : option (Z * Z) :=
  match img_size with
  | Some (img_width, img_height) =>
      if negb (bool_decide (img_width = q0)) && negb (bool_decide (img_height = q0))
      then
        let aspect_ratio := (img_width / img_height)%Qc in
        let base_height := 400 in
        let optimal_height := base_height in
        let optimal_width := py_int (qc base_height 1 * aspect_ratio)%Qc in
        let min_height := 300 in
        let max_height := 600 in
        let min_width := 200 in
        let max_width := 500 in
        let optimal_height := Z.max min_height (Z.min max_height optimal_height) in
        let optimal_width := Z.max min_width (Z.min max_width optimal_width) in
        let optimal_height :=
          if bool_decide (optimal_width = max_width)
             || bool_decide (optimal_width = min_width)
          then Z.max min_height
                 (Z.min max_height (py_int (qc optimal_width 1 / aspect_ratio)%Qc))
          else optimal_height in
        Some (optimal_height, optimal_width)
      else None
  | None => None
  end.

(** Text of the status bar; [StatusExc prefix e] ends with [str(e)]. *)
Inductive status_text :=
  | StatusText (text : string)
  | StatusExc (prefix : string) (e : pyexn).

(** [self.reference_keypoints]: the two members of a record as read. *)
Abbreviation reference_store := (gmap pykey (json * json)).

(** [ratio * img_width]: the ratio is a number or a boolean and the size a
    float; anything else, [None] for the size included, is a [TypeError],
    and an integer too large for a float an [OverflowError]. *)
Definition times_size (ratio : json) (size : option Qc) : result Qc :=
  match as_number ratio with
  | Raise e => Raise e
  | Ok q =>
      match size with
      | Some s => if int_too_large q then Raise OverflowError else Ok (q * s)%Qc
      | None => Raise TypeError
      end
  end.

(** Body of the loop of [load_reference_image]. *)
Definition load_reference_point (img_size : option (Qc * Qc))
    (d : reference_store) (kp : json) : result reference_store :=
  match subscript kp "id" with
  | Raise e => Raise e
  | Ok kp_id =>
  match subscript kp "x" with
  | Raise e => Raise e
  | Ok ratio_x =>
  match subscript kp "y" with
  | Raise e => Raise e
  | Ok ratio_y =>
  match times_size ratio_x (fst <$> img_size) with
  | Raise e => Raise e
  | Ok pixel_x =>
  match times_size ratio_y (snd <$> img_size) with
  | Raise e => Raise e
  | Ok pixel_y =>
  match key_of_json kp_id with
  | Raise e => Raise e
  | Ok key => Ok (<[key := (ratio_x, ratio_y)]> d)
  end end end end end end.

(** The loop: the dictionary as the loop leaves it, and the exception that
    ended it if one did. *)
Fixpoint load_reference_points (img_size : option (Qc * Qc)) (items : list json)
    (d : reference_store) : reference_store * option pyexn :=
  match items with
  | [] => (d, None)
  | kp :: rest =>
      match load_reference_point img_size d kp with
      | Raise e => (d, Some e)
      | Ok d' => load_reference_points img_size rest d'
      end
  end.

(** The part of [load_reference_image] that fills [reference_keypoints] and
    sets the status bar; [file] is [None] when the picture has no [.json]
    file beside it. *)
Definition load_reference_keypoints (img_size : option (Qc * Qc))
    (file : option (option json)) : reference_store * status_text :=
  match file with
  | None => (∅, StatusText "标准图没有对应的JSON文件")
  | Some file =>
      match json_items file with
      | Raise e => (∅, StatusExc "标准图JSON加载失败：" e)
      | Ok items =>
          match load_reference_points img_size items ∅ with
          | (d, None) =>
              (d, StatusText ("标准图加载了 " +:+ pretty.pretty (length items)
                              +:+ " 个关键点"))
          | (d, Some e) => (d, StatusExc "标准图JSON加载失败：" e)
          end
      end
  end.

(** ** Batch conversion of a directory ([batch_convert]) *)

(** ["\n"] and ["=" * 60] *)
Definition newline : string := String "010"%char "".

Definition rule60 : string :=
  "============================================================".

Definition image_extensions : list string :=
  [".jpg"; ".jpeg"; ".png"; ".bmp"; ".JPG"; ".JPEG"; ".PNG"; ".BMP"].

(** The first [txt_file.with_suffix(ext)] that exists. *)
Fixpoint find_image (path_exists : image_path → bool) (txt_stem : string)
    (exts : list string) : option image_path :=
  match exts with
  | [] => None
  | ext :: rest =>
      let img_path := {| stem := txt_stem; suffix := ext |} in
      if path_exists img_path then Some img_path
      else find_image path_exists txt_stem rest
  end.

(** One round of the loop of [batch_convert]; a text file is given by its
    stem and its text. *)
Definition convert_one (path_exists : image_path → bool)
    (acc : nat * nat * list console * filesystem) (txt_file : string * string)
    : nat * nat * list console * filesystem :=
  let '(success_count, fail_count, out, f) := acc in
  let '(txt_stem, content) := txt_file in
  match find_image path_exists txt_stem image_extensions with
  | None =>
      (success_count, (fail_count + 1)%nat,
       out ++ [Printed ("跳过 " +:+ txt_stem +:+ ".txt: 找不到对应的图片文件")], f)
  | Some image_file =>
      let out := out ++ [Printed (newline +:+ "处理: " +:+ txt_stem +:+ ".txt -> "
                                  +:+ path_name image_file)] in
      let '(converted, line, f') := convert_txt_to_json content image_file f in
      if converted then ((success_count + 1)%nat, fail_count, out ++ [line], f')
      else (success_count, (fail_count + 1)%nat, out ++ [line], f')
  end.

(** [batch_convert]: the lines printed and the files afterwards.
    [directory] is the text of [Path(directory)], which is what the two
    messages about the directory print; [txt_files] is the answer of
    [directory.glob('*.txt')], each file with its text, and [path_exists]
    the answer of [Path.exists] for pictures. *)
Definition batch_convert (directory : string) (directory_exists : bool)
    (txt_files : list (string * string)) (path_exists : image_path → bool)
    (f : filesystem) : list console * filesystem :=
  if negb directory_exists then ([Printed ("目录不存在: " +:+ directory)], f)
  else
    match txt_files with
    | [] => ([Printed ("目录中没有找到txt文件: " +:+ directory)], f)
    | _ =>
        let out := [Printed ("找到 " +:+ pretty.pretty (length txt_files)
                             +:+ " 个txt标注文件");
                    Printed rule60] in
        let '(success_count, fail_count, out, f') :=
          fold_left (convert_one path_exists) txt_files (0%nat, 0%nat, out, f) in
        (out ++ [Printed (newline +:+ rule60);
                 Printed "转换完成！";
                 Printed ("成功: " +:+ pretty.pretty success_count +:+ " 个");
                 Printed ("失败: " +:+ pretty.pretty fail_count +:+ " 个")], f')
    end.

(** ** Checking the installation ([check_dependencies.py]) *)

(** What [check_dependencies] finds on the machine: [sys.version_info], the
    outcome of the PyQt5 imports ([QT_VERSION_STR], or the message of the
    [ImportError]), the message of the [ImportError] of [json] or [os] if
    one fails, whether the files exist, and the path printed for the
    reference picture.  A missing [pathlib] is not represented: step 4
    imports it again outside any [try], so the function would not return.
    The re-encoding of [sys.stdout] on Windows does not change the lines. *)
Record installation := {
  python_version : Z * Z * Z;
  pyqt5_import : string + string;
  stdlib_import : option string;
  tool_exists : bool;
  std_pic_dir_exists : bool;
  std_image_exists : bool;
  std_image : string
}.

(** [check_dependencies]: the lines printed and the value returned. *)
Definition check_dependencies (env : installation) : list string * bool :=
  let '(major, minor, micro) := python_version env in
  let out := [rule60; "检查 68 关键点标注工具 依赖项"; rule60; ""] in
  let all_ok := true in
  let out := out ++ ["1. 检查 Python 版本...";
                     "   当前版本: Python " +:+ pretty.pretty major +:+ "."
                     +:+ pretty.pretty minor +:+ "." +:+ pretty.pretty micro] in
  let '(out, all_ok) :=
    if bool_decide (3 <= major) && bool_decide (7 <= minor)
    then (out ++ ["   ✓ Python 版本符合要求 (>= 3.7)"], all_ok)
    else (out ++ ["   ✗ Python 版本过低，需要 Python 3.7 或更高版本"], false) in
  let out := out ++ [""] in
  let out := out ++ ["2. 检查 PyQt5..."] in
  let '(out, all_ok) :=
    match pyqt5_import env with
    | inl qt_version_str =>
        (out ++ ["   当前版本: PyQt5 " +:+ qt_version_str; "   ✓ PyQt5 安装正确"],
         all_ok)
    | inr e =>
        (out ++ ["   ✗ PyQt5 未安装或安装不完整"; "   错误信息: " +:+ e;
                 "   请运行: pip install PyQt5"], false)
    end in
  let out := out ++ [""] in
  let out := out ++ ["3. 检查标准库..."] in
  let '(out, all_ok) :=
    match stdlib_import env with
    | None => (out ++ ["   ✓ 标准库完整"], all_ok)
    | Some e => (out ++ ["   ✗ 标准库缺失: " +:+ e], false)
    end in
  let out := out ++ [""] in
  let out := out ++ ["4. 检查项目文件..."] in
  let '(out, missing_files) :=
    if tool_exists env then (out ++ ["   ✓ keypoint_annotation_tool.py"], [])
    else (out ++ ["   ✗ keypoint_annotation_tool.py 缺失"],
          ["keypoint_annotation_tool.py"]) in
  let all_ok := match missing_files with [] => all_ok | _ => false end in
  let out := out ++ [""] in
  let out := out ++ ["5. 检查标准图目录..."] in
  let out :=
    if std_pic_dir_exists env then
      let out := out ++ ["   ✓ std_pic 目录存在"] in
      if std_image_exists env then out ++ ["   ✓ 找到标准参考图"]
      else out ++ ["   ! 未找到标准参考图 (可选)";
                   "     请将标准图放在: " +:+ std_image env]
    else out ++ ["   ! std_pic 目录不存在 (可选)"; "     程序会自动创建"] in
  let out := out ++ [""] in
  let out := out ++ [rule60] in
  let out :=
    if all_ok then
      out ++ ["✓ 所有检查通过！可以运行程序了。"; ""; "运行方法:";
              "  python keypoint_annotation_tool.py"]
    else
      out ++ ["✗ 发现问题，请先解决上述错误。"; ""; "常见解决方法:";
              "  1. 安装 PyQt5: pip install PyQt5";
              "  2. 升级 Python: 下载最新版本 Python 3.9+";
              "  3. 检查文件完整性"] in
  let out := out ++ [rule60] in
  (out, all_ok).

(** Records as the tool writes them for an unset point 1 and a point 2 at
    the centre, and the structured file that lists them. *)
Definition records_with_unset : list (Z * coord) :=
  [(1, (qc (-1) 1, qc (-1) 1)); (2, (qc 1 2, qc 1 2))].

Definition json_with_unset : json :=
  JObj [("image_name", JStr "face.jpg");
        ("keypoints", JArr (point_records records_with_unset))].

(** A text that splits into 136 numbers. *)
Definition well_formed (content : string) : bool :=
  match floats_of (String.words (str_strip content)) with
  | Ok coords => bool_decide (length coords = 136%nat)
  | Raise _ => false
  end.

(** A text file that [batch_convert] converts: a picture with the same
    stem exists and the text is well formed. *)
Definition convertible (path_exists : image_path → bool) (txt_file : string * string) : bool :=
  match find_image path_exists txt_file.1 image_extensions with
  | Some _ => well_formed txt_file.2
  | None => false
  end.

(** A machine with Python 4.0.0 on which every other check passes. *)
Definition python_4_0 : installation :=
  {| python_version := (4, 0, 0);
     pyqt5_import := inl "5.15.2";
     stdlib_import := None;
     tool_exists := true;
     std_pic_dir_exists := true;
     std_image_exists := true;
     std_image := "std_pic/facial_landmarks_68markup.jpg" |}.

(** A directory with the picture ["face.jpg"] and two text files, one for
    the picture and one without a picture. *)
Definition only_face_exists (p : image_path) : bool :=
  String.eqb (stem p) "face" && String.eqb (suffix p) ".jpg".

Definition sample_listing : list (string * string) :=
  [("face", txt_point_5_unset); ("lost", txt_point_5_unset)].

(** ** The handlers of a session *)

(** The actions of the operator that reach the store, the history or the
    files: an editing command, the save action of the menu, the two
    navigation actions (tool bar or the keys A and D), the format switch,
    the auto-save switch and the closing of the window.  These are all the
    callers of [save_annotations]; the two savers are the only functions of
    the tool that open a file for writing. *)
Inductive handler :=
  | Edit (c : command)
  | Save
  | NextImage (pixmap_size : Qc * Qc)
  | PreviousImage (pixmap_size : Qc * Qc)
  | ToggleFormat (reply : bool)
  | ToggleAutoSave (enabled : bool)
  | Close.

Definition handle (h : handler) (w : MainWindow) : MainWindow :=
  match h with
  | Edit c => step w c
  | Save => save_annotations w
  | NextImage pixmap_size => next_image pixmap_size w
  | PreviousImage pixmap_size => previous_image pixmap_size w
  | ToggleFormat reply => toggle_annotation_format reply w
  | ToggleAutoSave enabled => toggle_auto_save enabled w
  | Close => closeEvent w
  end.

(** A structured file whose first element is an unset point and whose
    second element has no ["y"]. *)
Definition json_unset_then_without_y : json :=
  JObj [("image_name", JStr "face.jpg");
        ("keypoints",
         JArr [ point_record 1 (qc (-1) 1) (qc (-1) 1);
                JObj [("id", JNum (qc 2 1)); ("x", JNum (qc 1 4))] ])].

(** * Properties *)

(** ** Stacks *)

Section Stacks.
Context {A : Type}.
Implicit Types (l : list A) (x : A).

Lemma pop_last_snoc l x : pop_last (l ++ [x]) = l.
Proof.
  unfold pop_last. rewrite length_app. simpl.
  replace (length l + 1 - 1)%nat with (length l) by lia.
  apply take_app_length.
Qed.

Lemma last_pop_last l x : last l = Some x → l = pop_last l ++ [x].
Proof.
  intros [l' ->]%last_Some. by rewrite pop_last_snoc.
Qed.

Lemma length_pop_last l : length (pop_last l) = (length l - 1)%nat.
Proof. unfold pop_last. rewrite length_take. lia. Qed.

Lemma length_keep_last n l : length (keep_last n l) = (length l `min` n)%nat.
Proof. unfold keep_last. rewrite length_drop. lia. Qed.

Lemma keep_last_snoc n l x :
  keep_last n (keep_last n l ++ [x]) = keep_last n (l ++ [x]).
Proof.
  unfold keep_last. rewrite !length_app, length_drop. simpl.
  destruct (decide (length l ≤ n)%nat) as [Hle|Hgt].
  - replace (length l - n)%nat with 0%nat by lia. rewrite drop_0.
    do 2 f_equal; lia.
  - destruct (decide (n = 0)%nat) as [->|Hn].
    { rewrite !drop_ge; [done| |]; rewrite length_app, ?length_drop; simpl; lia. }
    rewrite (drop_app_le l [x]) by lia.
    rewrite (drop_app_le (drop _ l)) by (rewrite length_drop; lia).
    rewrite drop_drop. do 2 f_equal. lia.
Qed.

Lemma keep_last_all n l : (length l ≤ n)%nat → keep_last n l = l.
Proof.
  intros. unfold keep_last. by replace (length l - n)%nat with 0%nat by lia.
Qed.
End Stacks.

(** ** What the history operations touch *)

Lemma undo_stack_save_state w :
  undo_stack (save_state w) =
    if decide (max_undo_steps w < length (undo_stack w ++ [keypoints_data w]))%nat
    then tail (undo_stack w ++ [keypoints_data w])
    else undo_stack w ++ [keypoints_data w].
Proof. reflexivity. Qed.

Lemma redo_stack_save_state w : redo_stack (save_state w) = [].
Proof. reflexivity. Qed.

Lemma max_undo_steps_save_state w : max_undo_steps (save_state w) = max_undo_steps w.
Proof. reflexivity. Qed.

Lemma keypoints_data_save_state w : keypoints_data (save_state w) = keypoints_data w.
Proof. reflexivity. Qed.

Lemma disk_save_state w : disk (save_state w) = disk w.
Proof. reflexivity. Qed.

(** A push on a stack within the bound keeps the most recent entries. *)
Lemma save_state_keep_last w :
  (length (undo_stack w) ≤ max_undo_steps w)%nat →
  undo_stack (save_state w) =
    keep_last (max_undo_steps w) (undo_stack w ++ [keypoints_data w]).
Proof.
  intros Hlen. rewrite undo_stack_save_state. unfold keep_last.
  rewrite length_app. simpl. case_decide as Hcmp.
  - replace (length (undo_stack w) + 1 - max_undo_steps w)%nat with 1%nat by lia.
    by destruct (undo_stack w ++ [keypoints_data w]).
  - by replace (length (undo_stack w) + 1 - max_undo_steps w)%nat with 0%nat by lia.
Qed.

Lemma length_save_state w :
  (length (undo_stack w) ≤ max_undo_steps w)%nat →
  (length (undo_stack (save_state w)) ≤ max_undo_steps w)%nat.
Proof.
  intros Hlen. rewrite save_state_keep_last, length_keep_last by done. lia.
Qed.

Lemma undo_nonempty w l s :
  undo_stack w = l ++ [s] →
  undo w = set_status "已撤销（未自动保存，如需保存请按Ctrl+S）"
             (set_keypoints_data s
                (set_undo_stack l
                   (set_redo_stack (redo_stack w ++ [keypoints_data w]) w))).
Proof.
  intros Hst. unfold undo. rewrite Hst, last_snoc. simpl.
  by rewrite Hst, pop_last_snoc.
Qed.

Lemma undo_empty w :
  undo_stack w = [] → undo w = set_status "没有可撤销的操作" w.
Proof. intros Hst. unfold undo. by rewrite Hst. Qed.

Lemma redo_nonempty w l s :
  redo_stack w = l ++ [s] →
  redo w = set_status "已重做（未自动保存，如需保存请按Ctrl+S）"
             (set_keypoints_data s
                (set_redo_stack l
                   (set_undo_stack (undo_stack w ++ [keypoints_data w]) w))).
Proof.
  intros Hst. unfold redo. rewrite Hst, last_snoc. simpl.
  by rewrite Hst, pop_last_snoc.
Qed.

Lemma redo_empty w :
  redo_stack w = [] → redo w = set_status "没有可重做的操作" w.
Proof. intros Hst. unfold redo. by rewrite Hst. Qed.

(** Every stack is empty or ends with a top element. *)
Lemma stack_cases {A} (l : list A) : l = [] ∨ ∃ l' x, l = l' ++ [x].
Proof.
  destruct (last l) as [x|] eqn:Hl.
  - right. apply last_Some in Hl as [l' ->]. eauto.
  - left. by apply last_None.
Qed.

(** ** Bounded undo stack *)

Lemma record_all_undo_stack (ss pre : list store) (w : MainWindow) :
  undo_stack w = keep_last (max_undo_steps w) pre →
  undo_stack (record_all ss w) = keep_last (max_undo_steps w) (pre ++ ss)
  ∧ max_undo_steps (record_all ss w) = max_undo_steps w.
Proof.
  revert pre w. induction ss as [|s ss IH]; intros pre w Hst; simpl.
  - by rewrite app_nil_r.
  - assert (undo_stack (record_snapshot s w)
            = keep_last (max_undo_steps w) (pre ++ [s])) as Hpush.
    { unfold record_snapshot. rewrite save_state_keep_last; simpl.
      - by rewrite Hst, keep_last_snoc.
      - rewrite Hst, length_keep_last. lia. }
    destruct (IH (pre ++ [s]) (record_snapshot s w) Hpush) as [Hs Hm].
    by rewrite Hs, Hm, <- app_assoc.
Qed.

Lemma record_all_keypoints_data (ss : list store) (w : MainWindow) :
  keypoints_data (record_all ss w) = default (keypoints_data w) (last ss).
Proof.
  revert w. induction ss as [|s ss IH]; intros w; [done|].
  simpl. rewrite IH. simpl. destruct ss as [|s' ss]; [done|].
  rewrite last_cons_cons.
  destruct (last (s' :: ss)) eqn:Hl; [done|]. by apply last_None in Hl.
Qed.

Lemma undo_iter_stack (n : nat) (w : MainWindow) :
  undo_stack (Nat.iter n undo w) = take (length (undo_stack w) - n) (undo_stack w).
Proof.
  induction n as [|n IH]; simpl.
  - rewrite take_ge; [done|lia].
  - destruct (stack_cases (undo_stack (Nat.iter n undo w))) as [He|(l & s & Hl)].
    + rewrite undo_empty by done. simpl. rewrite He.
      assert (length (undo_stack w) - n = 0 ∨ undo_stack w = [])%nat as [Hz| ->].
      { rewrite IH in He. apply (f_equal length) in He.
        rewrite length_take in He. simpl in He. lia. }
      * by replace (length (undo_stack w) - S n)%nat with 0%nat by lia.
      * done.
    + rewrite (undo_nonempty _ l s) by done. simpl.
      rewrite IH in Hl.
      assert (length (take (length (undo_stack w) - n) (undo_stack w))
              = S (length l)) as Hlen.
      { rewrite Hl, length_app. simpl. lia. }
      rewrite length_take in Hlen.
      replace (length (undo_stack w) - S n)%nat with (length l) by lia.
      apply (f_equal (take (length l))) in Hl.
      rewrite take_take, take_app_length in Hl.
      rewrite Nat.min_l in Hl by lia. done.
Qed.

Lemma undo_iter_keypoints_data (n : nat) (w : MainWindow) :
  (1 ≤ n ≤ length (undo_stack w))%nat →
  Some (keypoints_data (Nat.iter n undo w))
  = undo_stack w !! (length (undo_stack w) - n)%nat.
Proof.
  intros Hn. destruct n as [|n]; [lia|]. simpl.
  pose proof (undo_iter_stack n w) as Hst.
  destruct (stack_cases (undo_stack (Nat.iter n undo w))) as [He|(l & s & Hl)].
  - rewrite He in Hst. apply (f_equal length) in Hst.
    rewrite length_take in Hst. simpl in Hst. lia.
  - rewrite (undo_nonempty _ l s) by done. simpl.
    rewrite Hl in Hst.
    assert (length (undo_stack w) - n = S (length l))%nat as Hlen.
    { apply (f_equal length) in Hst.
      rewrite length_app, length_take in Hst. simpl in Hst. lia. }
    assert ((l ++ [s]) !! length l = Some s) as Hs.
    { by rewrite lookup_app_r, Nat.sub_diag. }
    rewrite Hst, lookup_take_lt in Hs by lia.
    rewrite <- Hs. f_equal. lia.
Qed.

Lemma undo_iter_elem (n : nat) (w : MainWindow) :
  keypoints_data (Nat.iter n undo w) ∈ keypoints_data w :: undo_stack w.
Proof.
  destruct (decide (n = 0)%nat) as [->|Hn0]; [simpl; set_solver|].
  destruct (decide (n ≤ length (undo_stack w))%nat) as [Hle|Hgt].
  - apply elem_of_cons. right.
    eapply list_elem_of_lookup_2. symmetry. apply undo_iter_keypoints_data. lia.
  - revert Hgt Hn0. induction n as [|n IH]; intros Hgt _; [lia|]. simpl.
    assert (undo_stack (Nat.iter n undo w) = []) as He.
    { rewrite undo_iter_stack.
      by replace (length (undo_stack w) - n)%nat with 0%nat by lia. }
    rewrite undo_empty by done. simpl.
    destruct (decide (n = 0)%nat) as [->|Hn]; [simpl; set_solver|].
    destruct (decide (n ≤ length (undo_stack w))%nat) as [Hle|Hgt'].
    + apply elem_of_cons. right.
      eapply list_elem_of_lookup_2. symmetry. apply undo_iter_keypoints_data. lia.
    + by apply IH.
Qed.

(** C6.  With the depth bound 10 and an empty undo stack to begin with,
    any number of [save_state] calls leaves the most recent ten snapshots on
    the undo stack, oldest first.  After twelve calls these are the last ten
    of the twelve in their order; the [n]-th undo restores the [n]-th most
    recent snapshot, no chain of undos ever restores anything but these ten,
    the tenth undo empties the stack and the eleventh reports that there is
    nothing to undo. *)
Theorem undo_stack_keeps_ten_most_recent (w : MainWindow) (ss : list store) :
  undo_stack w = [] →
  max_undo_steps w = 10%nat →
  let w' := record_all ss w in
  undo_stack w' = keep_last 10 ss
  ∧ (length (undo_stack w') ≤ 10)%nat
  ∧ (length ss = 12%nat →
       undo_stack w' = drop 2 ss
       ∧ length (undo_stack w') = 10%nat
       ∧ (∀ n, (1 ≤ n ≤ 10)%nat →
              Some (keypoints_data (Nat.iter n undo w')) = ss !! (12 - n)%nat)
       ∧ (∀ n, keypoints_data (Nat.iter n undo w') ∈ drop 2 ss)
       ∧ undo_stack (Nat.iter 10 undo w') = []
       ∧ status_label (undo (Nat.iter 10 undo w')) = "没有可撤销的操作").
Proof.
  intros Hempty Hmax w'.
  destruct (record_all_undo_stack ss [] w) as [Hst _].
  { rewrite Hempty. by rewrite keep_last_all by (simpl; lia). }
  rewrite Hmax in Hst. simpl in Hst. fold w' in Hst.
  split; [done|]. split.
  { rewrite Hst, length_keep_last. lia. }
  intros Hlen.
  assert (undo_stack w' = drop 2 ss) as Hdrop.
  { rewrite Hst. unfold keep_last. by rewrite Hlen. }
  assert (length (undo_stack w') = 10%nat) as Hten.
  { rewrite Hdrop, length_drop. lia. }
  assert (undo_stack (Nat.iter 10 undo w') = []) as Hnone.
  { rewrite undo_iter_stack, Hten. done. }
  split; [exact Hdrop|]. split; [exact Hten|].
  split; [|split; [|split; [exact Hnone|]]].
  - intros n Hn. rewrite undo_iter_keypoints_data by lia.
    rewrite Hten, Hdrop, lookup_drop. f_equal. lia.
  - intros n. pose proof (undo_iter_elem n w') as Hin.
    apply elem_of_cons in Hin as [Heq|Hin]; [|by rewrite <- Hdrop].
    rewrite Heq. unfold w'. rewrite record_all_keypoints_data.
    destruct (stack_cases ss) as [->|(l & s & ->)]; [done|].
    rewrite last_snoc. simpl. rewrite length_app in Hlen. simpl in Hlen.
    rewrite drop_app_le by lia. clear. set_solver.
  - rewrite (undo_empty _ Hnone). reflexivity.
Qed.

Lemma undo_stack_keeps_ten_most_recent_witness :
  undo_stack (record_all twelve_snapshots init_window) = drop 2 twelve_snapshots
  ∧ ∀ n, keypoints_data (Nat.iter n undo (record_all twelve_snapshots init_window))
         ∈ drop 2 twelve_snapshots.
Proof.
  destruct (undo_stack_keeps_ten_most_recent init_window twelve_snapshots
              eq_refl eq_refl) as (_ & _ & Htwelve).
  destruct (Htwelve eq_refl) as (Hstack & _ & _ & Hundo & _).
  exact (conj Hstack Hundo).
Defined.

(** ** Mutations and the redo stack *)

Lemma mutate_declined (m : mutation) (w : MainWindow) :
  declined m w = true → mutate m w = w.
Proof.
  destruct m as [| |row| |[]]; simpl; try done.
  unfold delete_selected_keypoint. intros Hd.
  apply negb_true_iff, andb_false_iff in Hd.
  destruct Hd as [Hd|Hd]; apply bool_decide_eq_false in Hd.
  - by rewrite decide_False.
  - destruct (decide (0 <= row)); [|done].
    destruct (keypoints_data w !! KInt (row + 1)) eqn:Hk; [|done].
    destruct Hd. eauto.
Qed.

Lemma mutate_performed (m : mutation) (w : MainWindow) :
  declined m w = false →
  redo_stack (mutate m w) = []
  ∧ undo_stack (mutate m w) = undo_stack (save_state w)
  ∧ max_undo_steps (mutate m w) = max_undo_steps w
  ∧ disk (mutate m w) = disk w.
Proof.
  destruct m as [kp x y|kp x y|row|id1 id2|[]]; simpl; try done.
  - unfold on_keypoint_added. by destruct (pixel_to_ratio _ _ _).
  - unfold on_keypoint_moved. by destruct (pixel_to_ratio _ _ _).
  - unfold delete_selected_keypoint. intros Hd.
    apply negb_false_iff, andb_true_iff in Hd as [Hrow Hk].
    apply bool_decide_eq_true in Hrow. apply bool_decide_eq_true in Hk as [p Hk].
    rewrite decide_True by done. rewrite Hk. done.
Qed.

(** C7.  A mutation that is carried out (add, move, swap, a delete on an
    annotated row, a confirmed clear) leaves the redo stack empty; a request
    that is turned down changes nothing.  Hence after an undo and a
    mutation that is carried out, [redo] finds nothing: it only sets the
    status line to the nothing-to-redo message. *)
Theorem mutation_empties_redo_stack (m : mutation) (w : MainWindow) :
  (if declined m w then mutate m w = w else redo_stack (mutate m w) = [])
  ∧ (if declined m (undo w) then mutate m (undo w) = undo w
     else redo_stack (mutate m (undo w)) = []
          ∧ redo (mutate m (undo w))
            = set_status "没有可重做的操作" (mutate m (undo w))).
Proof.
  split.
  - destruct (declined m w) eqn:Hd.
    + by apply mutate_declined.
    + by apply mutate_performed.
  - destruct (declined m (undo w)) eqn:Hd.
    + by apply mutate_declined.
    + destruct (mutate_performed m (undo w) Hd) as [Hredo _].
      split; [done|]. by apply redo_empty.
Qed.

(** ** Undo, redo and the files *)

Lemma disk_undo w : disk (undo w) = disk w.
Proof. unfold undo. by destruct (last (undo_stack w)). Qed.

Lemma disk_redo w : disk (redo w) = disk w.
Proof. unfold redo. by destruct (last (redo_stack w)). Qed.

Lemma disk_mutate m w : disk (mutate m w) = disk w.
Proof.
  destruct (declined m w) eqn:Hd.
  - by rewrite mutate_declined.
  - by apply mutate_performed.
Qed.

Lemma disk_run cs w : disk (run cs w) = disk w.
Proof.
  revert w. induction cs as [|c cs IH]; intros w; [done|].
  simpl. rewrite IH. destruct c; simpl;
    auto using disk_undo, disk_redo, disk_mutate.
Qed.

(** ** The debug print of the sorted keys *)

Lemma sorted_raises_true (d : store) :
  sorted_raises d = true
  ↔ ∃ k1 k2, is_Some (d !! k1) ∧ is_Some (d !! k2) ∧ k1 ≠ k2 ∧ comparable k1 k2 = false.
Proof.
  unfold sorted_raises. rewrite existsb_exists. split.
  - intros (k1 & Hk1 & (k2 & Hk2 & Hc)%existsb_exists).
    apply andb_true_iff in Hc as [Hne Hc].
    apply negb_true_iff in Hne, Hc. apply bool_decide_eq_false in Hne.
    exists k1, k2.
    apply list_elem_of_In, list_elem_of_fmap in Hk1 as ([k1' p1] & -> & Hk1).
    apply list_elem_of_In, list_elem_of_fmap in Hk2 as ([k2' p2] & -> & Hk2).
    apply elem_of_map_to_list in Hk1, Hk2. cbn [fst] in *. eauto.
  - intros (k1 & k2 & [p1 Hk1] & [p2 Hk2] & Hne & Hc).
    exists k1. split.
    { apply list_elem_of_In, list_elem_of_fmap. exists (k1, p1).
      split; [done|]. by apply elem_of_map_to_list. }
    apply existsb_exists. exists k2. split.
    { apply list_elem_of_In, list_elem_of_fmap. exists (k2, p2).
      split; [done|]. by apply elem_of_map_to_list. }
    by rewrite bool_decide_false, Hc by done.
Qed.

Lemma sorted_raises_false (d : store) :
  (∀ k1 k2, is_Some (d !! k1) → is_Some (d !! k2) → comparable k1 k2 = true) →
  sorted_raises d = false.
Proof.
  intros Hd. destruct (sorted_raises d) eqn:Hs; [|done].
  apply sorted_raises_true in Hs as (k1 & k2 & Hk1 & Hk2 & _ & Hc).
  rewrite Hd in Hc by done. done.
Qed.

(** Integer keys can always be sorted. *)
Lemma sorted_raises_int_keys (d : store) :
  (∀ k, is_Some (d !! k) → ∃ id, k = KInt id) → sorted_raises d = false.
Proof.
  intros Hd. apply sorted_raises_false. intros k1 k2 Hk1 Hk2.
  destruct (Hd k1 Hk1) as [id1 ->], (Hd k2 Hk2) as [id2 ->]. done.
Qed.

Lemma sorted_raises_empty : sorted_raises ∅ = false.
Proof. reflexivity. Qed.

(** ** What [save_annotations] leaves *)

Lemma save_annotations_unfold (w : MainWindow) :
  save_annotations w
  = match current_image w with
    | None => w
    | Some image =>
        if sorted_raises (keypoints_data w) then w
        else match annotation_format w with
             | FmtJson => save_json_annotations image w
             | FmtTxt => save_txt_annotations image w
             end
    end.
Proof.
  unfold save_annotations, window_after, save_annotations_call, bind, get, ret,
    debug_print_sorted_keys, modify.
  destruct (current_image w); [|done].
  destruct (sorted_raises (keypoints_data w)); [done|].
  by destruct (annotation_format w).
Qed.

Lemma raises_save_annotations (w : MainWindow) :
  raises save_annotations_call w
  = match current_image w with
    | None => false
    | Some _ => sorted_raises (keypoints_data w)
    end.
Proof.
  unfold raises, save_annotations_call, bind, get, ret,
    debug_print_sorted_keys, modify.
  destruct (current_image w); [|done].
  destruct (sorted_raises (keypoints_data w)); [done|].
  by destruct (annotation_format w).
Qed.

Lemma save_annotations_sorted (w : MainWindow) (image : image_path) :
  current_image w = Some image →
  sorted_raises (keypoints_data w) = false →
  save_annotations w
  = match annotation_format w with
    | FmtJson => save_json_annotations image w
    | FmtTxt => save_txt_annotations image w
    end.
Proof. intros Hcur Hs. by rewrite save_annotations_unfold, Hcur, Hs. Qed.

Lemma save_annotations_raised (w : MainWindow) :
  raises save_annotations_call w = true → save_annotations w = w.
Proof.
  rewrite raises_save_annotations, save_annotations_unfold.
  destruct (current_image w); [|done]. by intros ->.
Qed.

Lemma load_annotations_call_unfold (image : image_path) (w : MainWindow) :
  window_after (load_annotations_call image) w = load_annotations image w
  ∧ raises (load_annotations_call image) w
    = sorted_raises (keypoints_data (load_annotations image w)).
Proof.
  unfold window_after, raises, load_annotations_call, bind, modify,
    debug_print_sorted_keys.
  by destruct (sorted_raises (keypoints_data (load_annotations image w))).
Qed.

(** An explicit save writes the file of the current image when the keys can
    be sorted. *)
Lemma save_annotations_writes (w : MainWindow) (image : image_path) :
  current_image w = Some image →
  sorted_raises (keypoints_data w) = false →
  match annotation_format w with
  | FmtTxt =>
      txt_files (disk (save_annotations w)) !! stem image
      = Some (str_join " " (txt_coords (keypoints_data w)))
  | FmtJson =>
      json_files (disk (save_annotations w)) !! stem image
      = Some (Some (JObj [("image_name", JStr (path_name image));
                          ("keypoints", JArr (json_keypoints (keypoints_data w)))]))
  end.
Proof.
  intros Hcur Hs. rewrite (save_annotations_sorted w image Hcur Hs).
  destruct (annotation_format w); apply lookup_insert_eq.
Qed.

(** ** The two stacks together *)

Lemma history_size_undo w :
  history_size (undo w) = history_size w ∧ max_undo_steps (undo w) = max_undo_steps w.
Proof.
  unfold history_size.
  destruct (stack_cases (undo_stack w)) as [He|(l & s & Hl)].
  - by rewrite undo_empty.
  - rewrite (undo_nonempty _ l s) by done. simpl.
    rewrite Hl, !length_app. simpl. lia.
Qed.

Lemma history_size_redo w :
  history_size (redo w) = history_size w ∧ max_undo_steps (redo w) = max_undo_steps w.
Proof.
  unfold history_size.
  destruct (stack_cases (redo_stack w)) as [He|(l & s & Hl)].
  - by rewrite redo_empty.
  - rewrite (redo_nonempty _ l s) by done. simpl.
    rewrite Hl, !length_app. simpl. lia.
Qed.

Lemma history_size_mutate m w :
  (history_size w ≤ max_undo_steps w)%nat →
  (history_size (mutate m w) ≤ max_undo_steps w)%nat
  ∧ max_undo_steps (mutate m w) = max_undo_steps w.
Proof.
  intros Hinv. destruct (declined m w) eqn:Hd.
  - by rewrite mutate_declined.
  - destruct (mutate_performed m w Hd) as (Hredo & Hundo & Hmax & _).
    split; [|done]. unfold history_size in *.
    rewrite Hredo, Hundo.
    pose proof (length_save_state w). simpl length at 2. lia.
Qed.

Lemma history_size_step w c :
  (history_size w ≤ max_undo_steps w)%nat →
  (history_size (step w c) ≤ max_undo_steps (step w c))%nat
  ∧ max_undo_steps (step w c) = max_undo_steps w.
Proof.
  intros Hinv. destruct c as [m| |]; simpl.
  - destruct (history_size_mutate m w Hinv) as [? Hmax]. by rewrite Hmax.
  - destruct (history_size_undo w) as [-> ->]. done.
  - destruct (history_size_redo w) as [-> ->]. done.
Qed.

Lemma history_size_run cs w :
  (history_size w ≤ max_undo_steps w)%nat →
  (history_size (run cs w) ≤ max_undo_steps w)%nat.
Proof.
  revert w. induction cs as [|c cs IH]; intros w Hinv; [done|].
  simpl. destruct (history_size_step w c Hinv) as [Hs Hmax].
  rewrite <- Hmax. by apply IH.
Qed.

(** C10.  From a window whose two history stacks are empty and whose depth
    bound is 10, after any sequence of mutations, undos and redos the undo
    stack and the redo stack hold at most ten snapshots together. *)
Theorem history_stacks_hold_at_most_ten (w : MainWindow) (cs : list command) :
  undo_stack w = [] →
  redo_stack w = [] →
  max_undo_steps w = 10%nat →
  (length (undo_stack (run cs w)) + length (redo_stack (run cs w)) ≤ 10)%nat.
Proof.
  intros Hundo Hredo Hmax.
  pose proof (history_size_run cs w) as Hrun.
  unfold history_size in Hrun. rewrite Hundo, Hredo, Hmax in Hrun.
  apply Hrun. simpl. lia.
Qed.

Lemma history_stacks_hold_at_most_ten_witness :
  (length (undo_stack (run sample_commands sample_window))
   + length (redo_stack (run sample_commands sample_window)) ≤ 10)%nat.
Proof.
  apply (history_stacks_hold_at_most_ten sample_window sample_commands);
    reflexivity.
Defined.

(** ** Swap *)

Lemma keypoints_data_swap (id1 id2 : Z) (w : MainWindow) :
  keypoints_data (swap_keypoints id1 id2 w) =
    match keypoints_data w !! KInt id1, keypoints_data w !! KInt id2 with
    | Some p1, Some p2 => <[KInt id2 := p1]> (<[KInt id1 := p2]> (keypoints_data w))
    | Some p1, None => delete (KInt id1) (<[KInt id2 := p1]> (keypoints_data w))
    | None, Some p2 => delete (KInt id2) (<[KInt id1 := p2]> (keypoints_data w))
    | None, None => keypoints_data w
    end.
Proof. reflexivity. Qed.

Lemma swap_lookup_transpose (id1 id2 : Z) (w : MainWindow) (k : pykey) :
  keypoints_data (swap_keypoints id1 id2 w) !! transpose id1 id2 k
  = keypoints_data w !! k.
Proof.
  rewrite keypoints_data_swap. unfold transpose.
  destruct (keypoints_data w !! KInt id1) as [p1|] eqn:H1,
           (keypoints_data w !! KInt id2) as [p2|] eqn:H2;
    repeat case_decide; simplify_map_eq; congruence.
Qed.

(** C2.  [swap_keypoints] by cases on which of the two identifiers is
    annotated: both, the values are exchanged; the first only, its value
    moves to the second and the first becomes absent; the second only, the
    mirror image; neither, the store is unchanged.  Other entries are never
    touched, every entry of the old store is found again under the exchanged
    identifier, and the store [{1: (0.1, 0.1)}] becomes [{2: (0.1, 0.1)}] by
    swapping 1 and 2.  This holds for all integers, in or out of 1..68. *)
Theorem swap_keypoints_cases (w : MainWindow) (id1 id2 : Z) :
  let d := keypoints_data w in
  let d' := keypoints_data (swap_keypoints id1 id2 w) in
  (∀ p1 p2, d !! KInt id1 = Some p1 → d !! KInt id2 = Some p2 →
     d' !! KInt id1 = Some p2 ∧ d' !! KInt id2 = Some p1)
  ∧ (∀ p1, d !! KInt id1 = Some p1 → d !! KInt id2 = None →
     d' !! KInt id2 = Some p1 ∧ d' !! KInt id1 = None)
  ∧ (∀ p2, d !! KInt id1 = None → d !! KInt id2 = Some p2 →
     d' !! KInt id1 = Some p2 ∧ d' !! KInt id2 = None)
  ∧ (d !! KInt id1 = None → d !! KInt id2 = None → d' = d)
  ∧ (∀ k, k ≠ KInt id1 → k ≠ KInt id2 → d' !! k = d !! k)
  ∧ (∀ k v, d !! k = Some v → d' !! transpose id1 id2 k = Some v)
  ∧ (d = only_point_one → id1 = 1 → id2 = 2 →
     d' = {[ KInt 2 := (qc 1 10, qc 1 10) ]} ∧ d' !! KInt 1 = None).
Proof.
  intros d d'. subst d d'. rewrite keypoints_data_swap.
  split; [|split; [|split; [|split; [|split; [|split]]]]].
  - intros p1 p2 H1 H2. rewrite H1, H2, !lookup_insert.
    split; repeat case_decide; congruence.
  - intros p1 H1 H2. rewrite H1, H2.
    assert (KInt id2 ≠ KInt id1) by congruence.
    by rewrite lookup_delete_ne, lookup_insert_eq, lookup_delete_eq.
  - intros p2 H1 H2. rewrite H1, H2.
    assert (KInt id1 ≠ KInt id2) by congruence.
    by rewrite lookup_delete_ne, lookup_insert_eq, lookup_delete_eq.
  - intros H1 H2. by rewrite H1, H2.
  - intros k Hk1 Hk2.
    destruct (keypoints_data w !! KInt id1) as [p1|] eqn:H1,
             (keypoints_data w !! KInt id2) as [p2|] eqn:H2;
      rewrite ?lookup_delete_ne, ?lookup_insert_ne by done; done.
  - intros k v Hk. rewrite <- keypoints_data_swap, swap_lookup_transpose. done.
  - intros Hd -> ->. rewrite Hd. unfold only_point_one.
    rewrite lookup_singleton_eq, lookup_singleton_ne by done.
    rewrite lookup_delete_eq. split; [|done].
    apply map_eq. intros k.
    rewrite lookup_delete, lookup_insert, !lookup_singleton.
    repeat case_decide; congruence.
Qed.

Lemma swap_keypoints_cases_witness :
  keypoints_data
    (swap_keypoints 1 2 (set_keypoints_data only_point_one sample_window))
  = {[ KInt 2 := (qc 1 10, qc 1 10) ]}.
Proof.
  destruct (swap_keypoints_cases
              (set_keypoints_data only_point_one sample_window) 1 2)
    as (_ & _ & _ & _ & _ & _ & Hex).
  destruct (Hex eq_refl eq_refl eq_refl) as [Hd _]. exact Hd.
Defined.

(** ** Running the loaders *)

Lemma set_keypoints_data_id w : set_keypoints_data (keypoints_data w) w = w.
Proof. by destruct w. Qed.

Lemma load_txt_point_run (coords : list Qc) (acc i : nat) (w : MainWindow) :
  (i * 2 + 1 < length coords)%nat →
  ∃ acc', load_txt_point coords acc i w
          = (Ok acc', set_keypoints_data
                        (decode_txt_step coords (image_size w) (keypoints_data w) i) w).
Proof.
  intros Hi.
  destruct (lookup_lt_is_Some_2 coords (i * 2)%nat) as [x Hx]; [lia|].
  destruct (lookup_lt_is_Some_2 coords (i * 2 + 1)%nat) as [y Hy]; [lia|].
  unfold load_txt_point, decode_txt_step, index, bind, ret, get, modify.
  rewrite Hx, Hy.
  destruct (qlt x q0 || qlt y q0).
  { eexists. by rewrite set_keypoints_data_id. }
  unfold ratio_to_pixel. destruct (size_ok (image_size w)) as [[width height]|].
  - by eexists.
  - eexists. by rewrite set_keypoints_data_id.
Qed.

Lemma for_each_load_txt_point (coords : list Qc) (indices : list nat)
    (acc : nat) (w : MainWindow) :
  (∀ i, i ∈ indices → (i * 2 + 1 < length coords)%nat) →
  ∃ acc', for_each indices (load_txt_point coords) acc w
          = (Ok acc', set_keypoints_data
                        (fold_left (decode_txt_step coords (image_size w)) indices
                                   (keypoints_data w)) w).
Proof.
  revert acc w. induction indices as [|i indices IH]; intros acc w Hin; simpl.
  - eexists. unfold ret. by rewrite set_keypoints_data_id.
  - destruct (load_txt_point_run coords acc i w) as [acc1 Hrun].
    { apply Hin. set_solver. }
    unfold bind. rewrite Hrun.
    edestruct IH as [acc2 Hrest]; [|rewrite Hrest].
    { intros j Hj. apply Hin. set_solver. }
    by eexists.
Qed.

(** A file of 136 numeric values: the loop runs to its end. *)
Lemma load_txt_annotations_ok (content : string) (coords : list Qc) (w : MainWindow) :
  floats_of (String.words (str_strip content)) = Ok coords →
  length coords = 136%nat →
  ∃ loaded_count : nat,
    load_txt_annotations content w
    = set_status ("加载了 " +:+ pretty.pretty loaded_count +:+ " 个关键点 (TXT)")
        (set_keypoints_data (decode_txt coords (image_size w) (keypoints_data w)) w).
Proof.
  intros Hfl Hlen.
  destruct (for_each_load_txt_point coords (seq 0 68) 0%nat w) as [n Hloop].
  { intros i Hi%elem_of_seq. lia. }
  exists n. unfold load_txt_annotations, try_warn, load_txt_try, bind, lift, modify, ret.
  rewrite Hfl. rewrite decide_False by (rewrite Hlen; intros Hne; by apply Hne).
  rewrite Hloop. unfold decode_txt. reflexivity.
Qed.

(** A file with another number of numeric values: one warning, nothing else. *)
Lemma load_txt_annotations_count (content : string) (coords : list Qc) (w : MainWindow) :
  floats_of (String.words (str_strip content)) = Ok coords →
  length coords ≠ 136%nat →
  load_txt_annotations content w
  = show_dialog (Warning (txt_count_message (length coords))) w.
Proof.
  intros Hfl Hlen.
  unfold load_txt_annotations, try_warn, load_txt_try, bind, lift, modify, ret.
  rewrite Hfl. by rewrite decide_True.
Qed.

(** A file with a token that is not a number: the exception is reported. *)
Lemma load_txt_annotations_raise (content : string) (e : pyexn) (w : MainWindow) :
  floats_of (String.words (str_strip content)) = Raise e →
  load_txt_annotations content w
  = show_dialog (WarningExc "加载TXT标注文件失败：" e) w.
Proof.
  intros Hfl.
  unfold load_txt_annotations, try_warn, load_txt_try, bind, lift.
  by rewrite Hfl.
Qed.

Lemma length_floats_of (tokens : list string) (coords : list Qc) :
  floats_of tokens = Ok coords → length coords = length tokens.
Proof.
  revert coords. induction tokens as [|c tokens IH]; intros coords; simpl.
  - by intros [= <-].
  - destruct (py_float c); [|done]. destruct (floats_of tokens); [|done].
    intros [= <-]. simpl. f_equal. by apply IH.
Qed.

(** ** Token count of the delimited format *)

Lemma load_annotations_txt (image : image_path) (content : string) (w : MainWindow) :
  annotation_format w = FmtTxt →
  txt_files (disk w) !! stem image = Some content →
  load_annotations image w = load_txt_annotations content (set_keypoints_data ∅ w).
Proof.
  intros Hfmt Hfile. unfold load_annotations. simpl. by rewrite Hfmt, Hfile.
Qed.

(** C4.  A delimited file whose tokens are all numeric and whose token count
    is not 136 is not loaded: [load_annotations] shows one warning whose
    text names 136 and the count found, and leaves the store empty; the
    loader [_load_txt_annotations] itself inserts nothing. *)
Theorem txt_wrong_count_rejected (w : MainWindow) (image : image_path)
    (content : string) (coords : list Qc) :
  annotation_format w = FmtTxt →
  txt_files (disk w) !! stem image = Some content →
  floats_of (String.words (str_strip content)) = Ok coords →
  length coords ≠ 136%nat →
  length coords = length (String.words (str_strip content))
  ∧ dialogs (load_annotations image w)
    = dialogs w ++ [Warning ("TXT文件格式错误：应包含136个坐标值，实际"
                             +:+ pretty.pretty (length coords) +:+ "个")]
  ∧ keypoints_data (load_annotations image w) = ∅
  ∧ keypoints_data (load_txt_annotations content w) = keypoints_data w.
Proof.
  intros Hfmt Hfile Hfl Hlen.
  rewrite (load_annotations_txt image content) by done.
  rewrite !(load_txt_annotations_count content coords) by done.
  split; [by apply length_floats_of|]. done.
Qed.

Lemma txt_wrong_count_rejected_witness :
  dialogs (load_annotations face
             (set_disk {| txt_files := {[ "face" := txt_135_values ]};
                          json_files := ∅ |} sample_window))
  = [Warning "TXT文件格式错误：应包含136个坐标值，实际135个"]
  ∧ keypoints_data (load_annotations face
             (set_disk {| txt_files := {[ "face" := txt_135_values ]};
                          json_files := ∅ |} sample_window)) = ∅.
Proof.
  destruct (txt_wrong_count_rejected
              (set_disk {| txt_files := {[ "face" := txt_135_values ]};
                           json_files := ∅ |} sample_window)
              face txt_135_values parsed_135_values)
    as (_ & Hdialog & Hstore & _).
  - reflexivity.
  - reflexivity.
  - vm_compute. reflexivity.
  - vm_compute. lia.
  - split; [exact Hdialog | exact Hstore].
Defined.

(** ** The batch converter and the loader on the same file *)

Lemma convert_keypoints_ok (coords : list Qc) (indices : list nat) :
  (∀ i, i ∈ indices → (i * 2 + 1 < length coords)%nat) →
  ∃ keypoints, convert_keypoints coords indices = Ok keypoints.
Proof.
  induction indices as [|i indices IH]; intros Hin; simpl; [by eexists|].
  destruct (lookup_lt_is_Some_2 coords (i * 2)%nat) as [x ->].
  { assert (i * 2 + 1 < length coords)%nat; [apply Hin; set_solver|lia]. }
  destruct (lookup_lt_is_Some_2 coords (i * 2 + 1)%nat) as [y ->].
  { apply Hin. set_solver. }
  destruct IH as [kps ->]; [|by eexists].
  intros j Hj. apply Hin. set_solver.
Qed.

Lemma convert_txt_to_json_count (content : string) (image_file : image_path)
    (f : filesystem) (coords : list Qc) :
  floats_of (String.words (str_strip content)) = Ok coords →
  length coords ≠ 136%nat →
  convert_txt_to_json content image_file f
  = (false, Printed (convert_count_message (length coords)), f).
Proof.
  intros Hfl Hlen. unfold convert_txt_to_json. rewrite Hfl. by rewrite decide_True.
Qed.

Lemma convert_txt_to_json_ok (content : string) (image_file : image_path)
    (f : filesystem) (coords : list Qc) :
  floats_of (String.words (str_strip content)) = Ok coords →
  length coords = 136%nat →
  (convert_txt_to_json content image_file f).1.1 = true.
Proof.
  intros Hfl Hlen. unfold convert_txt_to_json. rewrite Hfl.
  rewrite decide_False by (rewrite Hlen; intros Hne; by apply Hne).
  destruct (convert_keypoints_ok coords (seq 0 68)) as [kps ->]; [|reflexivity].
  intros i Hi%elem_of_seq. lia.
Qed.

(** C9, as the code has it.  On a delimited file whose tokens are all
    numeric, the converter and the loader apply the same rule: with a count
    other than 136 the converter answers [False], writes nothing and prints
    a line with the count found and 136, and the loader shows a warning with
    136 and the count found and loads nothing; with 136 values the converter
    answers [True] and the loader shows no dialog.  The two texts are each
    module's own. *)
Theorem converter_applies_the_count_rule (content : string)
    (image_file : image_path) (f : filesystem) (w : MainWindow) (coords : list Qc) :
  floats_of (String.words (str_strip content)) = Ok coords →
  (length coords ≠ 136%nat →
     convert_txt_to_json content image_file f
     = (false,
        Printed ("  ✗ 坐标数量不正确: " +:+ pretty.pretty (length coords)
                 +:+ "，期望136 (68个点x2)"),
        f)
     ∧ load_txt_annotations content w
       = show_dialog (Warning ("TXT文件格式错误：应包含136个坐标值，实际"
                               +:+ pretty.pretty (length coords) +:+ "个")) w)
  ∧ (length coords = 136%nat →
     (convert_txt_to_json content image_file f).1.1 = true
     ∧ dialogs (load_txt_annotations content w) = dialogs w).
Proof.
  intros Hfl. split; intros Hlen.
  - split.
    + by apply convert_txt_to_json_count.
    + by apply load_txt_annotations_count.
  - split.
    + by eapply convert_txt_to_json_ok.
    + destruct (load_txt_annotations_ok content coords w Hfl Hlen) as [n ->].
      reflexivity.
Qed.

Lemma converter_applies_the_count_rule_witness :
  convert_txt_to_json txt_135_values face no_files
  = (false, Printed "  ✗ 坐标数量不正确: 135，期望136 (68个点x2)", no_files)
  ∧ load_txt_annotations txt_135_values sample_window
    = show_dialog (Warning "TXT文件格式错误：应包含136个坐标值，实际135个")
        sample_window.
Proof.
  destruct (converter_applies_the_count_rule txt_135_values face no_files
              sample_window parsed_135_values) as [Hcount _].
  - vm_compute. reflexivity.
  - apply Hcount. vm_compute. lia.
Defined.

(** On the 135-value file the line printed by the converter and the text of
    the loader's warning are different strings. *)
Lemma converter_message_is_not_the_loader_message :
  (convert_txt_to_json txt_135_values face no_files).1.2
  = Printed "  ✗ 坐标数量不正确: 135，期望136 (68个点x2)"
  ∧ dialogs (load_txt_annotations txt_135_values sample_window)
    = [Warning "TXT文件格式错误：应包含136个坐标值，实际135个"]
  ∧ "  ✗ 坐标数量不正确: 135，期望136 (68个点x2)"
    ≠ "TXT文件格式错误：应包含136个坐标值，实际135个".
Proof.
  split; [|split].
  - vm_compute. reflexivity.
  - vm_compute. reflexivity.
  - discriminate.
Qed.

(** ** The store built from a delimited file *)

Lemma decode_txt_step_lookup (coords : list Qc) (sz : option (Qc * Qc))
    (d : store) (i : nat) :
  decode_txt_step coords sz d i !! KInt (Z.of_nat i + 1)
  = match txt_entry coords sz i with
    | Some p => Some p
    | None => d !! KInt (Z.of_nat i + 1)
    end.
Proof.
  unfold decode_txt_step, txt_entry.
  destruct (coords !! (i * 2)%nat) as [x|]; [|done].
  destruct (coords !! (i * 2 + 1)%nat) as [y|]; [|done].
  destruct (qlt x q0 || qlt y q0); [done|].
  destruct (size_ok sz); [|done]. by rewrite lookup_insert_eq.
Qed.

Lemma decode_txt_step_lookup_ne (coords : list Qc) (sz : option (Qc * Qc))
    (d : store) (i : nat) (k : pykey) :
  k ≠ KInt (Z.of_nat i + 1) → decode_txt_step coords sz d i !! k = d !! k.
Proof.
  intros Hk. unfold decode_txt_step.
  destruct (coords !! (i * 2)%nat) as [x|]; [|done].
  destruct (coords !! (i * 2 + 1)%nat) as [y|]; [|done].
  destruct (qlt x q0 || qlt y q0); [done|].
  destruct (size_ok sz); [|done]. by rewrite lookup_insert_ne.
Qed.

Lemma fold_decode_txt_lookup_ne (coords : list Qc) (sz : option (Qc * Qc))
    (indices : list nat) (d : store) (k : pykey) :
  (∀ i, i ∈ indices → k ≠ KInt (Z.of_nat i + 1)) →
  fold_left (decode_txt_step coords sz) indices d !! k = d !! k.
Proof.
  revert d. induction indices as [|j indices IH]; intros d Hk; [done|].
  simpl. rewrite IH by (intros i Hi; apply Hk; set_solver).
  apply decode_txt_step_lookup_ne, Hk. set_solver.
Qed.

Lemma fold_decode_txt_lookup (coords : list Qc) (sz : option (Qc * Qc))
    (indices : list nat) (d : store) (i : nat) :
  NoDup indices → i ∈ indices →
  fold_left (decode_txt_step coords sz) indices d !! KInt (Z.of_nat i + 1)
  = match txt_entry coords sz i with
    | Some p => Some p
    | None => d !! KInt (Z.of_nat i + 1)
    end.
Proof.
  revert d. induction indices as [|j indices IH]; intros d Hnd Hi.
  { by apply elem_of_nil in Hi. }
  apply NoDup_cons in Hnd as [Hj Hnd]. simpl.
  apply elem_of_cons in Hi as [Heq|Hi].
  - subst j. rewrite fold_decode_txt_lookup_ne.
    + apply decode_txt_step_lookup.
    + intros i' Hi' [= Heq]. apply Hj. by replace i with i' by lia.
  - rewrite IH by done.
    destruct (txt_entry coords sz i); [done|].
    apply decode_txt_step_lookup_ne. intros [= Heq].
    apply Hj. by replace j with i by lia.
Qed.

Lemma point_id_cases (k : pykey) :
  (∃ i : nat, (i < 68)%nat ∧ k = KInt (Z.of_nat i + 1))
  ∨ (∀ i : nat, (i < 68)%nat → k ≠ KInt (Z.of_nat i + 1)).
Proof.
  destruct k as [n| | |]; try (right; intros; discriminate).
  destruct (decide (1 <= n <= 68)) as [Hn|Hn].
  - left. exists (Z.to_nat (n - 1)). split; [lia|]. f_equal. lia.
  - right. intros i Hi [= ->]. lia.
Qed.

(** Lookup in the store built from 136 values, starting from the empty
    store: point [i + 1] is the pair at positions [2i], [2i + 1] unless that
    pair is skipped, and nothing else is stored. *)
Lemma decode_txt_lookup (coords : list Qc) (sz : option (Qc * Qc)) (k : pykey) (p : coord) :
  decode_txt coords sz ∅ !! k = Some p
  ↔ ∃ i : nat, (i < 68)%nat ∧ k = KInt (Z.of_nat i + 1) ∧ txt_entry coords sz i = Some p.
Proof.
  unfold decode_txt. split.
  - intros Hk.
    destruct (point_id_cases k) as [(i & Hi & ->)|Hno].
    + exists i. split; [done|]. split; [done|].
      rewrite fold_decode_txt_lookup in Hk.
      * destruct (txt_entry coords sz i); [done|]. by rewrite lookup_empty in Hk.
      * apply NoDup_seq.
      * apply elem_of_seq. lia.
    + rewrite fold_decode_txt_lookup_ne in Hk; [by rewrite lookup_empty in Hk|].
      intros i Hi%elem_of_seq. apply Hno. lia.
  - intros (i & Hi & -> & Hp). rewrite fold_decode_txt_lookup.
    + by rewrite Hp.
    + apply NoDup_seq.
    + apply elem_of_seq. lia.
Qed.

(** ** The store built from a structured file *)

Lemma load_json_point_run (acc : nat) (kp : json) (w : MainWindow) :
  load_json_point acc kp w
  = match json_entry (image_size w) kp with
    | Raise e => (Raise e, w)
    | Ok None => (Ok acc, w)
    | Ok (Some (key, p)) =>
        (Ok (acc + 1)%nat, set_keypoints_data (<[key := p]> (keypoints_data w)) w)
    end.
Proof.
  unfold load_json_point, json_entry, bind, lift, ret, get, modify, ratio_to_pixel.
  destruct (subscript kp "id") as [kp_id|]; [|done].
  destruct (subscript kp "x") as [ratio_x|]; [|done].
  destruct (subscript kp "y") as [ratio_y|]; [|done].
  destruct (as_number ratio_x) as [x|]; [|done].
  destruct (qlt x q0); [done|].
  destruct (as_number ratio_y) as [y|]; [|done].
  destruct (qlt y q0); [done|].
  destruct (size_ok (image_size w)) as [[width height]|]; [|done].
  destruct (check_products x y); [|done].
  by destruct (key_of_json kp_id).
Qed.

Lemma for_each_load_json_point (items : list json) (acc : nat) (w : MainWindow) :
  ∃ r, for_each items load_json_point acc w
       = (r, set_keypoints_data
               (decode_json (image_size w) items (keypoints_data w)).1 w)
       ∧ match (decode_json (image_size w) items (keypoints_data w)).2 with
         | None => ∃ n, r = Ok n
         | Some e => r = Raise e
         end.
Proof.
  revert acc w. induction items as [|kp items IH]; intros acc w; simpl.
  - exists (Ok acc). unfold ret. rewrite set_keypoints_data_id. eauto.
  - unfold bind. rewrite load_json_point_run.
    destruct (json_entry (image_size w) kp) as [[[key p]|]|e]; simpl.
    + destruct (IH (acc + 1)%nat
                  (set_keypoints_data (<[key := p]> (keypoints_data w)) w))
        as (r & Hrun & Hr).
      exists r. by rewrite Hrun.
    + apply IH.
    + exists (Raise e). by rewrite set_keypoints_data_id.
Qed.

(** The store after [_load_json_annotations]: what the loop stored before it
    ended, whether it ended normally or by an exception. *)
Lemma keypoints_data_load_json (file : option json) (w : MainWindow) :
  keypoints_data (load_json_annotations file w)
  = match json_items file with
    | Ok items => (decode_json (image_size w) items (keypoints_data w)).1
    | Raise _ => keypoints_data w
    end.
Proof.
  unfold load_json_annotations, try_warn, load_json_try, json_items,
    bind, lift, ret, raise, modify.
  destruct file as [data|]; [|done].
  destruct (dict_get_keypoints data) as [keypoints|]; [|done].
  destruct (iter_items keypoints) as [items|]; [|done].
  destruct (for_each_load_json_point items 0%nat w) as (r & -> & Hr).
  by destruct r.
Qed.

Lemma dialogs_load_json (file : option json) (w : MainWindow) :
  dialogs (load_json_annotations file w)
  = match json_items file with
    | Ok items =>
        match (decode_json (image_size w) items (keypoints_data w)).2 with
        | None => dialogs w
        | Some e => dialogs w ++ [WarningExc "加载JSON标注文件失败：" e]
        end
    | Raise e => dialogs w ++ [WarningExc "加载JSON标注文件失败：" e]
    end.
Proof.
  unfold load_json_annotations, try_warn, load_json_try, json_items,
    bind, lift, ret, raise, modify.
  destruct file as [data|]; [|done].
  destruct (dict_get_keypoints data) as [keypoints|]; [|done].
  destruct (iter_items keypoints) as [items|]; [|done].
  destruct (for_each_load_json_point items 0%nat w) as (r & -> & Hr).
  destruct (decode_json (image_size w) items (keypoints_data w)).2.
  - by subst r.
  - by destruct Hr as [n ->].
Qed.

Lemma qlt_false (a b : Qc) : qlt a b = false → ¬ (a < b)%Qc.
Proof. unfold qlt. apply bool_decide_eq_false. Qed.

Lemma qlt_true (a b : Qc) : qlt a b = true → (a < b)%Qc.
Proof. unfold qlt. apply bool_decide_eq_true. Qed.


(** Every entry of the store after the loop was there before or comes from
    an item of the list. *)
Lemma decode_json_origin sz items d k p :
  (decode_json sz items d).1 !! k = Some p →
  d !! k = Some p ∨ ∃ kp, kp ∈ items ∧ json_entry sz kp = Ok (Some (k, p)).
Proof.
  revert d. induction items as [|kp items IH]; intros d; simpl; [by left|].
  destruct (json_entry sz kp) as [[[key q]|]|e] eqn:Hkp; simpl.
  - intros [Hd|(kp' & Hin & Hkp')]%IH.
    + rewrite lookup_insert in Hd. case_decide as Hk.
      * injection Hd as <-. subst key. right. exists kp. split; [set_solver|done].
      * by left.
    + right. exists kp'. split; [set_solver|done].
  - intros [Hd|(kp' & Hin & Hkp')]%IH; [by left|].
    right. exists kp'. split; [set_solver|done].
  - by left.
Qed.


(** The store after [_load_txt_annotations] on a cleared window. *)
Lemma keypoints_data_load_txt (content : string) (w : MainWindow) :
  keypoints_data w = ∅ →
  keypoints_data (load_txt_annotations content w)
  = match floats_of (String.words (str_strip content)) with
    | Ok coords =>
        if decide (length coords = 136%nat)
        then decode_txt coords (image_size w) ∅
        else ∅
    | Raise _ => ∅
    end.
Proof.
  intros Hd. destruct (floats_of _) as [coords|e] eqn:Hfl.
  - case_decide as Hlen.
    + destruct (load_txt_annotations_ok content coords w Hfl Hlen) as [n ->].
      simpl. by rewrite Hd.
    + by rewrite (load_txt_annotations_count content coords).
  - by rewrite (load_txt_annotations_raise content e).
Qed.

(** ** Negative components are never loaded *)


Lemma key_of_json_int (id : Z) : key_of_json (JNum (qc id 1)) = Ok (KInt id).
Proof.
  unfold key_of_json, qc. simpl.
  change (id # 1) with (inject_Z id). by rewrite inject_Z_Qred.
Qed.

Lemma json_entry_point_record sz id x y :
  json_entry sz (point_record id x y)
  = if qlt x q0 then Ok None
    else if qlt y q0 then Ok None
    else match size_ok sz with
         | None => Ok None
         | Some _ =>
             match check_products x y with
             | Raise e => Raise e
             | Ok _ => Ok (Some (KInt id, (x, y)))
             end
         end.
Proof.
  unfold json_entry, point_record, subscript. simpl json_get.
  cbv beta iota. unfold as_number.
  destruct (qlt x q0); [done|]. destruct (qlt y q0); [done|].
  destruct (size_ok sz); [|done].
  destruct (check_products x y); [|done]. by rewrite key_of_json_int.
Qed.




(** ** Splitting and joining *)

Lemma string_app_cons (a : ascii) (s t : string) :
  String a s +:+ t = String a (s +:+ t).
Proof. reflexivity. Qed.

Lemma string_app_nil_l (s : string) : "" +:+ s = s.
Proof. reflexivity. Qed.

Lemma string_app_assoc (s1 s2 s3 : string) : (s1 +:+ s2) +:+ s3 = s1 +:+ s2 +:+ s3.
Proof.
  induction s1 as [|a s1 IH]; [done|]. by rewrite !string_app_cons, IH.
Qed.

Lemma string_app_nil_r (s : string) : s +:+ "" = s.
Proof. induction s as [|a s IH]; [done|]. by rewrite string_app_cons, IH. Qed.

Lemma rev_app_rev_app (s1 s2 s3 : string) :
  String.rev_app (String.rev_app s1 s2) s3 = String.rev_app s2 (s1 +:+ s3).
Proof.
  revert s2 s3. induction s1 as [|a s1 IH]; intros s2 s3; [done|].
  cbn [String.rev_app]. by rewrite IH, string_app_cons.
Qed.

Lemma string_rev_involutive (s : string) : String.rev (String.rev s) = s.
Proof.
  unfold String.rev. rewrite rev_app_rev_app. cbn [String.rev_app].
  apply string_app_nil_r.
Qed.

Lemma words_go_spaces (cur : option string) (s : string) :
  str_rstrip s = "" → String.words_go cur s = option_list (String.rev <$> cur).
Proof.
  revert cur. induction s as [|a s IH]; intros cur Hs; [done|].
  cbn in Hs. destruct (str_rstrip s) eqn:Hr; [|done].
  destruct (Ascii.is_space a) eqn:Ha; [|done].
  cbn. rewrite Ha, IH by done. cbn. by rewrite app_nil_r.
Qed.

Lemma words_go_rstrip (cur : option string) (s : string) :
  String.words_go cur (str_rstrip s) = String.words_go cur s.
Proof.
  revert cur. induction s as [|a s IH]; intros cur; [done|].
  cbn [str_rstrip]. destruct (str_rstrip s) as [|b r] eqn:Hr.
  - destruct (Ascii.is_space a) eqn:Ha; cbn; rewrite Ha.
    + rewrite words_go_spaces by done. cbn. by rewrite app_nil_r.
    + by rewrite words_go_spaces.
  - cbn. destruct (Ascii.is_space a); by rewrite <- IH.
Qed.

Lemma words_lstrip (s : string) :
  String.words_go None (str_lstrip s) = String.words_go None s.
Proof.
  induction s as [|a s IH]; [done|].
  cbn. destruct (Ascii.is_space a) eqn:Ha; [|by cbn; rewrite Ha]. done.
Qed.

(** [split()] does not see the effect of [strip()]. *)
Lemma words_strip (s : string) : String.words (str_strip s) = String.words s.
Proof.
  unfold String.words, str_strip. by rewrite words_go_rstrip, words_lstrip.
Qed.

Lemma words_go_no_space (a : ascii) (t rest : string) (cur : option string) :
  Ascii.is_space a = false → no_space t = true →
  String.words_go cur (String a t +:+ rest)
  = String.words_go (Some (String.rev_app (String a t) (default "" cur))) rest.
Proof.
  revert a cur. induction t as [|b t IH]; intros a cur Ha Ht.
  - rewrite string_app_cons, string_app_nil_l.
    cbn [String.words_go]. rewrite Ha. by destruct cur.
  - cbn in Ht. apply andb_true_iff in Ht as [Hb Ht].
    apply negb_true_iff in Hb.
    rewrite string_app_cons.
    cbn [String.words_go]. rewrite Ha, IH by done.
    by destruct cur.
Qed.

Lemma words_go_token (t rest : string) :
  is_token t = true →
  String.words_go None (t +:+ rest)
  = String.words_go (Some (String.rev t)) rest.
Proof.
  destruct t as [|a t]; [done|]. cbn [is_token no_space].
  intros [Ha Ht]%andb_true_iff. apply negb_true_iff in Ha.
  by rewrite words_go_no_space.
Qed.

(** Tokens joined by single spaces are found again by [split()]. *)
Lemma words_join (tokens : list string) :
  Forall (λ t, is_token t = true) tokens →
  String.words (str_join " " tokens) = tokens.
Proof.
  unfold String.words.
  induction tokens as [|t tokens IH]; intros Htok; [done|].
  apply Forall_cons in Htok as [Ht Htok].
  destruct tokens as [|t' tokens].
  - cbn [str_join]. rewrite <- (string_app_nil_r t) at 1.
    rewrite words_go_token by done.
    cbn. by rewrite string_rev_involutive.
  - change (str_join " " (t :: t' :: tokens))
      with (t +:+ " " +:+ str_join " " (t' :: tokens)).
    rewrite words_go_token by done.
    change (" " +:+ str_join " " (t' :: tokens))
      with (String " " (str_join " " (t' :: tokens))).
    cbn [String.words_go]. cbn [Ascii.is_space].
    rewrite IH by done. cbn. by rewrite string_rev_involutive.
Qed.

(** ** Printing and reading decimal numbers *)

Lemma is_nat_pretty_char (x : N) :
  (x < 10)%N → Ascii.is_nat (pretty.pretty_N_char x) = Some (N.to_nat x).
Proof.
  intros Hx.
  assert (x = 0 ∨ x = 1 ∨ x = 2 ∨ x = 3 ∨ x = 4 ∨ x = 5 ∨ x = 6 ∨ x = 7
          ∨ x = 8 ∨ x = 9)%N as Hcases by lia.
  repeat (destruct Hcases as [->|Hcases]; [reflexivity|]). by subst.
Qed.

Lemma is_digit_pretty_char (x : N) : (x < 10)%N → is_digit (pretty.pretty_N_char x) = true.
Proof. intros Hx. unfold is_digit. by rewrite is_nat_pretty_char. Qed.

Lemma digit_is_no_sign (a : ascii) :
  is_digit a = true → Ascii.eqb a "-" = false ∧ Ascii.eqb a "+" = false.
Proof. destruct a as [[] [] [] [] [] [] [] []]; cbn; done. Qed.

Lemma digit_is_no_point (a : ascii) : is_digit a = true → Ascii.eqb a "." = false.
Proof. destruct a as [[] [] [] [] [] [] [] []]; cbn; done. Qed.

Lemma digit_is_no_space (a : ascii) : is_digit a = true → Ascii.is_space a = false.
Proof. destruct a as [[] [] [] [] [] [] [] []]; cbn; done. Qed.

Lemma pretty_N_go_app (x : N) (s t : string) :
  pretty.pretty_N_go x s +:+ t = pretty.pretty_N_go x (s +:+ t).
Proof.
  revert s. induction (N.lt_wf_0 x) as [x _ IH]; intros s.
  destruct (decide (x = 0)%N) as [->|Hx]; [by rewrite !pretty.pretty_N_go_0|].
  rewrite (pretty.pretty_N_go_step x s) by lia.
  rewrite (pretty.pretty_N_go_step x (s +:+ t)) by lia.
  rewrite IH by (apply N.div_lt; lia). by rewrite string_app_cons.
Qed.

Lemma digits_value_pretty_go (x : N) (t : string) :
  digits_value 0 (pretty.pretty_N_go x t) = digits_value x t.
Proof.
  revert t. induction (N.lt_wf_0 x) as [x _ IH]; intros t.
  destruct (decide (x = 0)%N) as [->|Hx]; [by rewrite pretty.pretty_N_go_0|].
  rewrite pretty.pretty_N_go_step by lia.
  rewrite IH by (apply N.div_lt; lia).
  cbn [digits_value].
  rewrite is_nat_pretty_char by (apply N.mod_lt; lia).
  f_equal. rewrite N2Nat.id. symmetry. apply N.div_mod. lia.
Qed.

Lemma digits_value_pretty (x : N) (t : string) :
  digits_value 0 (pretty.pretty x +:+ t) = digits_value x t.
Proof.
  unfold pretty.pretty, pretty.pretty_N. case_decide as Hx.
  - by subst x.
  - by rewrite pretty_N_go_app, string_app_nil_l, digits_value_pretty_go.
Qed.

Lemma all_digits_pretty_go (x : N) (t : string) :
  all_digits (pretty.pretty_N_go x t) = all_digits t.
Proof.
  revert t. induction (N.lt_wf_0 x) as [x _ IH]; intros t.
  destruct (decide (x = 0)%N) as [->|Hx]; [by rewrite pretty.pretty_N_go_0|].
  rewrite pretty.pretty_N_go_step by lia.
  rewrite IH by (apply N.div_lt; lia).
  cbn [all_digits]. by rewrite is_digit_pretty_char by (apply N.mod_lt; lia).
Qed.

Lemma all_digits_pretty (x : N) : all_digits (pretty.pretty x) = true.
Proof.
  unfold pretty.pretty, pretty.pretty_N. case_decide; [done|].
  by rewrite all_digits_pretty_go.
Qed.

Lemma fixed_digits_app (k : nat) (m : N) (s t : string) :
  fixed_digits k m s +:+ t = fixed_digits k m (s +:+ t).
Proof.
  revert m s. induction k as [|k IH]; intros m s; [done|].
  cbn [fixed_digits]. by rewrite IH, string_app_cons.
Qed.

Lemma all_digits_fixed (k : nat) (m : N) (t : string) :
  all_digits (fixed_digits k m t) = all_digits t.
Proof.
  revert m t. induction k as [|k IH]; intros m t; [done|].
  cbn [fixed_digits]. rewrite IH. cbn [all_digits].
  by rewrite is_digit_pretty_char by (apply N.mod_lt; lia).
Qed.

Lemma length_fixed_digits (k : nat) (m : N) (t : string) :
  String.length (fixed_digits k m t) = (k + String.length t)%nat.
Proof.
  revert m t. induction k as [|k IH]; intros m t; [done|].
  cbn [fixed_digits]. rewrite IH. cbn [String.length]. lia.
Qed.

Lemma digits_value_fixed (k : nat) (m acc : N) (t : string) :
  digits_value acc (fixed_digits k m t)
  = digits_value (acc * 10 ^ N.of_nat k + m `mod` 10 ^ N.of_nat k)%N t.
Proof.
  revert m acc t. induction k as [|k IH]; intros m acc t.
  - cbn [fixed_digits]. f_equal. change (10 ^ N.of_nat 0)%N with 1%N.
    rewrite N.mod_1_r. lia.
  - cbn [fixed_digits]. rewrite IH. cbn [digits_value].
    rewrite is_nat_pretty_char by (apply N.mod_lt; lia).
    f_equal. rewrite N2Nat.id.
    replace (N.of_nat (S k)) with (N.succ (N.of_nat k)) by lia.
    rewrite N.pow_succ_r'.
    rewrite (N.Div0.mod_mul_r m 10 (10 ^ N.of_nat k)). lia.
Qed.

Lemma split_point_digits (s t : string) :
  all_digits s = true → split_point (s +:+ String "." t) = (s, Some t).
Proof.
  induction s as [|a s IH]; intros Hs; [done|].
  cbn [all_digits] in Hs. apply andb_true_iff in Hs as [Ha Hs].
  rewrite string_app_cons. cbn [split_point].
  by rewrite digit_is_no_point, IH.
Qed.

Lemma split_sign_digits (s t : string) :
  all_digits s = true →
  split_sign (s +:+ String "." t) = (false, s +:+ String "." t).
Proof.
  destruct s as [|a s]; [done|]. cbn [all_digits].
  intros [Ha Hs]%andb_true_iff.
  rewrite string_app_cons. cbn [split_sign].
  by destruct (digit_is_no_sign a Ha) as [-> ->].
Qed.

Lemma no_space_digits (s : string) : all_digits s = true → no_space s = true.
Proof.
  induction s as [|a s IH]; [done|]. cbn.
  intros [Ha Hs]%andb_true_iff. by rewrite digit_is_no_space, IH.
Qed.

Lemma no_space_app (s t : string) :
  no_space (s +:+ t) = no_space s && no_space t.
Proof.
  induction s as [|a s IH]; [done|].
  rewrite string_app_cons. cbn [no_space]. by rewrite IH, andb_assoc.
Qed.

Lemma Qclt_q0 (x : Qc) : (x < q0)%Qc ↔ Qnum x < 0.
Proof.
  unfold Qclt, Qlt. change (this q0) with (0 # 1)%Q.
  cbn [Qnum Qden]. lia.
Qed.

Lemma round_half_even_sign (q : Q) :
  (Qnum q < 0 → round_half_even q <= 0) ∧ (0 <= Qnum q → 0 <= round_half_even q).
Proof.
  unfold round_half_even.
  assert (0 < Z.pos (Qden q)) as Hb by lia.
  split; intros Ha.
  - assert (Qnum q / Z.pos (Qden q) < 0) by (apply Z.div_lt_upper_bound; lia).
    destruct (Z.compare _ _); [destruct (Z.even _)|..]; lia.
  - assert (0 <= Qnum q / Z.pos (Qden q)) by (apply Z.div_pos; lia).
    destruct (Z.compare _ _); [destruct (Z.even _)|..]; lia.
Qed.

Lemma micro_sign (x : Qc) :
  ((x < q0)%Qc → micro x <= 0) ∧ (¬ (x < q0)%Qc → 0 <= micro x).
Proof.
  unfold micro. rewrite Qclt_q0.
  destruct (round_half_even_sign (x * (1000000 # 1))%Q) as [Hneg Hpos].
  cbn [Qmult Qnum] in Hneg, Hpos. split; intros Hx.
  - apply Hneg. lia.
  - apply Hpos. lia.
Qed.

(** Reading what [.6f] prints gives the value rounded to six decimals. *)
Lemma py_float_format6 (x : Qc) : py_float (format6 x) = Ok (round6 x).
Proof.
  unfold format6, py_float.
  set (n := Z.abs_N (micro x)).
  set (ip := pretty.pretty (n `div` 1000000)%N).
  set (fp := fixed_digits 6 (n `mod` 1000000)%N "").
  assert (all_digits ip = true) as Hip by apply all_digits_pretty.
  assert (split_sign ((if qlt x q0 then "-" else "") +:+ ip +:+ "." +:+ fp)
          = (qlt x q0, ip +:+ String "." fp)) as ->.
  { destruct (qlt x q0).
    - reflexivity.
    - rewrite string_app_nil_l. by apply split_sign_digits. }
  rewrite split_point_digits by done. cbn [default]. unfold id.
  assert (String.length fp = 6%nat) as Hlen by apply length_fixed_digits.
  rewrite Hlen, Nat.add_comm. cbn [Nat.add Nat.eqb].
  unfold ip, fp. rewrite digits_value_pretty, digits_value_fixed.
  change (10 ^ N.of_nat 6)%N with 1000000%N.
  rewrite N.Div0.mod_mod.
  replace (n `div` 1000000 * 1000000 + n `mod` 1000000)%N with n
    by (rewrite (N.div_mod n 1000000) at 1; lia).
  cbn [digits_value]. unfold round6. f_equal.
  change (Z.to_pos (10 ^ Z.of_nat 6)) with 1000000%positive.
  f_equal. unfold n. rewrite N2Z.inj_abs_N.
  destruct (micro_sign x) as [Hneg Hpos]. unfold qlt.
  case_bool_decide as Hx.
  - specialize (Hneg Hx). lia.
  - specialize (Hpos Hx). lia.
Qed.

Lemma is_token_format6 (x : Qc) : is_token (format6 x) = true.
Proof.
  unfold format6.
  set (ip := pretty.pretty _). set (fp := fixed_digits _ _ _).
  assert (no_space ip = true) as Hip
    by apply no_space_digits, all_digits_pretty.
  assert (no_space fp = true) as Hfp.
  { apply no_space_digits. unfold fp. by rewrite all_digits_fixed. }
  destruct (qlt x q0).
  - change ("-" +:+ ip +:+ "." +:+ fp) with (String "-" (ip +:+ String "." fp)).
    cbn [is_token no_space Ascii.is_space negb andb].
    rewrite no_space_app. cbn [no_space Ascii.is_space negb andb].
    by rewrite Hip, Hfp.
  - rewrite string_app_nil_l.
    assert (no_space (ip +:+ String "." fp) = true) as Hns.
    { rewrite no_space_app. cbn [no_space Ascii.is_space negb andb].
      by rewrite Hip, Hfp. }
    destruct ip; [done|]. exact Hns.
Qed.

Lemma py_float_sentinel : py_float sentinel_token = Ok (qc (-1) 1).
Proof. vm_compute. f_equal. apply Qc_is_canon. reflexivity. Qed.

(** ** Stores built entry by entry *)

Lemma store_entries_lookup_ne entry ids (d : store) (k : pykey) :
  (∀ id, id ∈ ids → k ≠ KInt id) →
  store_entries entry ids d !! k = d !! k.
Proof.
  unfold store_entries. revert d.
  induction ids as [|j ids IH]; intros d Hk; [done|].
  cbn [fold_left]. rewrite IH.
  - destruct (entry j); [|done]. apply lookup_insert_ne.
    intros Heq. eapply Hk; [|done]. by left.
  - intros id Hid. apply Hk. by right.
Qed.

Lemma store_entries_lookup entry ids (d : store) (id : Z) :
  NoDup ids → id ∈ ids →
  store_entries entry ids d !! KInt id
  = match entry id with
    | Some p => Some p
    | None => d !! KInt id
    end.
Proof.
  unfold store_entries. revert d.
  induction ids as [|j ids IH]; intros d Hnd Hid.
  { by apply elem_of_nil in Hid. }
  apply NoDup_cons in Hnd as [Hj Hnd]. cbn [fold_left].
  apply elem_of_cons in Hid as [Heq|Hid].
  - subst j.
    pose proof (store_entries_lookup_ne entry ids) as Hne.
    unfold store_entries in Hne. rewrite Hne.
    + destruct (entry id); [|done]. by rewrite lookup_insert_eq.
    + intros id' Hid' [= Heq]. by subst id'.
  - rewrite IH by done. destruct (entry id); [done|].
    destruct (entry j); [|done]. apply lookup_insert_ne.
    intros [= Heq]. by subst j.
Qed.

Lemma decode_json_records sz (mk : Z → json) entry ids (d : store) :
  (∀ id, id ∈ ids →
     json_entry sz (mk id) = Ok ((λ p, (KInt id, p)) <$> entry id)) →
  decode_json sz (map mk ids) d = (store_entries entry ids d, None).
Proof.
  unfold store_entries. revert d.
  induction ids as [|j ids IH]; intros d Hmk; [done|].
  cbn [map decode_json fold_left].
  rewrite Hmk by (by left).
  destruct (entry j); cbn [fmap option_fmap option_map];
    apply IH; intros id Hid; apply Hmk; by right.
Qed.

(** ** Rounded values *)

Lemma qc_nonneg (n : Z) (d : positive) : 0 <= n → qlt (qc n d) q0 = false.
Proof.
  intros Hn. unfold qlt. apply bool_decide_eq_false.
  rewrite Qclt_q0. unfold qc. cbn [this Q2Qc].
  intros Hneg.
  assert (Qred (n # d) < 0)%Q as Hlt by (unfold Qlt; cbn; lia).
  rewrite Qred_correct in Hlt. unfold Qlt in Hlt. cbn in Hlt. lia.
Qed.

Lemma round6_nonneg (x : Qc) : ¬ (x < q0)%Qc → qlt (round6 x) q0 = false.
Proof.
  intros Hx. unfold round6. apply qc_nonneg. by apply micro_sign.
Qed.

Lemma qlt_unset : qlt (qc (-1) 1) q0 = true.
Proof. vm_compute. reflexivity. Qed.

Lemma qlt_round6_unset : qlt (round6 (qc (-1) 1)) q0 = true.
Proof. vm_compute. reflexivity. Qed.

(** ** What a saved delimited file reads back as *)

Lemma flat_map_pair_lookup {A B} (g : A → B * B) (ids : list A) (i : nat) :
  flat_map (λ id, [(g id).1; (g id).2]) ids !! (i * 2)%nat = fst ∘ g <$> ids !! i
  ∧ flat_map (λ id, [(g id).1; (g id).2]) ids !! (i * 2 + 1)%nat = snd ∘ g <$> ids !! i.
Proof.
  revert i. induction ids as [|id ids IH]; intros i; [done|].
  destruct i as [|i]; [done|].
  cbn [flat_map]. replace (S i * 2)%nat with (S (S (i * 2))) by lia.
  apply IH.
Qed.

Lemma length_flat_map_pair {A B} (g : A → B * B) (ids : list A) :
  length (flat_map (λ id, [(g id).1; (g id).2]) ids) = (2 * length ids)%nat.
Proof.
  induction ids as [|id ids IH]; [done|]. cbn [flat_map length app].
  rewrite IH. lia.
Qed.

Lemma floats_of_saved_tokens (d : store) (ids : list Z) :
  floats_of (flat_map (λ kp_id : Z,
      match d !! KInt kp_id with
      | Some (ratio_x, ratio_y) => [format6 ratio_x; format6 ratio_y]
      | None => [sentinel_token; sentinel_token]
      end) ids)
  = Ok (flat_map (λ id, [(saved_pair d id).1; (saved_pair d id).2]) ids).
Proof.
  induction ids as [|id ids IH]; [done|].
  cbn [flat_map]. unfold saved_pair at 1 2.
  destruct (d !! KInt id) as [[x y]|]; cbn [app floats_of fst snd].
  - by rewrite !py_float_format6, IH.
  - by rewrite !py_float_sentinel, IH.
Qed.

Lemma saved_tokens_are_tokens (d : store) (ids : list Z) :
  Forall (λ t, is_token t = true)
    (flat_map (λ kp_id : Z,
      match d !! KInt kp_id with
      | Some (ratio_x, ratio_y) => [format6 ratio_x; format6 ratio_y]
      | None => [sentinel_token; sentinel_token]
      end) ids).
Proof.
  induction ids as [|id ids IH]; [constructor|].
  cbn [flat_map]. apply Forall_app. split; [|done].
  destruct (d !! KInt id) as [[x y]|].
  - repeat constructor; apply is_token_format6.
  - repeat constructor.
Qed.

(** The text written by [_save_txt_annotations] splits and parses into the
    136 saved numbers. *)
Lemma floats_of_saved_text (d : store) :
  floats_of (String.words (str_strip (str_join " " (txt_coords d))))
  = Ok (flat_map (λ id, [(saved_pair d id).1; (saved_pair d id).2]) (seqZ 1 68)).
Proof.
  rewrite words_strip, words_join by apply saved_tokens_are_tokens.
  apply floats_of_saved_tokens.
Qed.

Lemma txt_entry_saved (d : store) (sz : option (Qc * Qc)) (i : nat) :
  (i < 68)%nat →
  is_Some (size_ok sz) →
  no_negative d →
  txt_entry (flat_map (λ id, [(saved_pair d id).1; (saved_pair d id).2]) (seqZ 1 68))
            sz i
  = round_coord <$> d !! KInt (Z.of_nat i + 1).
Proof.
  intros Hi [s Hsz] Hd. unfold txt_entry.
  destruct (flat_map_pair_lookup (saved_pair d) (seqZ 1 68) i) as [-> ->].
  rewrite lookup_seqZ_lt by lia. cbn [fmap option_fmap option_map compose].
  replace (1 + Z.of_nat i) with (Z.of_nat i + 1) by lia.
  unfold saved_pair.
  destruct (d !! KInt (Z.of_nat i + 1)) as [[x y]|] eqn:Hk; cbn [fst snd].
  - destruct (Hd _ _ _ Hk) as [Hx Hy].
    rewrite !round6_nonneg by done. cbn [orb]. by rewrite Hsz.
  - by rewrite qlt_unset.
Qed.

Lemma decode_txt_saved (d : store) (sz : option (Qc * Qc)) :
  is_Some (size_ok sz) →
  no_negative d →
  (∀ k, is_Some (d !! k) → ∃ id, k = KInt id ∧ 1 <= id <= 68) →
  decode_txt (flat_map (λ id, [(saved_pair d id).1; (saved_pair d id).2]) (seqZ 1 68))
             sz ∅
  = round_coord <$> d.
Proof.
  intros Hsz Hd Hkeys. apply map_eq. intros k. apply option_eq. intros p.
  rewrite decode_txt_lookup. split.
  - intros (i & Hi & -> & Hentry).
    rewrite txt_entry_saved in Hentry by done. by rewrite lookup_fmap.
  - intros Hk.
    destruct (Hkeys k) as (id & -> & Hid).
    { rewrite lookup_fmap in Hk. by destruct (d !! k). }
    exists (Z.to_nat (id - 1)). split; [lia|].
    replace (Z.of_nat (Z.to_nat (id - 1)) + 1) with id by lia.
    split; [done|]. rewrite txt_entry_saved by (done || lia).
    replace (Z.of_nat (Z.to_nat (id - 1)) + 1) with id by lia.
    by rewrite <- lookup_fmap.
Qed.

(** ** Numbers in the range of the floats *)

Lemma Qcle_qc_r (x : Qc) (n : Z) :
  (x ≤ qc n 1)%Qc ↔ Qnum x <= n * Z.pos (Qden x).
Proof.
  unfold Qcle, qc. cbn [this Q2Qc]. rewrite Qred_correct.
  unfold Qle. cbn [Qnum Qden]. lia.
Qed.

Lemma Qcle_qc_l (x : Qc) (n : Z) :
  (qc n 1 ≤ x)%Qc ↔ n * Z.pos (Qden x) <= Qnum x.
Proof.
  unfold Qcle, qc. cbn [this Q2Qc]. rewrite Qred_correct.
  unfold Qle. cbn [Qnum Qden]. lia.
Qed.

Lemma round_half_even_bounds (q : Q) (n : Z) :
  (Qnum q <= n * Z.pos (Qden q) → round_half_even q <= n)
  ∧ (n * Z.pos (Qden q) <= Qnum q → n <= round_half_even q).
Proof.
  unfold round_half_even.
  set (a := Qnum q). set (b := Z.pos (Qden q)).
  assert (0 < b) as Hb by (unfold b; lia).
  pose proof (Z.div_mod a b ltac:(lia)) as Hdm.
  pose proof (Z.mod_pos_bound a b Hb) as Hmod.
  split; intros Hle.
  - assert (a / b <= n) as Hfl by (apply Z.div_le_upper_bound; lia).
    destruct (Z.compare_spec (2 * (a mod b)) b) as [He|Hl|Hg].
    + destruct (Z.even (a / b)); [done|]. nia.
    + done.
    + nia.
  - assert (n <= a / b) as Hfl by (apply Z.div_le_lower_bound; lia).
    destruct (Z.compare_spec (2 * (a mod b)) b) as [He|Hl|Hg];
      [destruct (Z.even (a / b))|..]; lia.
Qed.

Lemma round6_bounds (x : Qc) (n : Z) :
  ((x ≤ qc n 1)%Qc → (round6 x ≤ qc n 1)%Qc)
  ∧ ((qc n 1 ≤ x)%Qc → (qc n 1 ≤ round6 x)%Qc).
Proof.
  rewrite !Qcle_qc_r, !Qcle_qc_l.
  destruct (round_half_even_bounds (x * (1000000 # 1))%Q (n * 1000000)) as [Hup Hlo].
  cbn [Qmult Qnum Qden] in Hup, Hlo.
  unfold round6, micro. set (m := round_half_even _) in *.
  assert ((qc m 1000000 ≤ qc n 1)%Qc ↔ m <= n * 1000000) as Hle1.
  { unfold Qcle, qc. cbn [this Q2Qc]. rewrite !Qred_correct.
    unfold Qle. cbn [Qnum Qden]. lia. }
  assert ((qc n 1 ≤ qc m 1000000)%Qc ↔ n * 1000000 <= m) as Hle2.
  { unfold Qcle, qc. cbn [this Q2Qc]. rewrite !Qred_correct.
    unfold Qle. cbn [Qnum Qden]. lia. }
  rewrite <- !Qcle_qc_r, <- !Qcle_qc_l, Hle1, Hle2, !Qcle_qc_r, !Qcle_qc_l.
  split; intros H; [apply Hup|apply Hlo]; nia.
Qed.

Lemma int_too_large_in_range (x : Qc) :
  in_float_range x → int_too_large x = false.
Proof.
  intros [Hlo Hhi]. unfold int_too_large. apply negb_false_iff, andb_true_iff.
  split; apply bool_decide_eq_true.
  - eapply Qclt_le_trans; [|exact Hlo]. vm_compute. reflexivity.
  - eapply Qcle_lt_trans; [exact Hhi|]. vm_compute. reflexivity.
Qed.

Lemma in_float_range_round6 (x : Qc) : in_float_range x → in_float_range (round6 x).
Proof. intros [Hlo Hhi]. split; by apply round6_bounds. Qed.

Lemma check_products_in_range (x y : Qc) :
  in_float_range x → in_float_range y → check_products x y = Ok tt.
Proof.
  intros Hx Hy. unfold check_products.
  by rewrite !int_too_large_in_range.
Qed.

Lemma in_float_range_unit (x : Qc) : (q0 ≤ x ≤ qc 1 1)%Qc → in_float_range x.
Proof.
  intros [Hlo Hhi]. split.
  - eapply Qcle_trans; [|exact Hlo]. vm_compute. discriminate.
  - eapply Qcle_trans; [exact Hhi|]. vm_compute. discriminate.
Qed.

Lemma in_float_range_unset : in_float_range (qc (-1) 1).
Proof. split; vm_compute; discriminate. Qed.

(** ** What a saved structured file reads back as *)

Lemma decode_json_saved (d : store) (sz : option (Qc * Qc)) :
  is_Some (size_ok sz) →
  no_negative d →
  float_store d →
  (∀ k, is_Some (d !! k) → ∃ id, k = KInt id ∧ 1 <= id <= 68) →
  decode_json sz (json_keypoints d) ∅ = (round_coord <$> d, None).
Proof.
  intros [s Hsz] Hd Hfloat Hkeys. unfold json_keypoints.
  rewrite (decode_json_records sz _ (λ id, round_coord <$> d !! KInt id)).
  - f_equal. apply map_eq. intros k. rewrite lookup_fmap.
    destruct k as [id| | |].
    + destruct (decide (1 <= id <= 68)) as [Hid|Hid].
      * rewrite store_entries_lookup.
        -- by destruct (d !! KInt id).
        -- apply NoDup_seqZ.
        -- apply elem_of_seqZ. lia.
      * rewrite store_entries_lookup_ne.
        -- destruct (d !! KInt id) eqn:Hk; [|done].
           destruct (Hkeys (KInt id)) as (id' & [= <-] & Hid'); [by rewrite Hk|lia].
        -- intros id' Hid'%elem_of_seqZ [= ->]. lia.
    + rewrite store_entries_lookup_ne by done.
      destruct (d !! KFrac q) eqn:Hk; [|done].
      by destruct (Hkeys (KFrac q)) as (id' & ? & _); [by rewrite Hk|].
    + rewrite store_entries_lookup_ne by done.
      destruct (d !! KStr s0) eqn:Hk; [|done].
      by destruct (Hkeys (KStr s0)) as (id' & ? & _); [by rewrite Hk|].
    + rewrite store_entries_lookup_ne by done.
      destruct (d !! KNone) eqn:Hk; [|done].
      by destruct (Hkeys KNone) as (id' & ? & _); [by rewrite Hk|].
  - intros n _. cbv beta.
    destruct (d !! KInt n) as [[x y]|] eqn:Hk; cbn [default from_option unset].
    + destruct (Hd _ _ _ Hk) as [Hx Hy].
      change (json_entry sz (point_record n (round6 x) (round6 y))
              = Ok (Some (KInt n, round_coord (x, y)))).
      destruct (Hfloat _ _ _ Hk) as [Hfx Hfy].
      rewrite json_entry_point_record, !round6_nonneg, Hsz by done.
      by rewrite check_products_in_range by by apply in_float_range_round6.
    + change (json_entry sz (point_record n (round6 (qc (-1) 1)) (round6 (qc (-1) 1)))
              = Ok None).
      by rewrite json_entry_point_record, qlt_round6_unset.
Qed.

(** ** Saving, then loading *)

Lemma save_then_load_no_negative (w : MainWindow) (image : image_path) :
  current_image w = Some image →
  is_Some (size_ok (image_size w)) →
  (∀ k, is_Some (keypoints_data w !! k) → ∃ id, k = KInt id ∧ 1 <= id <= 68) →
  no_negative (keypoints_data w) →
  float_store (keypoints_data w) →
  keypoints_data (load_annotations image (save_annotations w))
  = round_coord <$> keypoints_data w.
Proof.
  intros Hcur Hsz Hkeys Hd Hfloat.
  rewrite (save_annotations_sorted w image Hcur).
  2: { apply sorted_raises_int_keys. intros k Hk.
       destruct (Hkeys k Hk) as (id & -> & _). by exists id. }
  destruct (annotation_format w) eqn:Hfmt.
  - rewrite (load_annotations_txt image
               (str_join " " (txt_coords (keypoints_data w)))).
    + rewrite keypoints_data_load_txt by reflexivity.
      rewrite floats_of_saved_text.
      rewrite decide_True
        by (rewrite length_flat_map_pair, length_seqZ; reflexivity).
      by apply decode_txt_saved.
    + exact Hfmt.
    + apply lookup_insert_eq.
  - unfold load_annotations.
    change (annotation_format (set_keypoints_data ∅ (save_json_annotations image w)))
      with (annotation_format w).
    rewrite Hfmt.
    change (json_files (disk (set_keypoints_data ∅ (save_json_annotations image w))))
      with (<[stem image := Some (JObj [("image_name", JStr (path_name image));
                ("keypoints", JArr (json_keypoints (keypoints_data w)))])]>
              (json_files (disk w))).
    rewrite lookup_insert_eq, keypoints_data_load_json.
    change (json_items _) with (Ok (A:=list json) (json_keypoints (keypoints_data w))).
    cbv beta iota.
    change (image_size (set_keypoints_data ∅ (save_json_annotations image w)))
      with (image_size w).
    change (keypoints_data (set_keypoints_data ∅ (save_json_annotations image w)))
      with (∅ : store).
    by rewrite decode_json_saved.
Qed.

(** C1, as the code has it.  While an image of positive width and height is
    loaded, saving a store whose keys are identifiers 1..68 and whose
    coordinates lie in [0, 1] and loading the file again gives the same
    store with every coordinate rounded to six decimals.  The window [w] is
    arbitrary, so this holds in the delimited and in the structured format.
    Both loaders drop every point when [get_image_size()] gives no positive
    size. *)
Theorem save_then_load_rounds (w : MainWindow) (image : image_path) :
  current_image w = Some image →
  is_Some (size_ok (image_size w)) →
  (∀ k, is_Some (keypoints_data w !! k) → ∃ id, k = KInt id ∧ 1 <= id <= 68) →
  (∀ k x y, keypoints_data w !! k = Some (x, y) →
     (q0 ≤ x ≤ qc 1 1)%Qc ∧ (q0 ≤ y ≤ qc 1 1)%Qc) →
  keypoints_data (load_annotations image (save_annotations w))
  = round_coord <$> keypoints_data w.
Proof.
  intros Hcur Hsz Hkeys Hunit.
  apply save_then_load_no_negative; [done..| |].
  - intros k x y Hk. destruct (Hunit k x y Hk) as [[Hx _] [Hy _]].
    split; by apply Qcle_not_lt.
  - intros k x y Hk. destruct (Hunit k x y Hk) as [Hx Hy].
    split; by apply in_float_range_unit.
Qed.

Lemma save_then_load_rounds_witness :
  keypoints_data
    (load_annotations face
       (save_annotations (set_keypoints_data only_point_one sample_window)))
  = round_coord <$> only_point_one
  ∧ keypoints_data
      (load_annotations face
         (save_annotations (set_keypoints_data only_point_one (json_window JNull))))
    = round_coord <$> only_point_one.
Proof.
  assert (∀ k : pykey, is_Some (only_point_one !! k) →
            ∃ id, k = KInt id ∧ 1 <= id <= 68) as Hkeys.
  { intros k [p Hk]. unfold only_point_one in Hk.
    apply lookup_singleton_Some in Hk as [<- _].
    exists 1. split; [reflexivity|lia]. }
  assert (∀ k x y, only_point_one !! k = Some (x, y) →
            (q0 ≤ x ≤ qc 1 1)%Qc ∧ (q0 ≤ y ≤ qc 1 1)%Qc) as Hunit.
  { intros k x y Hk. unfold only_point_one in Hk.
    apply lookup_singleton_Some in Hk as [_ [= <- <-]].
    repeat split; unfold Qcle, Qle; vm_compute; discriminate. }
  split.
  - apply (save_then_load_rounds
             (set_keypoints_data only_point_one sample_window) face).
    + reflexivity.
    + eexists. vm_compute. reflexivity.
    + exact Hkeys.
    + exact Hunit.
  - apply (save_then_load_rounds
             (set_keypoints_data only_point_one (json_window JNull)) face).
    + reflexivity.
    + eexists. vm_compute. reflexivity.
    + exact Hkeys.
    + exact Hunit.
Defined.

(** The delimited text that encodes [{1: (0.5, 0.5)}], loaded in a window
    whose image could not be read, gives the empty store. *)
Lemma decoding_without_image_size_drops_every_point :
  keypoints_data
    (load_annotations face
       (set_disk {| txt_files := {[ "face" := str_join " " (txt_coords only_point_half) ]};
                    json_files := ∅ |} unreadable_image_window)) = ∅
  ∧ keypoints_data
      (load_annotations face
         (set_disk {| txt_files := {[ "face" := str_join " " (txt_coords only_point_half) ]};
                      json_files := ∅ |} unreadable_image_window))
    ≠ round_coord <$> only_point_half.
Proof.
  assert (keypoints_data
    (load_annotations face
       (set_disk {| txt_files := {[ "face" := str_join " " (txt_coords only_point_half) ]};
                    json_files := ∅ |} unreadable_image_window)) = ∅) as Hempty.
  { vm_compute. reflexivity. }
  split; [exact Hempty|]. rewrite Hempty. intros Heq.
  apply (f_equal (λ d : store, d !! KInt 1)) in Heq.
  unfold only_point_half in Heq.
  rewrite lookup_empty, lookup_fmap, lookup_singleton_eq in Heq. discriminate.
Qed.

(** ** Malformed structured files *)

(** The delimited loader, for comparison: whenever it shows a dialog it has
    stored nothing. *)
Lemma txt_dialog_means_nothing_stored (content : string) (w : MainWindow) :
  dialogs (load_txt_annotations content w) ≠ dialogs w →
  keypoints_data (load_txt_annotations content w) = keypoints_data w.
Proof.
  intros Hdialog.
  destruct (floats_of (String.words (str_strip content))) as [coords|e] eqn:Hfl.
  - destruct (decide (length coords = 136%nat)) as [Hlen|Hlen].
    + destruct (load_txt_annotations_ok content coords w Hfl Hlen) as [n Hok].
      rewrite Hok in Hdialog. by destruct Hdialog.
    + by rewrite (load_txt_annotations_count content coords).
  - by rewrite (load_txt_annotations_raise content e).
Qed.

Lemma decode_json_all_ok sz (items : list json) (d : store) :
  Forall (λ kp, ∃ r, json_entry sz kp = Ok r) items →
  (decode_json sz items d).2 = None.
Proof.
  revert d. induction items as [|kp items IH]; intros d Hok; [done|].
  apply Forall_cons in Hok as [[r Hkp] Hok]. cbn [decode_json]. rewrite Hkp.
  destruct r as [[key p]|]; by apply IH.
Qed.

Lemma decode_json_raise_at sz (pre post : list json) (kp : json) (e : pyexn) (d : store) :
  Forall (λ kp', ∃ r, json_entry sz kp' = Ok r) pre →
  json_entry sz kp = Raise e →
  (decode_json sz (pre ++ kp :: post) d).2 = Some e.
Proof.
  revert d. induction pre as [|kp' pre IH]; intros d Hok Hkp.
  - cbn [app decode_json]. by rewrite Hkp.
  - apply Forall_cons in Hok as [[r Hkp'] Hok].
    cbn [app decode_json]. rewrite Hkp'.
    destruct r as [[key p]|]; by apply IH.
Qed.

Lemma json_entry_missing_member sz (members : list (string * json)) (name : string) :
  name ∈ ["id"; "x"; "y"] →
  json_get name members = None →
  ∃ name', json_entry sz (JObj members) = Raise (KeyError name').
Proof.
  intros Hname Hget. unfold json_entry, subscript.
  destruct (json_get "id" members) eqn:Hid; [|by eexists].
  destruct (json_get "x" members) eqn:Hx; [|by eexists].
  destruct (json_get "y" members) eqn:Hy; [|by eexists].
  repeat (apply elem_of_cons in Hname as [->|Hname]; [congruence|]).
  by apply elem_of_nil in Hname.
Qed.

Lemma json_entry_non_numeric_x sz (members : list (string * json)) (kp_id v ratio_y : json) :
  json_get "id" members = Some kp_id →
  json_get "x" members = Some v →
  json_get "y" members = Some ratio_y →
  as_number v = Raise TypeError →
  json_entry sz (JObj members) = Raise TypeError.
Proof.
  intros Hid Hx Hy Hv. unfold json_entry, subscript. by rewrite Hid, Hx, Hy, Hv.
Qed.

Lemma json_entry_overflow sz (members : list (string * json)) (kp_id : json) (x y : Qc) :
  json_get "id" members = Some kp_id →
  json_get "x" members = Some (JNum x) →
  json_get "y" members = Some (JNum y) →
  ¬ (x < q0)%Qc → ¬ (y < q0)%Qc →
  is_Some (size_ok sz) →
  int_too_large x = true ∨ int_too_large y = true →
  json_entry sz (JObj members) = Raise OverflowError.
Proof.
  intros Hid Hx Hy Hxn Hyn [s Hsz] Hlarge.
  unfold json_entry, subscript. rewrite Hid, Hx, Hy. cbn [as_number].
  unfold qlt. rewrite !bool_decide_false by done. rewrite Hsz.
  unfold check_products.
  destruct (int_too_large x); [done|]. by destruct Hlarge as [?| ->].
Qed.

Lemma decode_json_skipped sz (pre rest : list json) (d : store) :
  Forall (λ kp, json_entry sz kp = Ok None) pre →
  decode_json sz (pre ++ rest) d = decode_json sz rest d.
Proof.
  induction 1 as [|kp pre Hkp _ IH]; [done|].
  cbn [app decode_json]. by rewrite Hkp.
Qed.

(** C5, as the code has it.  In the structured format, whatever stops the
    loader is caught and shown as one warning carrying the exception: a file
    that is not valid JSON, a top-level value without [get], a ["keypoints"]
    value that cannot be iterated (then the store is empty), or the first
    element of the list on which the loop body raises.  When every element
    before that one was skipped, that is when nothing was stored before the
    failure, the store is empty and [load_annotations] returns normally.
    An element without ["id"], ["x"] or ["y"] raises [KeyError]; one whose
    ["x"] is not a number raises [TypeError]; one with an integer too large
    for a float raises [OverflowError].  The number of elements is not
    checked: a list on whose elements the loop body does not raise is
    loaded without any dialog.  The window the call leaves is
    [load_annotations image w] in every case, and the call raises only at
    its final debug print, when the keys stored cannot be sorted. *)
Theorem malformed_json_is_reported (w : MainWindow) (image : image_path)
    (file : option json) :
  annotation_format w = FmtJson →
  json_files (disk w) !! stem image = Some file →
  (window_after (load_annotations_call image) w = load_annotations image w
   ∧ raises (load_annotations_call image) w
     = sorted_raises (keypoints_data (load_annotations image w)))
  ∧ (∀ e, json_items file = Raise e →
       dialogs (load_annotations image w)
       = dialogs w ++ [WarningExc "加载JSON标注文件失败：" e]
       ∧ keypoints_data (load_annotations image w) = ∅
       ∧ raises (load_annotations_call image) w = false)
  ∧ (∀ pre kp post e,
       json_items file = Ok (pre ++ kp :: post) →
       Forall (λ kp', ∃ r, json_entry (image_size w) kp' = Ok r) pre →
       json_entry (image_size w) kp = Raise e →
       dialogs (load_annotations image w)
       = dialogs w ++ [WarningExc "加载JSON标注文件失败：" e]
       ∧ (Forall (λ kp', json_entry (image_size w) kp' = Ok None) pre →
          keypoints_data (load_annotations image w) = ∅
          ∧ raises (load_annotations_call image) w = false))
  ∧ (∀ items,
       json_items file = Ok items →
       Forall (λ kp, ∃ r, json_entry (image_size w) kp = Ok r) items →
       dialogs (load_annotations image w) = dialogs w)
  ∧ (∀ sz members name,
       name ∈ ["id"; "x"; "y"] → json_get name members = None →
       ∃ name', json_entry sz (JObj members) = Raise (KeyError name'))
  ∧ (∀ sz members kp_id v ratio_y,
       json_get "id" members = Some kp_id →
       json_get "x" members = Some v →
       json_get "y" members = Some ratio_y →
       as_number v = Raise TypeError →
       json_entry sz (JObj members) = Raise TypeError)
  ∧ (∀ sz members kp_id x y,
       json_get "id" members = Some kp_id →
       json_get "x" members = Some (JNum x) →
       json_get "y" members = Some (JNum y) →
       ¬ (x < q0)%Qc → ¬ (y < q0)%Qc →
       is_Some (size_ok sz) →
       int_too_large x = true ∨ int_too_large y = true →
       json_entry sz (JObj members) = Raise OverflowError).
Proof.
  intros Hfmt Hfile.
  destruct (load_annotations_call_unfold image w) as [Hwin Hraises].
  split; [done|]. rewrite Hraises.
  assert (load_annotations image w
          = load_json_annotations file (set_keypoints_data ∅ w)) as ->.
  { unfold load_annotations. cbn [annotation_format set_keypoints_data disk].
    by rewrite Hfmt, Hfile. }
  rewrite dialogs_load_json, keypoints_data_load_json.
  cbn [image_size keypoints_data dialogs set_keypoints_data].
  split; [|split; [|split; [|split; [|split]]]].
  - intros e ->. done.
  - intros pre kp post e -> Hpre Hkp.
    rewrite (decode_json_raise_at _ pre post kp e) by done.
    split; [done|]. intros Hskip.
    rewrite decode_json_skipped by done. cbn [decode_json]. by rewrite Hkp.
  - intros items -> Hok. by rewrite decode_json_all_ok.
  - apply json_entry_missing_member.
  - apply json_entry_non_numeric_x.
  - apply json_entry_overflow.
Qed.

Lemma malformed_json_is_reported_witness :
  dialogs (load_annotations face (json_window json_unset_then_without_y))
  = dialogs (json_window json_unset_then_without_y)
    ++ [WarningExc "加载JSON标注文件失败：" (KeyError "y")]
  ∧ keypoints_data (load_annotations face (json_window json_unset_then_without_y)) = ∅
  ∧ raises (load_annotations_call face) (json_window json_unset_then_without_y) = false.
Proof.
  destruct (malformed_json_is_reported
              (json_window json_unset_then_without_y) face
              (Some json_unset_then_without_y) eq_refl eq_refl)
    as (_ & _ & Hraise & _).
  destruct (Hraise [point_record 1 (qc (-1) 1) (qc (-1) 1)]
                   (JObj [("id", JNum (qc 2 1)); ("x", JNum (qc 1 4))]) []
                   (KeyError "y")) as [Hdialog Hstore].
  - reflexivity.
  - repeat constructor. eexists. vm_compute. reflexivity.
  - vm_compute. reflexivity.
  - split; [exact Hdialog|]. apply Hstore.
    repeat constructor.
Defined.

(** A structured file whose second element lacks ["y"]: the loader reports
    the [KeyError] and the first element is in the store.  A structured file
    with one element instead of 68 is loaded without any dialog. *)
Lemma malformed_json_is_not_an_empty_store :
  dialogs (load_annotations face (json_window json_second_point_without_y))
  = [WarningExc "加载JSON标注文件失败：" (KeyError "y")]
  ∧ keypoints_data (load_annotations face (json_window json_second_point_without_y))
    = {[ KInt 1 := (qc 1 2, qc 1 2) ]}
  ∧ keypoints_data (load_annotations face (json_window json_second_point_without_y))
    ≠ ∅
  ∧ dialogs (load_annotations face (json_window json_single_point)) = []
  ∧ keypoints_data (load_annotations face (json_window json_single_point))
    = {[ KInt 1 := (qc 1 2, qc 1 2) ]}.
Proof.
  assert (keypoints_data (load_annotations face (json_window json_second_point_without_y))
          = {[ KInt 1 := (qc 1 2, qc 1 2) ]}) as Hstore.
  { vm_compute. reflexivity. }
  split; [vm_compute; reflexivity|]. split; [exact Hstore|].
  split.
  - rewrite Hstore. intros Heq.
    apply (f_equal (λ d : store, d !! KInt 1)) in Heq.
    rewrite lookup_singleton_eq, lookup_empty in Heq. discriminate.
  - split; vm_compute; reflexivity.
Qed.

(** ** Pixel and ratio coordinates *)

Lemma size_ok_Some (sz : option (Qc * Qc)) (width height : Qc) :
  size_ok sz = Some (width, height)
  ↔ sz = Some (width, height) ∧ (q0 < width)%Qc ∧ (q0 < height)%Qc.
Proof.
  unfold size_ok. destruct sz as [[a b]|].
  2: { split; [done|]. by intros [? _]. }
  unfold qlt. split.
  - destruct (_ && _) eqn:Hc; [|done]. intros [= -> ->].
    apply andb_true_iff in Hc as [Hc Hh]. apply andb_true_iff in Hc as [_ Hw].
    split; [done|]. split; eapply bool_decide_eq_true_1; eassumption.
  - intros ([= -> ->] & Hw & Hh).
    rewrite (bool_decide_true (q0 < width)%Qc), (bool_decide_true (q0 < height)%Qc) by done.
    rewrite !bool_decide_false; [done| |].
    + intros Heq. by apply Qclt_not_eq in Hh.
    + intros Heq. by apply Qclt_not_eq in Hw.
Qed.

Lemma size_ok_None (sz : option (Qc * Qc)) :
  size_ok sz = None
  ↔ sz = None ∨ ∃ width height, sz = Some (width, height)
                 ∧ ¬ ((q0 < width)%Qc ∧ (q0 < height)%Qc).
Proof.
  split.
  - intros Hnone. destruct sz as [[a b]|]; [|by left]. right.
    exists a, b. split; [done|]. intros [Ha Hb].
    assert (size_ok (Some (a, b)) = Some (a, b)) as Hs by (by apply size_ok_Some).
    congruence.
  - intros [->|(a & b & -> & Hneg)]; [done|].
    destruct (size_ok (Some (a, b))) as [[a' b']|] eqn:Hs; [|done].
    apply size_ok_Some in Hs as ([= <- <-] & Ha & Hb). by destruct Hneg.
Qed.

Lemma Qcdiv_unit_range (a b : Qc) :
  (q0 < b)%Qc → (q0 ≤ a ≤ b)%Qc → (q0 ≤ a / b ≤ qc 1 1)%Qc.
Proof.
  unfold Qclt, Qcle, Qcdiv, Qcmult, Qcinv, q0, qc. cbn [this Q2Qc].
  rewrite !Qred_correct. intros Hb [Ha Hab].
  change (0 # 1)%Q with 0%Q in *. change (1 # 1)%Q with 1%Q.
  split.
  - apply Qle_shift_div_l; [done|]. by rewrite Qmult_0_l.
  - apply Qle_shift_div_r; [done|]. by rewrite Qmult_1_l.
Qed.

Lemma Qcmult_unit_range (r b : Qc) :
  (q0 < b)%Qc → (q0 ≤ r ≤ qc 1 1)%Qc → (q0 ≤ r * b ≤ b)%Qc.
Proof.
  unfold Qclt, Qcle, Qcmult, q0, qc. cbn [this Q2Qc].
  rewrite !Qred_correct. intros Hb [Hr Hr1].
  change (0 # 1)%Q with 0%Q in *. change (1 # 1)%Q with 1%Q in *.
  split.
  - apply Qmult_le_0_compat; [done|]. by apply Qlt_le_weak.
  - rewrite <- (Qmult_1_l b) at 2. apply Qmult_le_compat_r; [done|].
    by apply Qlt_le_weak.
Qed.

(** X1.  The two conversions keep a position inside the picture.  While the
    image view reports a positive width and height, [pixel_to_ratio]
    turns a pixel position within the picture (0 to the width, 0 to the
    height) into ratios between 0 and 1, and [ratio_to_pixel] turns ratios
    between 0 and 1 into a pixel position within the picture. *)
Theorem conversions_keep_the_picture_range (w : MainWindow) (width height x y : Qc) :
  size_ok (image_size w) = Some (width, height) →
  ((q0 ≤ x ≤ width)%Qc → (q0 ≤ y ≤ height)%Qc →
   ∃ ratio_x ratio_y,
     pixel_to_ratio w x y = Some (ratio_x, ratio_y)
     ∧ (q0 ≤ ratio_x ≤ qc 1 1)%Qc ∧ (q0 ≤ ratio_y ≤ qc 1 1)%Qc)
  ∧ ((q0 ≤ x ≤ qc 1 1)%Qc → (q0 ≤ y ≤ qc 1 1)%Qc →
     ∃ pixel_x pixel_y,
       ratio_to_pixel w x y = Some (pixel_x, pixel_y)
       ∧ (q0 ≤ pixel_x ≤ width)%Qc ∧ (q0 ≤ pixel_y ≤ height)%Qc).
Proof.
  intros Hsz. pose proof Hsz as Hpos.
  apply size_ok_Some in Hpos as (_ & Hw & Hh).
  unfold pixel_to_ratio, ratio_to_pixel. rewrite Hsz. split.
  - intros Hx Hy. eexists _, _. split; [reflexivity|].
    split; by apply Qcdiv_unit_range.
  - intros Hx Hy. eexists _, _. split; [reflexivity|].
    split; by apply Qcmult_unit_range.
Qed.

Lemma conversions_keep_the_picture_range_witness :
  (∃ ratio_x ratio_y,
     pixel_to_ratio sample_window (qc 400 1) (qc 300 1) = Some (ratio_x, ratio_y)
     ∧ (q0 ≤ ratio_x ≤ qc 1 1)%Qc ∧ (q0 ≤ ratio_y ≤ qc 1 1)%Qc)
  ∧ (∃ pixel_x pixel_y,
       ratio_to_pixel sample_window (qc 1 2) (qc 1 4) = Some (pixel_x, pixel_y)
       ∧ (q0 ≤ pixel_x ≤ qc 800 1)%Qc ∧ (q0 ≤ pixel_y ≤ qc 600 1)%Qc).
Proof.
  destruct (conversions_keep_the_picture_range sample_window (qc 800 1) (qc 600 1)
              (qc 400 1) (qc 300 1)) as [Hpixel _]; [vm_compute; reflexivity|].
  destruct (conversions_keep_the_picture_range sample_window (qc 800 1) (qc 600 1)
              (qc 1 2) (qc 1 4)) as [_ Hratio]; [vm_compute; reflexivity|].
  split.
  - apply Hpixel; split; vm_compute; discriminate.
  - apply Hratio; split; vm_compute; discriminate.
Defined.

(** X2.  The two conversions refuse together, and exactly when the image
    view has no size to report or reports a width or a height that is not
    positive: [pixel_to_ratio] answers [(None, None)] if and only if
    [ratio_to_pixel] does, whatever the coordinates. *)
Theorem conversion_unavailable (w : MainWindow) (x y : Qc) :
  (pixel_to_ratio w x y = None ↔ ratio_to_pixel w x y = None)
  ∧ (pixel_to_ratio w x y = None
     ↔ image_size w = None
       ∨ ∃ width height, image_size w = Some (width, height)
                         ∧ ¬ ((q0 < width)%Qc ∧ (q0 < height)%Qc)).
Proof.
  rewrite <- size_ok_None. unfold pixel_to_ratio, ratio_to_pixel.
  destruct (size_ok (image_size w)) as [[a b]|]; naive_solver.
Qed.

(** ** Undo and redo as inverses *)

Lemma keep_last_idemp {A} (n : nat) (l : list A) :
  keep_last n (keep_last n l) = keep_last n l.
Proof. apply keep_last_all. rewrite length_keep_last. lia. Qed.

Lemma keep_last_app {A} (n : nat) (l r : list A) :
  keep_last n (keep_last n l ++ r) = keep_last n (l ++ r).
Proof.
  induction r as [|x r IH] using rev_ind.
  - rewrite !app_nil_r. apply keep_last_idemp.
  - rewrite !app_assoc. rewrite <- keep_last_snoc, IH. apply keep_last_snoc.
Qed.

Lemma length_pre_states (ms : list mutation) (w : MainWindow) :
  length (pre_states ms w) = length ms.
Proof.
  revert w. induction ms as [|m ms IH]; intros w; [done|].
  cbn [pre_states length]. by rewrite IH.
Qed.

Lemma run_mutations_cons (m : mutation) (ms : list mutation) (w : MainWindow) :
  run (map Mutate (m :: ms)) w = run (map Mutate ms) (mutate m w).
Proof. reflexivity. Qed.

Lemma undo_stack_run_performed (ms : list mutation) (w : MainWindow) :
  (length (undo_stack w) ≤ max_undo_steps w)%nat →
  all_performed ms w →
  undo_stack (run (map Mutate ms) w)
  = keep_last (max_undo_steps w) (undo_stack w ++ pre_states ms w).
Proof.
  revert w. induction ms as [|m ms IH]; intros w Hlen Hperf.
  - cbn [pre_states map]. rewrite app_nil_r. unfold run. cbn [fold_left].
    by rewrite keep_last_all.
  - destruct Hperf as [Hm Hperf].
    destruct (mutate_performed m w Hm) as (_ & Hundo & Hmax & _).
    rewrite run_mutations_cons, IH; [|rewrite Hundo, Hmax; by apply length_save_state|done].
    rewrite Hundo, Hmax, save_state_keep_last by done.
    cbn [pre_states]. rewrite keep_last_app. by rewrite <- app_assoc.
Qed.

(** X3.  Multi-level undo is exact within the depth bound: after a sequence
    of mutations that are all carried out, no longer than [max_undo_steps],
    as many undos bring back the store the sequence started from. *)
Theorem undo_restores_the_store (w : MainWindow) (ms : list mutation) :
  (length (undo_stack w) ≤ max_undo_steps w)%nat →
  all_performed ms w →
  (length ms ≤ max_undo_steps w)%nat →
  keypoints_data (Nat.iter (length ms) undo (run (map Mutate ms) w))
  = keypoints_data w.
Proof.
  intros Hlen Hperf Hn.
  destruct ms as [|m ms]; [done|].
  pose proof (undo_stack_run_performed (m :: ms) w Hlen Hperf) as Hst.
  pose proof (length_pre_states (m :: ms) w) as Hpre.
  set (n := length (m :: ms)) in *.
  set (W := run (map Mutate (m :: ms)) w) in *.
  assert (1 ≤ n)%nat as Hn1 by (unfold n; cbn; lia).
  set (L := undo_stack w ++ pre_states (m :: ms) w) in *.
  assert (length L = length (undo_stack w) + n)%nat as HL
    by (unfold L; rewrite length_app; lia).
  assert (length (undo_stack W) = length L `min` max_undo_steps w)%nat as HlenW
    by (rewrite Hst; apply length_keep_last).
  apply (inj Some). rewrite undo_iter_keypoints_data by lia.
  replace (length (undo_stack W) - n)%nat
    with (length (undo_stack w) - (length L - max_undo_steps w))%nat by lia.
  rewrite Hst. unfold keep_last. rewrite lookup_drop.
  replace (length L - max_undo_steps w
           + (length (undo_stack w) - (length L - max_undo_steps w)))%nat
    with (length (undo_stack w)) by lia.
  unfold L. rewrite lookup_app_r, Nat.sub_diag by lia. reflexivity.
Qed.

Lemma history_undo (w : MainWindow) (l : list store) (s : store) :
  undo_stack w = l ++ [s] →
  history (undo w) = (s, l, redo_stack w ++ [keypoints_data w]).
Proof. intros Hst. by rewrite (undo_nonempty w l s). Qed.

Lemma history_redo (w : MainWindow) (l : list store) (s : store) :
  redo_stack w = l ++ [s] →
  history (redo w) = (s, undo_stack w ++ [keypoints_data w], l).
Proof. intros Hst. by rewrite (redo_nonempty w l s). Qed.

Lemma history_undo_congr (a b : MainWindow) :
  history a = history b → history (undo a) = history (undo b).
Proof.
  intros [= Hk Hu Hr].
  destruct (stack_cases (undo_stack a)) as [He|(l & s & Hl)].
  - rewrite !undo_empty by congruence. unfold history. cbn. congruence.
  - rewrite (history_undo a l s), (history_undo b l s) by congruence. congruence.
Qed.

Lemma history_redo_congr (a b : MainWindow) :
  history a = history b → history (redo a) = history (redo b).
Proof.
  intros [= Hk Hu Hr].
  destruct (stack_cases (redo_stack a)) as [He|(l & s & Hl)].
  - rewrite !redo_empty by congruence. unfold history. cbn. congruence.
  - rewrite (history_redo a l s), (history_redo b l s) by congruence. congruence.
Qed.

Lemma history_redo_undo (w : MainWindow) :
  undo_stack w ≠ [] → history (redo (undo w)) = history w.
Proof.
  intros Hne. destruct (stack_cases (undo_stack w)) as [He|(l & s & Hl)]; [done|].
  pose proof (history_undo w l s Hl) as [= Hk Hu Hr].
  rewrite (history_redo (undo w) (redo_stack w) (keypoints_data w)) by done.
  unfold history. by rewrite Hk, Hu, Hl.
Qed.

Lemma history_undo_redo (w : MainWindow) :
  redo_stack w ≠ [] → history (undo (redo w)) = history w.
Proof.
  intros Hne. destruct (stack_cases (redo_stack w)) as [He|(l & s & Hl)]; [done|].
  pose proof (history_redo w l s Hl) as [= Hk Hu Hr].
  rewrite (history_undo (redo w) (undo_stack w) (keypoints_data w)) by done.
  unfold history. by rewrite Hk, Hr, Hl.
Qed.

Lemma length_undo_stack_undo (w : MainWindow) :
  length (undo_stack (undo w)) = (length (undo_stack w) - 1)%nat.
Proof.
  destruct (stack_cases (undo_stack w)) as [He|(l & s & Hl)].
  - rewrite undo_empty by done. cbn. by rewrite He.
  - pose proof (history_undo w l s Hl) as [= _ Hu _].
    rewrite Hu, Hl, length_app. cbn. lia.
Qed.

Lemma length_redo_stack_redo (w : MainWindow) :
  length (redo_stack (redo w)) = (length (redo_stack w) - 1)%nat.
Proof.
  destruct (stack_cases (redo_stack w)) as [He|(l & s & Hl)].
  - rewrite redo_empty by done. cbn. by rewrite He.
  - pose proof (history_redo w l s Hl) as [= _ _ Hr].
    rewrite Hr, Hl, length_app. cbn. lia.
Qed.

Lemma history_redo_undo_iter (n : nat) (w : MainWindow) :
  (n ≤ length (undo_stack w))%nat →
  history (Nat.iter n redo (Nat.iter n undo w)) = history w.
Proof.
  revert w. induction n as [|n IH]; intros w Hn; [done|].
  rewrite (Nat.iter_succ_r n _ undo w). cbn [Nat.iter nat_rect].
  change (nat_rect _ ?x (λ _, redo) n) with (Nat.iter n redo x).
  rewrite (history_redo_congr _ (undo w)).
  - apply history_redo_undo. intros He. rewrite He in Hn. cbn in Hn. lia.
  - apply IH. rewrite length_undo_stack_undo. lia.
Qed.

Lemma history_undo_redo_iter (n : nat) (w : MainWindow) :
  (n ≤ length (redo_stack w))%nat →
  history (Nat.iter n undo (Nat.iter n redo w)) = history w.
Proof.
  revert w. induction n as [|n IH]; intros w Hn; [done|].
  rewrite (Nat.iter_succ_r n _ redo w). cbn [Nat.iter nat_rect].
  change (nat_rect _ ?x (λ _, undo) n) with (Nat.iter n undo x).
  rewrite (history_undo_congr _ (redo w)).
  - apply history_undo_redo. intros He. rewrite He in Hn. cbn in Hn. lia.
  - apply IH. rewrite length_redo_stack_redo. lia.
Qed.

(** X4.  Redo is the inverse of undo and undo of redo, on the store and the
    two stacks: [n] undos followed by [n] redos, with at least [n] snapshots
    on the undo stack, give back the store and both stacks, and so do [n]
    redos followed by [n] undos with at least [n] snapshots on the redo
    stack. *)
Theorem redo_and_undo_are_inverse (w : MainWindow) (n : nat) :
  ((n ≤ length (undo_stack w))%nat →
     history (Nat.iter n redo (Nat.iter n undo w)) = history w)
  ∧ ((n ≤ length (redo_stack w))%nat →
     history (Nat.iter n undo (Nat.iter n redo w)) = history w).
Proof.
  split; [apply history_redo_undo_iter | apply history_undo_redo_iter].
Qed.

Lemma undo_restores_the_store_witness :
  keypoints_data
    (Nat.iter 3 undo
       (run (map Mutate [AddKeypoint 1 (qc 400 1) (qc 300 1);
                         SwapKeypoints 1 2; ClearAnnotations true])
            sample_window))
  = keypoints_data sample_window.
Proof.
  apply (undo_restores_the_store sample_window
           [AddKeypoint 1 (qc 400 1) (qc 300 1);
            SwapKeypoints 1 2; ClearAnnotations true]).
  - cbn. lia.
  - cbn. repeat split; reflexivity.
  - cbn. lia.
Defined.

Lemma redo_and_undo_are_inverse_witness :
  history (Nat.iter 1 redo (Nat.iter 1 undo
             (set_redo_stack [only_point_one]
                (set_undo_stack [only_point_half] sample_window))))
  = history (set_redo_stack [only_point_one]
               (set_undo_stack [only_point_half] sample_window))
  ∧ history (Nat.iter 1 undo (Nat.iter 1 redo
               (set_redo_stack [only_point_one]
                  (set_undo_stack [only_point_half] sample_window))))
    = history (set_redo_stack [only_point_one]
                 (set_undo_stack [only_point_half] sample_window)).
Proof.
  split;
    apply (redo_and_undo_are_inverse
             (set_redo_stack [only_point_one]
                (set_undo_stack [only_point_half] sample_window)) 1);
    cbn; lia.
Defined.

(** ** Exchanging, placing and deleting points *)

Lemma transpose_involutive (id1 id2 : Z) (k : pykey) :
  transpose id1 id2 (transpose id1 id2 k) = k.
Proof. unfold transpose. repeat case_decide; congruence. Qed.

Lemma transpose_comm (id1 id2 : Z) (k : pykey) :
  transpose id2 id1 k = transpose id1 id2 k.
Proof. unfold transpose. repeat case_decide; congruence. Qed.

Lemma swap_lookup (id1 id2 : Z) (w : MainWindow) (k : pykey) :
  keypoints_data (swap_keypoints id1 id2 w) !! k
  = keypoints_data w !! transpose id1 id2 k.
Proof.
  rewrite <- (transpose_involutive id1 id2 k) at 1.
  apply swap_lookup_transpose.
Qed.

(** X5.  Exchanging two points is its own inverse and does not depend on
    the order in which the two identifiers are given: exchanging the same
    two identifiers twice gives back the store, exchanging [id2] with [id1]
    gives the same store as exchanging [id1] with [id2], and exchanging an
    identifier with itself leaves the store as it is.  This holds whichever
    of the two identifiers are annotated. *)
Theorem swap_keypoints_involutive (w : MainWindow) (id1 id2 : Z) :
  keypoints_data (swap_keypoints id1 id2 (swap_keypoints id1 id2 w)) = keypoints_data w
  ∧ keypoints_data (swap_keypoints id2 id1 w) = keypoints_data (swap_keypoints id1 id2 w)
  ∧ keypoints_data (swap_keypoints id1 id1 w) = keypoints_data w.
Proof.
  split; [|split]; apply map_eq; intros k.
  - by rewrite !swap_lookup, transpose_involutive.
  - by rewrite !swap_lookup, transpose_comm.
  - rewrite swap_lookup. unfold transpose. by repeat case_decide; subst.
Qed.

Lemma image_size_save_state (w : MainWindow) : image_size (save_state w) = image_size w.
Proof. reflexivity. Qed.

Lemma pixel_to_ratio_save_state (w : MainWindow) (x y : Qc) :
  pixel_to_ratio (save_state w) x y = pixel_to_ratio w x y.
Proof. reflexivity. Qed.

(** X6.  Placing or dragging a point to a position within the picture
    stores ratios between 0 and 1.  While the image view reports a positive
    width and height, after a click at a pixel position between 0 and the
    width and between 0 and the height the store holds, under the point's
    identifier, a pair of ratios that both lie between 0 and 1, and every
    other entry of the store is as it was.  Placing and dragging store the
    same thing. *)
Theorem placed_point_lies_in_the_unit_square (w : MainWindow) (kp_id : Z)
    (width height x y : Qc) :
  size_ok (image_size w) = Some (width, height) →
  (q0 ≤ x ≤ width)%Qc → (q0 ≤ y ≤ height)%Qc →
  (∃ ratio_x ratio_y,
     keypoints_data (on_keypoint_added kp_id x y w) !! KInt kp_id
     = Some (ratio_x, ratio_y)
     ∧ (q0 ≤ ratio_x ≤ qc 1 1)%Qc ∧ (q0 ≤ ratio_y ≤ qc 1 1)%Qc)
  ∧ (∀ k, k ≠ KInt kp_id →
       keypoints_data (on_keypoint_added kp_id x y w) !! k = keypoints_data w !! k)
  ∧ keypoints_data (on_keypoint_moved kp_id x y w)
    = keypoints_data (on_keypoint_added kp_id x y w).
Proof.
  intros Hsz Hx Hy. pose proof Hsz as Hpos.
  apply size_ok_Some in Hpos as (_ & Hw & Hh).
  unfold on_keypoint_moved, on_keypoint_added.
  rewrite pixel_to_ratio_save_state. unfold pixel_to_ratio. rewrite Hsz.
  split; [|split].
  - eexists _, _. split; [apply lookup_insert_eq|].
    split; by apply Qcdiv_unit_range.
  - intros k Hk.
    change (keypoints_data (set_keypoints_data ?d _)) with d.
    by rewrite lookup_insert_ne.
  - reflexivity.
Qed.

Lemma placed_point_lies_in_the_unit_square_witness :
  (∃ ratio_x ratio_y,
     keypoints_data (on_keypoint_added 7 (qc 400 1) (qc 300 1) sample_window)
       !! KInt 7 = Some (ratio_x, ratio_y)
     ∧ (q0 ≤ ratio_x ≤ qc 1 1)%Qc ∧ (q0 ≤ ratio_y ≤ qc 1 1)%Qc)
  ∧ (∀ k, k ≠ KInt 7 →
       keypoints_data (on_keypoint_added 7 (qc 400 1) (qc 300 1) sample_window) !! k
       = keypoints_data sample_window !! k)
  ∧ keypoints_data (on_keypoint_moved 7 (qc 400 1) (qc 300 1) sample_window)
    = keypoints_data (on_keypoint_added 7 (qc 400 1) (qc 300 1) sample_window).
Proof.
  apply (placed_point_lies_in_the_unit_square sample_window 7
           (qc 800 1) (qc 600 1) (qc 400 1) (qc 300 1)).
  - vm_compute. reflexivity.
  - split; vm_compute; discriminate.
  - split; vm_compute; discriminate.
Defined.

(** X7.  Placing or dragging a point while the image view has no positive
    size to report stores nothing, yet it is recorded in the history: the
    store is unchanged, the error is shown in the status bar, a snapshot of
    the unchanged store has been pushed on the undo stack and the redo
    stack has been emptied. *)
Theorem placing_without_image_size (w : MainWindow) (kp_id : Z) (x y : Qc) :
  size_ok (image_size w) = None →
  (length (undo_stack w) ≤ max_undo_steps w)%nat →
  keypoints_data (on_keypoint_added kp_id x y w) = keypoints_data w
  ∧ status_label (on_keypoint_added kp_id x y w)
    = "错误: 无法保存关键点，图片未正确加载"
  ∧ undo_stack (on_keypoint_added kp_id x y w)
    = keep_last (max_undo_steps w) (undo_stack w ++ [keypoints_data w])
  ∧ redo_stack (on_keypoint_added kp_id x y w) = []
  ∧ on_keypoint_moved kp_id x y w = on_keypoint_added kp_id x y w.
Proof.
  intros Hsz Hlen. unfold on_keypoint_moved, on_keypoint_added.
  rewrite pixel_to_ratio_save_state. unfold pixel_to_ratio. rewrite Hsz.
  repeat split. cbn [undo_stack set_status].
  by apply save_state_keep_last.
Qed.

Lemma placing_without_image_size_witness :
  keypoints_data (on_keypoint_added 7 (qc 400 1) (qc 300 1) unreadable_image_window)
  = keypoints_data unreadable_image_window
  ∧ status_label (on_keypoint_added 7 (qc 400 1) (qc 300 1) unreadable_image_window)
    = "错误: 无法保存关键点，图片未正确加载"
  ∧ undo_stack (on_keypoint_added 7 (qc 400 1) (qc 300 1) unreadable_image_window)
    = keep_last (max_undo_steps unreadable_image_window)
        (undo_stack unreadable_image_window ++ [keypoints_data unreadable_image_window])
  ∧ redo_stack (on_keypoint_added 7 (qc 400 1) (qc 300 1) unreadable_image_window) = []
  ∧ on_keypoint_moved 7 (qc 400 1) (qc 300 1) unreadable_image_window
    = on_keypoint_added 7 (qc 400 1) (qc 300 1) unreadable_image_window.
Proof.
  apply (placing_without_image_size unreadable_image_window 7 (qc 400 1) (qc 300 1)).
  - reflexivity.
  - cbn. lia.
Defined.

Lemma last_undo_stack_save_state (w : MainWindow) :
  (1 ≤ max_undo_steps w)%nat →
  last (undo_stack (save_state w)) = Some (keypoints_data w).
Proof.
  intros Hmax. rewrite undo_stack_save_state. rewrite length_app. cbn [length].
  case_decide as Hcmp; [|apply last_snoc].
  destruct (undo_stack w) as [|s l]; [cbn in Hcmp; lia|].
  cbn [app tail]. apply last_snoc.
Qed.

Lemma undo_after_save_state (w w' : MainWindow) :
  (1 ≤ max_undo_steps w)%nat →
  undo_stack w' = undo_stack (save_state w) →
  keypoints_data (undo w') = keypoints_data w.
Proof.
  intros Hmax Hst. pose proof (last_undo_stack_save_state w Hmax) as Hlast.
  rewrite <- Hst in Hlast. unfold undo. by rewrite Hlast.
Qed.

(** X8.  Deleting acts on the point of the selected row, whose identifier
    is the row number plus one.  When a row is selected and its point is
    annotated, exactly that point leaves the store, every other entry
    stays, and with an undo depth of at least one a single undo brings the
    deleted point back.  When no row is selected or the point of the row is
    not annotated, the window is left as it was, history included. *)
Theorem delete_selected_keypoint_cases (w : MainWindow) (current_row : Z) :
  (0 <= current_row →
   is_Some (keypoints_data w !! KInt (current_row + 1)) →
   keypoints_data (delete_selected_keypoint current_row w)
   = delete (KInt (current_row + 1)) (keypoints_data w)
   ∧ ((1 ≤ max_undo_steps w)%nat →
      keypoints_data (undo (delete_selected_keypoint current_row w)) = keypoints_data w))
  ∧ (current_row < 0 ∨ keypoints_data w !! KInt (current_row + 1) = None →
     delete_selected_keypoint current_row w = w).
Proof.
  split.
  - intros Hrow [p Hp]. unfold delete_selected_keypoint.
    rewrite decide_True by done. rewrite Hp. split; [reflexivity|].
    intros Hmax. by apply undo_after_save_state.
  - intros Hno. unfold delete_selected_keypoint.
    destruct (decide (0 <= current_row)) as [Hrow|]; [|done].
    destruct Hno as [Hneg|Hnone]; [lia|]. by rewrite Hnone.
Qed.

Lemma delete_selected_keypoint_cases_witness :
  keypoints_data
    (delete_selected_keypoint 0 (set_keypoints_data only_point_one sample_window))
  = delete (KInt 1) only_point_one
  ∧ keypoints_data
      (undo (delete_selected_keypoint 0 (set_keypoints_data only_point_one sample_window)))
    = only_point_one
  ∧ delete_selected_keypoint 1 (set_keypoints_data only_point_one sample_window)
    = set_keypoints_data only_point_one sample_window.
Proof.
  destruct (delete_selected_keypoint_cases
              (set_keypoints_data only_point_one sample_window) 0) as [Hdel _].
  destruct (delete_selected_keypoint_cases
              (set_keypoints_data only_point_one sample_window) 1) as [_ Hno].
  destruct Hdel as [Hd Hu]; [lia|by eexists|].
  split; [exact Hd|]. split.
  - apply Hu. cbn. lia.
  - apply Hno. right. reflexivity.
Defined.

(** ** What loading leaves alone *)

Lemma load_txt_annotations_shape (content : string) (w : MainWindow) :
  ∃ d t ds, load_txt_annotations content w
            = {| image_files := image_files w;
                 current_image_index := current_image_index w;
                 keypoints_data := d; auto_save := auto_save w;
                 annotation_format := annotation_format w;
                 undo_stack := undo_stack w; redo_stack := redo_stack w;
                 max_undo_steps := max_undo_steps w; image_size := image_size w;
                 status_label := t; dialogs := dialogs w ++ ds; disk := disk w |}
            ∧ (length ds ≤ 1)%nat.
Proof.
  destruct (floats_of (String.words (str_strip content))) as [coords|e] eqn:Hfl.
  - destruct (decide (length coords = 136%nat)) as [Hlen|Hlen].
    + destruct (load_txt_annotations_ok content coords w Hfl Hlen) as [n ->].
      eexists _, _, []. rewrite app_nil_r. split; [reflexivity|cbn; lia].
    + rewrite (load_txt_annotations_count content coords) by done.
      eexists _, _, [_]. split; [reflexivity|cbn; lia].
  - rewrite (load_txt_annotations_raise content e) by done.
    eexists _, _, [_]. split; [reflexivity|cbn; lia].
Qed.

Lemma load_json_annotations_shape (file : option json) (w : MainWindow) :
  ∃ d t ds, load_json_annotations file w
            = {| image_files := image_files w;
                 current_image_index := current_image_index w;
                 keypoints_data := d; auto_save := auto_save w;
                 annotation_format := annotation_format w;
                 undo_stack := undo_stack w; redo_stack := redo_stack w;
                 max_undo_steps := max_undo_steps w; image_size := image_size w;
                 status_label := t; dialogs := dialogs w ++ ds; disk := disk w |}
            ∧ (length ds ≤ 1)%nat.
Proof.
  assert (∀ e, ∃ d t ds,
            show_dialog (WarningExc "加载JSON标注文件失败：" e) w
            = {| image_files := image_files w;
                 current_image_index := current_image_index w;
                 keypoints_data := d; auto_save := auto_save w;
                 annotation_format := annotation_format w;
                 undo_stack := undo_stack w; redo_stack := redo_stack w;
                 max_undo_steps := max_undo_steps w; image_size := image_size w;
                 status_label := t; dialogs := dialogs w ++ ds; disk := disk w |}
            ∧ (length ds ≤ 1)%nat) as Hfail.
  { intros e. eexists _, _, [_]. split; [reflexivity|cbn; lia]. }
  unfold load_json_annotations, try_warn, load_json_try,
    bind, lift, ret, raise, modify.
  destruct file as [data|]; [|apply Hfail].
  destruct (dict_get_keypoints data) as [keypoints|]; [|apply Hfail].
  destruct (iter_items keypoints) as [items|]; [|apply Hfail].
  destruct (for_each_load_json_point items 0%nat w) as (r & -> & Hr).
  destruct r.
  - eexists _, _, []. rewrite app_nil_r. split; [reflexivity|cbn; lia].
  - eexists _, _, [_]. split; [reflexivity|cbn; lia].
Qed.

Lemma load_annotations_shape (image : image_path) (w : MainWindow) :
  ∃ d t ds, load_annotations image w
            = {| image_files := image_files w;
                 current_image_index := current_image_index w;
                 keypoints_data := d; auto_save := auto_save w;
                 annotation_format := annotation_format w;
                 undo_stack := undo_stack w; redo_stack := redo_stack w;
                 max_undo_steps := max_undo_steps w; image_size := image_size w;
                 status_label := t; dialogs := dialogs w ++ ds; disk := disk w |}
            ∧ (length ds ≤ 1)%nat.
Proof.
  unfold load_annotations.
  change (annotation_format (set_keypoints_data ∅ w)) with (annotation_format w).
  change (disk (set_keypoints_data ∅ w)) with (disk w).
  destruct (annotation_format w) eqn:Hfmt.
  - destruct (txt_files (disk w) !! stem image) as [content|].
    + destruct (load_txt_annotations_shape content (set_keypoints_data ∅ w))
        as (d & t & ds & Heq & Hds).
      exists d, t, ds. split; [|done]. rewrite Heq. cbn. by rewrite Hfmt.
    + exists ∅, "未找到TXT标注文件，创建新标注", []. split; [|cbn; lia].
      unfold set_status, set_keypoints_data. cbn. by rewrite Hfmt, app_nil_r.
  - destruct (json_files (disk w) !! stem image) as [file|].
    + destruct (load_json_annotations_shape file (set_keypoints_data ∅ w))
        as (d & t & ds & Heq & Hds).
      exists d, t, ds. split; [|done]. rewrite Heq. cbn. by rewrite Hfmt.
    + exists ∅, "未找到JSON标注文件，创建新标注", []. split; [|cbn; lia].
      unfold set_status, set_keypoints_data. cbn. by rewrite Hfmt, app_nil_r.
Qed.

(** X9.  Loading annotations changes the store, the status bar text and
    the dialogs shown, and nothing else: the image list, the current index,
    the auto-save switch, the active format, the undo depth, the image
    size, both history stacks and every file are as before.  It shows at
    most one dialog. *)
Theorem load_annotations_frame (w : MainWindow) (image : image_path) :
  settings (load_annotations image w) = settings w
  ∧ undo_stack (load_annotations image w) = undo_stack w
  ∧ redo_stack (load_annotations image w) = redo_stack w
  ∧ disk (load_annotations image w) = disk w
  ∧ ∃ ds, dialogs (load_annotations image w) = dialogs w ++ ds ∧ (length ds ≤ 1)%nat.
Proof.
  destruct (load_annotations_shape image w) as (d & t & ds & -> & Hds).
  repeat split. by exists ds.
Qed.

(** ** Saving, then loading, for any store *)

Lemma reload_entry_Some sz (d : store) (id : Z) (p : coord) :
  reload_entry sz d id = Some p
  ↔ is_Some (size_ok sz)
    ∧ ∃ x y, d !! KInt id = Some (x, y)
             ∧ p = (round6 x, round6 y)
             ∧ ¬ (round6 x < q0)%Qc ∧ ¬ (round6 y < q0)%Qc.
Proof.
  unfold reload_entry, saved_pair.
  destruct (d !! KInt id) as [[x y]|]; cbn [fst snd].
  - destruct (qlt (round6 x) q0) eqn:Hx; cbn [orb].
    { split; [done|]. intros (_ & x' & y' & [= <- <-] & _ & Hx' & _).
      by apply qlt_true in Hx. }
    destruct (qlt (round6 y) q0) eqn:Hy.
    { split; [done|]. intros (_ & x' & y' & [= <- <-] & _ & _ & Hy').
      by apply qlt_true in Hy. }
    apply qlt_false in Hx, Hy.
    destruct (size_ok sz) as [s|].
    + split.
      * intros [= <-]. split; [by eexists|]. by exists x, y.
      * by intros (_ & x' & y' & [= <- <-] & -> & _).
    + split; [done|]. by intros [[? ?] _].
  - rewrite qlt_unset. cbn [orb]. split; [done|]. by intros (_ & x & y & ? & _).
Qed.

Lemma txt_entry_reload (d : store) (sz : option (Qc * Qc)) (i : nat) :
  (i < 68)%nat →
  txt_entry (flat_map (λ id, [(saved_pair d id).1; (saved_pair d id).2]) (seqZ 1 68))
            sz i
  = reload_entry sz d (Z.of_nat i + 1).
Proof.
  intros Hi. unfold txt_entry, reload_entry.
  destruct (flat_map_pair_lookup (saved_pair d) (seqZ 1 68) i) as [-> ->].
  rewrite lookup_seqZ_lt by lia. cbn [fmap option_fmap option_map compose].
  replace (1 + Z.of_nat i) with (Z.of_nat i + 1) by lia.
  by destruct (saved_pair d (Z.of_nat i + 1)).
Qed.

Lemma json_entry_reload (d : store) (sz : option (Qc * Qc)) (n : Z) :
  float_store d →
  json_entry sz (let '(ratio_x, ratio_y) := default unset (d !! KInt n) in
                 JObj [("id", JNum (qc n 1));
                       ("x", JNum (round6 ratio_x));
                       ("y", JNum (round6 ratio_y))])
  = Ok ((λ p, (KInt n, p)) <$> reload_entry sz d n).
Proof.
  intros Hfloat. unfold reload_entry, saved_pair.
  destruct (d !! KInt n) as [[x y]|] eqn:Hk; cbn [default from_option unset fst snd].
  - destruct (Hfloat _ _ _ Hk) as [Hfx Hfy].
    change (json_entry sz (point_record n (round6 x) (round6 y))
            = Ok ((λ p, (KInt n, p)) <$>
                    (if qlt (round6 x) q0 || qlt (round6 y) q0 then None
                     else match size_ok sz with
                          | Some _ => Some (round6 x, round6 y)
                          | None => None
                          end))).
    rewrite json_entry_point_record.
    rewrite check_products_in_range by by apply in_float_range_round6.
    destruct (qlt (round6 x) q0), (qlt (round6 y) q0), (size_ok sz); reflexivity.
  - change (json_entry sz (point_record n (round6 (qc (-1) 1)) (round6 (qc (-1) 1)))
            = Ok ((λ p, (KInt n, p)) <$>
                    (if qlt (qc (-1) 1) q0 || qlt (qc (-1) 1) q0 then None
                     else match size_ok sz with
                          | Some _ => Some (qc (-1) 1, qc (-1) 1)
                          | None => None
                          end))).
    by rewrite json_entry_point_record, qlt_round6_unset, qlt_unset.
Qed.

Lemma decode_json_reload (d : store) (sz : option (Qc * Qc)) :
  float_store d →
  decode_json sz (json_keypoints d) ∅
  = (store_entries (reload_entry sz d) (seqZ 1 68) ∅, None).
Proof.
  intros Hfloat. unfold json_keypoints. apply decode_json_records.
  intros n _. by apply json_entry_reload.
Qed.

Lemma store_entries_reload_lookup sz (d : store) (k : pykey) (p : coord) :
  store_entries (reload_entry sz d) (seqZ 1 68) ∅ !! k = Some p
  ↔ ∃ id, 1 <= id <= 68 ∧ k = KInt id ∧ reload_entry sz d id = Some p.
Proof.
  split.
  - intros Hk.
    assert (∃ id, k = KInt id ∧ 1 <= id <= 68) as (id & -> & Hid).
    { destruct k as [id| | |];
        try (rewrite store_entries_lookup_ne in Hk by done; done).
      destruct (decide (1 <= id <= 68)) as [Hid|Hid]; [by exists id|].
      rewrite store_entries_lookup_ne in Hk; [done|].
      intros id' Hid'%elem_of_seqZ [= ->]. lia. }
    exists id. split; [done|]. split; [done|].
    rewrite store_entries_lookup in Hk
      by (apply NoDup_seqZ || (apply elem_of_seqZ; lia)).
    by destruct (reload_entry sz d id).
  - intros (id & Hid & -> & Hp).
    rewrite store_entries_lookup
      by (apply NoDup_seqZ || (apply elem_of_seqZ; lia)).
    by rewrite Hp.
Qed.

Lemma decode_txt_reload_lookup sz (d : store) (k : pykey) (p : coord) :
  decode_txt (flat_map (λ id, [(saved_pair d id).1; (saved_pair d id).2]) (seqZ 1 68))
             sz ∅ !! k = Some p
  ↔ ∃ id, 1 <= id <= 68 ∧ k = KInt id ∧ reload_entry sz d id = Some p.
Proof.
  rewrite decode_txt_lookup. split.
  - intros (i & Hi & -> & Hentry). exists (Z.of_nat i + 1).
    split; [lia|]. split; [done|]. by rewrite <- txt_entry_reload.
  - intros (id & Hid & -> & Hp). exists (Z.to_nat (id - 1)).
    split; [lia|].
    replace (Z.of_nat (Z.to_nat (id - 1)) + 1) with id by lia.
    split; [done|]. rewrite txt_entry_reload by lia.
    by replace (Z.of_nat (Z.to_nat (id - 1)) + 1) with id by lia.
Qed.

Lemma load_saved_txt (image : image_path) (w : MainWindow) :
  annotation_format w = FmtTxt →
  ∃ n : nat,
    load_annotations image (save_txt_annotations image w)
    = set_status ("加载了 " +:+ pretty.pretty n +:+ " 个关键点 (TXT)")
        (set_keypoints_data
           (decode_txt (flat_map (λ id, [(saved_pair (keypoints_data w) id).1;
                                         (saved_pair (keypoints_data w) id).2])
                                 (seqZ 1 68))
                       (image_size w) ∅)
           (save_txt_annotations image w)).
Proof.
  intros Hfmt.
  rewrite (load_annotations_txt image (str_join " " (txt_coords (keypoints_data w))));
    [|exact Hfmt|apply lookup_insert_eq].
  destruct (load_txt_annotations_ok
              (str_join " " (txt_coords (keypoints_data w)))
              _ (set_keypoints_data ∅ (save_txt_annotations image w))
              (floats_of_saved_text (keypoints_data w))) as [n Hn].
  { by rewrite length_flat_map_pair, length_seqZ. }
  exists n. rewrite Hn. reflexivity.
Qed.

Lemma load_saved_json (image : image_path) (w : MainWindow) :
  float_store (keypoints_data w) →
  annotation_format w = FmtJson →
  keypoints_data (load_annotations image (save_json_annotations image w))
  = store_entries (reload_entry (image_size w) (keypoints_data w)) (seqZ 1 68) ∅
  ∧ dialogs (load_annotations image (save_json_annotations image w)) = dialogs w.
Proof.
  intros Hfloat Hfmt. unfold load_annotations.
  change (annotation_format (set_keypoints_data ∅ (save_json_annotations image w)))
    with (annotation_format w).
  rewrite Hfmt.
  change (json_files (disk (set_keypoints_data ∅ (save_json_annotations image w))))
    with (<[stem image := Some (JObj [("image_name", JStr (path_name image));
              ("keypoints", JArr (json_keypoints (keypoints_data w)))])]>
            (json_files (disk w))).
  rewrite lookup_insert_eq, keypoints_data_load_json, dialogs_load_json.
  change (json_items _) with (Ok (A:=list json) (json_keypoints (keypoints_data w))).
  cbv beta iota.
  change (image_size (set_keypoints_data ∅ (save_json_annotations image w)))
    with (image_size w).
  change (keypoints_data (set_keypoints_data ∅ (save_json_annotations image w)))
    with (∅ : store).
  by rewrite decode_json_reload.
Qed.

Lemma save_then_load_reload (w : MainWindow) (image : image_path)
    (k : pykey) (p : coord) :
  current_image w = Some image →
  sorted_raises (keypoints_data w) = false →
  float_store (keypoints_data w) →
  keypoints_data (load_annotations image (save_annotations w)) !! k = Some p
  ↔ ∃ id, 1 <= id <= 68 ∧ k = KInt id
          ∧ reload_entry (image_size w) (keypoints_data w) id = Some p.
Proof.
  intros Hcur Hsorted Hfloat. rewrite (save_annotations_sorted w image) by done.
  destruct (annotation_format w) eqn:Hfmt.
  - destruct (load_saved_txt image w Hfmt) as [n ->].
    apply decode_txt_reload_lookup.
  - destruct (load_saved_json image w Hfloat Hfmt) as [-> _].
    apply store_entries_reload_lookup.
Qed.

Lemma save_then_load_lookup (w : MainWindow) (image : image_path)
    (k : pykey) (p : coord) :
  current_image w = Some image →
  sorted_raises (keypoints_data w) = false →
  float_store (keypoints_data w) →
  keypoints_data (load_annotations image (save_annotations w)) !! k = Some p
  ↔ is_Some (size_ok (image_size w))
    ∧ ∃ id x y, 1 <= id <= 68 ∧ k = KInt id
                ∧ keypoints_data w !! KInt id = Some (x, y)
                ∧ p = (round6 x, round6 y)
                ∧ ¬ (round6 x < q0)%Qc ∧ ¬ (round6 y < q0)%Qc.
Proof.
  intros Hcur Hsorted Hfloat. rewrite save_then_load_reload by done. split.
  - intros (id & Hid & -> & (Hsz & x & y & Hk & -> & Hx & Hy)%reload_entry_Some).
    split; [done|]. by exists id, x, y.
  - intros (Hsz & id & x & y & Hid & -> & Hk & -> & Hx & Hy).
    exists id. split; [done|]. split; [done|].
    apply reload_entry_Some. split; [done|]. by exists x, y.
Qed.

Lemma save_then_load_int_keys (w : MainWindow) (image : image_path) (k : pykey) :
  current_image w = Some image →
  sorted_raises (keypoints_data w) = false →
  float_store (keypoints_data w) →
  is_Some (keypoints_data (load_annotations image (save_annotations w)) !! k) →
  ∃ id, k = KInt id.
Proof.
  intros Hcur Hsorted Hfloat [p Hk].
  apply save_then_load_lookup in Hk as (_ & id & _ & _ & _ & -> & _); [|done..].
  by exists id.
Qed.

Lemma save_then_load_float_store (w : MainWindow) (image : image_path) :
  current_image w = Some image →
  sorted_raises (keypoints_data w) = false →
  float_store (keypoints_data w) →
  float_store (keypoints_data (load_annotations image (save_annotations w))).
Proof.
  intros Hcur Hsorted Hfloat k x y Hk.
  apply save_then_load_lookup in Hk
    as (_ & id & x0 & y0 & _ & -> & Hk0 & [= -> ->] & _); [|done..].
  destruct (Hfloat _ _ _ Hk0). split; by apply in_float_range_round6.
Qed.

(** X10.  What a save followed by a load keeps, in either format and for
    any image size, for every store that a save accepts: its keys can be
    sorted (the debug print of [save_annotations] does not raise) and its
    numbers are floats.  An entry is in the store read back if and only if
    the image view reports a positive size, the entry's key is an integer
    identifier from 1 to 68, the store saved had a pair under that
    identifier, the two numbers of the entry are the numbers of that pair
    rounded to six decimals, and neither rounded number is negative.  So an
    entry under any other key is lost, and so is a pair with a component
    that rounds to a negative number. *)
Theorem save_then_load_keeps (w : MainWindow) (image : image_path)
    (k : pykey) (p : coord) :
  current_image w = Some image →
  sorted_raises (keypoints_data w) = false →
  float_store (keypoints_data w) →
  keypoints_data (load_annotations image (save_annotations w)) !! k = Some p
  ↔ is_Some (size_ok (image_size w))
    ∧ ∃ id x y, 1 <= id <= 68 ∧ k = KInt id
                ∧ keypoints_data w !! KInt id = Some (x, y)
                ∧ p = (round6 x, round6 y)
                ∧ ¬ (round6 x < q0)%Qc ∧ ¬ (round6 y < q0)%Qc.
Proof. apply save_then_load_lookup. Qed.

(** X11.  Loading a file the tool has just saved goes through without a
    dialog and without an exception, in either format and for any image
    size, for every store that a save accepts (keys that can be sorted,
    numbers that are floats): neither the save nor the load raises, and the
    dialogs shown are those shown before. *)
Theorem save_then_load_shows_no_dialog (w : MainWindow) (image : image_path) :
  current_image w = Some image →
  sorted_raises (keypoints_data w) = false →
  float_store (keypoints_data w) →
  raises save_annotations_call w = false
  ∧ raises (load_annotations_call image) (save_annotations w) = false
  ∧ dialogs (load_annotations image (save_annotations w)) = dialogs w.
Proof.
  intros Hcur Hsorted Hfloat.
  split; [by rewrite raises_save_annotations, Hcur|]. split.
  - destruct (load_annotations_call_unfold image (save_annotations w)) as [_ ->].
    apply sorted_raises_int_keys. intros k Hk.
    by apply (save_then_load_int_keys w image).
  - rewrite (save_annotations_sorted w image) by done.
    destruct (annotation_format w) eqn:Hfmt.
    + by destruct (load_saved_txt image w Hfmt) as [n ->].
    + by destruct (load_saved_json image w Hfloat Hfmt) as [_ ->].
Qed.

Lemma only_point_one_float_store : float_store only_point_one.
Proof.
  intros k x y Hk. unfold only_point_one in Hk.
  apply lookup_singleton_Some in Hk as [_ [= <- <-]].
  split; split; vm_compute; discriminate.
Qed.

Lemma save_then_load_keeps_witness :
  keypoints_data
    (load_annotations face
       (save_annotations (set_keypoints_data only_point_one sample_window)))
    !! KInt 1 = Some (round6 (qc 1 10), round6 (qc 1 10))
  ↔ is_Some (size_ok (image_size (set_keypoints_data only_point_one sample_window)))
    ∧ ∃ id x y, 1 <= id <= 68 ∧ KInt 1 = KInt id
                ∧ keypoints_data (set_keypoints_data only_point_one sample_window)
                    !! KInt id = Some (x, y)
                ∧ (round6 (qc 1 10), round6 (qc 1 10)) = (round6 x, round6 y)
                ∧ ¬ (round6 x < q0)%Qc ∧ ¬ (round6 y < q0)%Qc.
Proof.
  apply (save_then_load_keeps (set_keypoints_data only_point_one sample_window) face).
  - reflexivity.
  - reflexivity.
  - exact only_point_one_float_store.
Defined.

Lemma save_then_load_shows_no_dialog_witness :
  raises save_annotations_call (set_keypoints_data only_point_one sample_window)
  = false
  ∧ raises (load_annotations_call face)
      (save_annotations (set_keypoints_data only_point_one sample_window)) = false
  ∧ dialogs (load_annotations face
               (save_annotations (set_keypoints_data only_point_one sample_window)))
    = dialogs (set_keypoints_data only_point_one sample_window).
Proof.
  apply (save_then_load_shows_no_dialog
           (set_keypoints_data only_point_one sample_window) face).
  - reflexivity.
  - reflexivity.
  - exact only_point_one_float_store.
Defined.

(** ** Rounding twice *)

Lemma round_half_even_integer (q : Q) (n : Z) :
  (q == n # 1)%Q → round_half_even q = n.
Proof.
  unfold Qeq. cbn [Qnum Qden]. intros Heq. unfold round_half_even.
  assert (Qnum q = n * Z.pos (Qden q)) as -> by lia.
  rewrite Z.div_mul, Z.mod_mul by lia.
  change (2 * 0) with 0. by destruct (Z.compare_spec 0 (Z.pos (Qden q))); try lia.
Qed.

Lemma micro_round6 (x : Qc) : micro (round6 x) = micro x.
Proof.
  unfold round6 at 1. unfold micro at 1. apply round_half_even_integer.
  unfold qc. cbn [this Q2Qc]. rewrite Qred_correct.
  unfold Qeq, Qmult. cbn [Qnum Qden]. lia.
Qed.

Lemma round6_idemp (x : Qc) : round6 (round6 x) = round6 x.
Proof. unfold round6 at 1 3. by rewrite micro_round6. Qed.

Lemma save_annotations_settings (w : MainWindow) :
  settings (save_annotations w) = settings w.
Proof.
  rewrite save_annotations_unfold. destruct (current_image w); [|done].
  destruct (sorted_raises _); [done|]. by destruct (annotation_format w).
Qed.

Lemma load_annotations_settings (image : image_path) (w : MainWindow) :
  settings (load_annotations image w) = settings w.
Proof. by destruct (load_annotations_shape image w) as (d & t & ds & -> & _). Qed.

Lemma current_image_ext (a b : MainWindow) :
  image_files a = image_files b →
  current_image_index a = current_image_index b →
  current_image a = current_image b.
Proof. intros Hf Hi. unfold current_image. by rewrite Hf, Hi. Qed.

(** X12.  One save and load brings the store to a fixed point: a second
    save and load of what was read back changes nothing, in either format
    and for any image size, for every store that a save accepts (keys that
    can be sorted, numbers that are floats).  Rounding to six decimals
    happens once. *)
Theorem second_save_then_load_is_identity (w : MainWindow) (image : image_path) :
  current_image w = Some image →
  sorted_raises (keypoints_data w) = false →
  float_store (keypoints_data w) →
  keypoints_data
    (load_annotations image
       (save_annotations (load_annotations image (save_annotations w))))
  = keypoints_data (load_annotations image (save_annotations w)).
Proof.
  intros Hcur Hsorted Hfloat.
  set (w1 := load_annotations image (save_annotations w)).
  assert (settings w1 = settings w) as Hset.
  { unfold w1. by rewrite load_annotations_settings, save_annotations_settings. }
  injection Hset as Hfiles Hidx _ _ _ Hsize.
  assert (current_image w1 = Some image) as Hcur1.
  { rewrite <- Hcur. by apply current_image_ext. }
  assert (sorted_raises (keypoints_data w1) = false) as Hsorted1.
  { apply sorted_raises_int_keys. intros k Hk.
    by apply (save_then_load_int_keys w image). }
  assert (float_store (keypoints_data w1)) as Hfloat1
    by by apply save_then_load_float_store.
  apply map_eq. intros k. apply option_eq. intros p.
  rewrite (save_then_load_lookup w1 image k p Hcur1 Hsorted1 Hfloat1).
  rewrite Hsize. split.
  - intros (Hsz & id & x & y & Hid & -> & Hk & -> & Hx & Hy).
    unfold w1 in Hk.
    apply (save_then_load_lookup w image _ _ Hcur Hsorted Hfloat) in Hk
      as (_ & id' & x' & y' & _ & [= <-] & Hk' & [= -> ->] & Hx' & Hy').
    rewrite !round6_idemp.
    apply (save_then_load_lookup w image _ _ Hcur Hsorted Hfloat).
    split; [done|]. by exists id, x', y'.
  - intros Hk. pose proof Hk as Hk0. unfold w1 in Hk.
    apply (save_then_load_lookup w image _ _ Hcur Hsorted Hfloat) in Hk
      as (Hsz & id & x & y & Hid & -> & Hk' & -> & Hx & Hy).
    split; [done|]. exists id, (round6 x), (round6 y).
    rewrite !round6_idemp. done.
Qed.

Lemma second_save_then_load_is_identity_witness :
  keypoints_data
    (load_annotations face
       (save_annotations
          (load_annotations face
             (save_annotations (set_keypoints_data only_point_one sample_window)))))
  = keypoints_data
      (load_annotations face
         (save_annotations (set_keypoints_data only_point_one sample_window))).
Proof.
  apply (second_save_then_load_is_identity
           (set_keypoints_data only_point_one sample_window) face).
  - reflexivity.
  - reflexivity.
  - exact only_point_one_float_store.
Defined.

(** ** The handlers as functions of the window *)

Lemma window_after_seq (m k : M unit) (w : MainWindow) :
  window_after (do! m in k)%py w
  = if raises m w then window_after m w else window_after k (window_after m w).
Proof.
  unfold window_after, raises, bind. by destruct (m w) as [[[]|e] w'].
Qed.

Lemma raises_seq (m k : M unit) (w : MainWindow) :
  raises (do! m in k)%py w = raises m w || raises k (window_after m w).
Proof.
  unfold window_after, raises, bind. by destruct (m w) as [[[]|e] w'].
Qed.

Lemma window_after_get {A} (f : MainWindow → M A) (w : MainWindow) :
  window_after (let! v := get in f v)%py w = window_after (f w) w.
Proof. reflexivity. Qed.

Lemma raises_get {A} (f : MainWindow → M A) (w : MainWindow) :
  raises (let! v := get in f v)%py w = raises (f w) w.
Proof. reflexivity. Qed.

Lemma current_image_index_nonneg (w : MainWindow) (image : image_path) :
  current_image w = Some image → 0 <= current_image_index w.
Proof. unfold current_image. case_decide; [done|lia]. Qed.

Lemma save_annotations_history (w : MainWindow) :
  history (save_annotations w) = history w.
Proof.
  rewrite save_annotations_unfold. destruct (current_image w); [|done].
  destruct (sorted_raises _); [done|]. by destruct (annotation_format w).
Qed.

Lemma save_annotations_dialogs (w : MainWindow) :
  dialogs (save_annotations w) = dialogs w.
Proof.
  rewrite save_annotations_unfold. destruct (current_image w); [|done].
  destruct (sorted_raises _); [done|]. by destruct (annotation_format w).
Qed.

Lemma load_annotations_disk (image : image_path) (w : MainWindow) :
  disk (load_annotations image w) = disk w.
Proof. by destruct (load_annotations_shape image w) as (d & t & ds & -> & _). Qed.

Lemma load_annotations_stacks (image : image_path) (w : MainWindow) :
  undo_stack (load_annotations image w) = undo_stack w
  ∧ redo_stack (load_annotations image w) = redo_stack w.
Proof. by destruct (load_annotations_shape image w) as (d & t & ds & -> & _). Qed.

Lemma closeEvent_unfold (w : MainWindow) :
  closeEvent w
  = if auto_save w && bool_decide (0 <= current_image_index w)
    then save_annotations w else w.
Proof.
  unfold closeEvent, window_after, closeEvent_call, bind, get.
  by destruct (_ && _).
Qed.

Lemma raises_closeEvent (w : MainWindow) :
  raises closeEvent_call w
  = auto_save w && bool_decide (0 <= current_image_index w)
    && raises save_annotations_call w.
Proof.
  unfold raises at 1. unfold closeEvent_call, bind, get.
  by destruct (_ && _).
Qed.

(** The switch of format: whether it saves first, and the window in which
    the file of the new format is then looked for. *)
Lemma toggle_annotation_format_run (reply : bool) (w : MainWindow) :
  let saves := bool_decide (0 <= current_image_index w)
               && negb (bool_decide (keypoints_data w = ∅))
               && (auto_save w || reply) in
  let w1 := if saves then save_annotations w else w in
  let w2 := set_status match annotation_format w with
                       | FmtTxt => "标注格式已切换为 JSON"
                       | FmtJson => "标注格式已切换为 TXT"
                       end
              (set_annotation_format match annotation_format w with
                                     | FmtTxt => FmtJson
                                     | FmtJson => FmtTxt
                                     end w1) in
  toggle_annotation_format reply w
  = (if saves && raises save_annotations_call w then w
     else match current_image w with
          | Some image => load_annotations image w2
          | None => w2
          end)
  ∧ raises (toggle_annotation_format_call reply) w
    = saves && raises save_annotations_call w
      || match current_image w with
         | Some image => sorted_raises (keypoints_data (load_annotations image w2))
         | None => false
         end.
Proof.
  intros saves w1 w2.
  set (first := if bool_decide (0 <= current_image_index w)
                   && negb (bool_decide (keypoints_data w = ∅))
                then if auto_save w then save_annotations_call
                     else if reply then save_annotations_call else ret tt
                else ret tt).
  assert (raises first w = saves && raises save_annotations_call w
          ∧ window_after first w = w1) as [Hr Hw].
  { unfold first, saves, w1.
    destruct (bool_decide (0 <= _)), (negb _), (auto_save w), reply; cbn;
      try done; by rewrite ?andb_false_r. }
  assert (settings w1 = settings w) as [= Hf Hi _ Hfmt _ _].
  { unfold w1. destruct saves; [apply save_annotations_settings|done]. }
  assert (current_image w2 = current_image w) as Hcur
    by by apply current_image_ext.
  unfold toggle_annotation_format, toggle_annotation_format_call.
  rewrite window_after_get, raises_get. fold first.
  rewrite window_after_seq, raises_seq, Hr, Hw.
  destruct (saves && raises save_annotations_call w) eqn:Hraised.
  { split; [|done]. apply andb_prop in Hraised as [Hs Hraised].
    unfold w1. rewrite Hs. by apply save_annotations_raised. }
  cbn [orb]. rewrite window_after_get, raises_get.
  rewrite Hfmt. subst w2. revert Hcur.
  destruct (annotation_format w); intros Hcur.
  all: rewrite window_after_seq, raises_seq.
  all: change (raises (modify ?f) ?v) with false; cbv iota; cbn [orb].
  all: change (window_after (modify ?f) ?v) with (f v); cbv beta.
  all: rewrite window_after_get, raises_get, Hcur.
  all: destruct (current_image w) as [image|]; [|done].
  all: apply load_annotations_call_unfold.
Qed.

Lemma load_current_image_run (pixmap_size : Qc * Qc) (w : MainWindow) :
  load_current_image pixmap_size w
  = match current_image w with
    | None => w
    | Some image =>
        let w1 := load_annotations image (set_image_size (Some pixmap_size) w) in
        if sorted_raises (keypoints_data w1) then w1
        else set_redo_stack [] (set_undo_stack [] w1)
    end
  ∧ raises (load_current_image_call pixmap_size) w
    = match current_image w with
      | None => false
      | Some image =>
          sorted_raises
            (keypoints_data
               (load_annotations image (set_image_size (Some pixmap_size) w)))
      end.
Proof.
  unfold load_current_image, load_current_image_call.
  rewrite window_after_get, raises_get.
  destruct (current_image w) as [image|]; [|done].
  rewrite !window_after_seq, !raises_seq.
  change (raises (modify ?f) ?v) with false; cbv iota; cbn [orb].
  change (window_after (modify (set_image_size ?s)) ?v) with (set_image_size s v).
  destruct (load_annotations_call_unfold image
              (set_image_size (Some pixmap_size) w)) as [-> ->].
  cbv zeta. rewrite orb_false_r. by destruct (sorted_raises _).
Qed.

Lemma navigation_run (pixmap_size : Qc * Qc) (move : Z → Z) (w : MainWindow) :
  let moved := (do! (if auto_save w then save_annotations_call else ret tt) in
                do! modify (λ w, set_current_image_index
                                   (move (current_image_index w)) w) in
                load_current_image_call pixmap_size)%py in
  let w1 := set_current_image_index (move (current_image_index w))
              (if auto_save w then save_annotations w else w) in
  window_after moved w
  = (if auto_save w && raises save_annotations_call w then w
     else load_current_image pixmap_size w1)
  ∧ raises moved w
    = auto_save w && raises save_annotations_call w
      || raises (load_current_image_call pixmap_size) w1.
Proof.
  intros moved w1. unfold moved. rewrite window_after_seq, raises_seq.
  assert (current_image_index (save_annotations w) = current_image_index w) as Hi.
  { by pose proof (save_annotations_settings w) as [= _ ? _ _ _ _]. }
  destruct (auto_save w) eqn:Hauto; cbn [andb].
  - destruct (raises save_annotations_call w) eqn:Hr.
    + split; [|done]. fold (save_annotations w). by apply save_annotations_raised.
    + rewrite window_after_seq, raises_seq.
      change (raises (modify ?f) ?v) with false; cbv iota; cbn [orb].
      change (window_after (modify ?f) ?v) with (f v); cbv beta.
      fold (save_annotations w). by rewrite Hi.
  - rewrite window_after_seq, raises_seq.
    change (raises (ret tt) w) with false; cbv iota; cbn [orb].
    change (raises (modify ?f) ?v) with false; cbv iota; cbn [orb].
    done.
Qed.

Lemma next_image_run (pixmap_size : Qc * Qc) (w : MainWindow) :
  let w1 := set_current_image_index (current_image_index w + 1)
              (if auto_save w then save_annotations w else w) in
  next_image pixmap_size w
  = (if decide (current_image_index w < Z.of_nat (length (image_files w)) - 1)
     then if auto_save w && raises save_annotations_call w then w
          else load_current_image pixmap_size w1
     else w)
  ∧ raises (next_image_call pixmap_size) w
    = if decide (current_image_index w < Z.of_nat (length (image_files w)) - 1)
      then auto_save w && raises save_annotations_call w
           || raises (load_current_image_call pixmap_size) w1
      else false.
Proof.
  intros w1. unfold next_image, next_image_call.
  rewrite window_after_get, raises_get.
  case_decide; [|done].
  apply (navigation_run pixmap_size (λ i, i + 1) w).
Qed.

Lemma previous_image_run (pixmap_size : Qc * Qc) (w : MainWindow) :
  let w1 := set_current_image_index (current_image_index w - 1)
              (if auto_save w then save_annotations w else w) in
  previous_image pixmap_size w
  = (if decide (0 < current_image_index w)
     then if auto_save w && raises save_annotations_call w then w
          else load_current_image pixmap_size w1
     else w)
  ∧ raises (previous_image_call pixmap_size) w
    = if decide (0 < current_image_index w)
      then auto_save w && raises save_annotations_call w
           || raises (load_current_image_call pixmap_size) w1
      else false.
Proof.
  intros w1. unfold previous_image, previous_image_call.
  rewrite window_after_get, raises_get.
  case_decide; [|done].
  apply (navigation_run pixmap_size (λ i, i - 1) w).
Qed.

(** ** Loading without a usable image size *)

Lemma txt_entry_size coords sz i p :
  txt_entry coords sz i = Some p → is_Some (size_ok sz).
Proof.
  unfold txt_entry.
  destruct (coords !! _) as [x|]; [|done]. destruct (coords !! _) as [y|]; [|done].
  destruct (_ || _); [done|]. by destruct (size_ok sz); [eexists|].
Qed.

Lemma json_entry_size sz kp k p :
  json_entry sz kp = Ok (Some (k, p)) → is_Some (size_ok sz).
Proof.
  unfold json_entry.
  destruct (subscript kp "id") as [kp_id|]; [|done].
  destruct (subscript kp "x") as [rx|]; [|done].
  destruct (subscript kp "y") as [ry|]; [|done].
  destruct (as_number rx) as [x|]; [|done].
  destruct (qlt x q0); [done|].
  destruct (as_number ry) as [y|]; [|done].
  destruct (qlt y q0); [done|].
  by destruct (size_ok sz); [eexists|].
Qed.

Lemma keypoints_data_load_annotations (image : image_path) (w : MainWindow) :
  keypoints_data (load_annotations image w)
  = match annotation_format w with
    | FmtTxt =>
        match txt_files (disk w) !! stem image with
        | Some content =>
            match floats_of (String.words (str_strip content)) with
            | Ok coords =>
                if decide (length coords = 136%nat)
                then decode_txt coords (image_size w) ∅
                else ∅
            | Raise _ => ∅
            end
        | None => ∅
        end
    | FmtJson =>
        match json_files (disk w) !! stem image with
        | Some file =>
            match json_items file with
            | Ok items => (decode_json (image_size w) items ∅).1
            | Raise _ => ∅
            end
        | None => ∅
        end
    end.
Proof.
  unfold load_annotations.
  change (annotation_format (set_keypoints_data ∅ w)) with (annotation_format w).
  change (disk (set_keypoints_data ∅ w)) with (disk w).
  destruct (annotation_format w).
  - destruct (txt_files (disk w) !! stem image) as [content|]; [|done].
    by rewrite keypoints_data_load_txt.
  - destruct (json_files (disk w) !! stem image) as [file|]; [|done].
    by rewrite keypoints_data_load_json.
Qed.

Lemma load_annotations_without_size (image : image_path) (w : MainWindow) :
  size_ok (image_size w) = None →
  keypoints_data (load_annotations image w) = ∅.
Proof.
  intros Hsz. rewrite keypoints_data_load_annotations.
  destruct (annotation_format w).
  - destruct (txt_files (disk w) !! stem image) as [content|]; [|done].
    destruct (floats_of _) as [coords|]; [|done].
    case_decide; [|done].
    apply map_eq. intros k. apply option_eq. intros p.
    rewrite decode_txt_lookup, lookup_empty. split; [|done].
    intros (i & _ & _ & [s Hs]%txt_entry_size). congruence.
  - destruct (json_files (disk w) !! stem image) as [file|]; [|done].
    destruct (json_items file) as [items|]; [|done].
    apply map_eq. intros k. apply option_eq. intros p.
    rewrite lookup_empty. split; [|done].
    intros [Hk|(kp & _ & [s Hs]%json_entry_size)]%decode_json_origin.
    + by rewrite lookup_empty in Hk.
    + congruence.
Qed.

(** X13.  While the image view has no positive size to report, loading
    stores nothing: whatever the annotation file of the image holds, in
    either format, the store is empty afterwards. *)
Theorem nothing_is_loaded_without_image_size (w : MainWindow) (image : image_path) :
  size_ok (image_size w) = None →
  keypoints_data (load_annotations image w) = ∅.
Proof. apply load_annotations_without_size. Qed.

Lemma nothing_is_loaded_without_image_size_witness :
  keypoints_data
    (load_annotations face
       (set_disk {| txt_files := {[ "face" := txt_point_5_unset ]};
                    json_files := ∅ |} unreadable_image_window)) = ∅.
Proof.
  apply (nothing_is_loaded_without_image_size
           (set_disk {| txt_files := {[ "face" := txt_point_5_unset ]};
                        json_files := ∅ |} unreadable_image_window) face).
  reflexivity.
Defined.

Lemma round6_unset : round6 (qc (-1) 1) = qc (-1) 1.
Proof. apply Qc_is_canon. vm_compute. reflexivity. Qed.

Lemma txt_coords_empty : txt_coords ∅ = replicate 136 sentinel_token.
Proof. reflexivity. Qed.

Lemma json_keypoints_empty :
  json_keypoints ∅ = map (λ id, point_record id (qc (-1) 1) (qc (-1) 1)) (seqZ 1 68).
Proof.
  unfold json_keypoints. apply map_ext. intros id.
  rewrite lookup_empty. cbn [default from_option unset]. unfold point_record.
  by rewrite round6_unset.
Qed.

(** X14.  An image that could not be read costs its annotations when the
    window is closed with auto-save on.  While the image view has no
    positive size to report, loading the current image's annotations and
    then closing the window overwrites the annotation file of the active
    format with 68 unset points, whatever the file held: 136 tokens
    [-1.000000] in the delimited format, 68 records with x = y = -1 in the
    structured format. *)
Theorem unreadable_image_overwrites_annotations (w : MainWindow) (image : image_path) :
  size_ok (image_size w) = None →
  current_image w = Some image →
  auto_save w = true →
  match annotation_format w with
  | FmtTxt =>
      txt_files (disk (closeEvent (load_annotations image w))) !! stem image
      = Some (str_join " " (replicate 136 "-1.000000"))
  | FmtJson =>
      json_files (disk (closeEvent (load_annotations image w))) !! stem image
      = Some (Some (JObj [("image_name", JStr (path_name image));
                          ("keypoints",
                           JArr (map (λ id, point_record id (qc (-1) 1) (qc (-1) 1))
                                     (seqZ 1 68)))]))
  end.
Proof.
  intros Hsz Hcur Hauto.
  pose proof (load_annotations_without_size image w Hsz) as Hempty.
  destruct (load_annotations_shape image w) as (d & t & ds & Heq & _).
  rewrite Heq in Hempty |- *. cbn [keypoints_data] in Hempty. subst d.
  pose proof (current_image_index_nonneg w image Hcur) as Hidx.
  rewrite closeEvent_unfold. cbn [auto_save current_image_index]. rewrite Hauto.
  rewrite bool_decide_true by done. cbn [andb].
  rewrite (save_annotations_sorted _ image);
    [|by rewrite <- Hcur; apply current_image_ext|apply sorted_raises_empty].
  cbn [annotation_format].
  destruct (annotation_format w).
  - unfold save_txt_annotations. cbn [disk set_status set_disk write_txt txt_files
      keypoints_data].
    rewrite lookup_insert_eq. by rewrite txt_coords_empty.
  - unfold save_json_annotations. cbn [disk set_status set_disk write_json json_files
      keypoints_data].
    rewrite lookup_insert_eq. by rewrite json_keypoints_empty.
Qed.

Lemma unreadable_image_overwrites_annotations_witness :
  txt_files
    (disk (closeEvent
             (load_annotations face
                (set_disk {| txt_files := {[ "face" := txt_point_5_unset ]};
                             json_files := ∅ |} unreadable_image_window))))
    !! "face"
  = Some (str_join " " (replicate 136 "-1.000000")).
Proof.
  apply (unreadable_image_overwrites_annotations
           (set_disk {| txt_files := {[ "face" := txt_point_5_unset ]};
                        json_files := ∅ |} unreadable_image_window) face);
    reflexivity.
Defined.

(** ** Keys the loaders produce *)

(** X15.  In the delimited format the store after a load only has integer
    identifiers from 1 to 68 as keys, whatever the file holds and whether
    or not it exists. *)
Theorem txt_load_keys_are_1_to_68 (w : MainWindow) (image : image_path) (k : pykey) :
  annotation_format w = FmtTxt →
  is_Some (keypoints_data (load_annotations image w) !! k) →
  ∃ id, k = KInt id ∧ 1 <= id <= 68.
Proof.
  intros Hfmt [p Hk]. rewrite keypoints_data_load_annotations, Hfmt in Hk.
  destruct (txt_files (disk w) !! stem image) as [content|]; [|by rewrite lookup_empty in Hk].
  destruct (floats_of _) as [coords|]; [|by rewrite lookup_empty in Hk].
  case_decide; [|by rewrite lookup_empty in Hk].
  apply decode_txt_lookup in Hk as (i & Hi & -> & _).
  exists (Z.of_nat i + 1). split; [done|lia].
Qed.

Lemma txt_load_keys_are_1_to_68_witness :
  ∃ id, KInt 1 = KInt id ∧ 1 <= id <= 68.
Proof.
  apply (txt_load_keys_are_1_to_68
           (set_disk {| txt_files := {[ "face" := txt_point_5_unset ]};
                        json_files := ∅ |} sample_window) face (KInt 1)).
  - reflexivity.
  - vm_compute. eexists. reflexivity.
Defined.

Lemma check_products_not_too_large (x y : Qc) :
  int_too_large x = false → int_too_large y = false → check_products x y = Ok tt.
Proof. unfold check_products. by intros -> ->. Qed.

Lemma decode_json_point_records sz (l : list (Z * coord)) (d : store) :
  is_Some (size_ok sz) →
  Forall (λ e, ¬ (e.2.1 < q0)%Qc ∧ ¬ (e.2.2 < q0)%Qc) l →
  Forall (λ e, int_too_large e.2.1 = false ∧ int_too_large e.2.2 = false) l →
  decode_json sz (point_records l) d
  = (fold_left (λ d e, <[KInt e.1 := e.2]> d) l d, None).
Proof.
  intros [s Hsz] Hl Hfin. revert d Hfin.
  induction Hl as [|[id [x y]] l [Hx Hy] Hl IH]; intros d Hfin; [done|].
  apply Forall_cons in Hfin as [[Hfx Hfy] Hfin].
  cbn [point_records map decode_json fold_left fst snd] in *.
  rewrite json_entry_point_record, Hsz.
  unfold qlt. rewrite !bool_decide_false by done.
  rewrite check_products_not_too_large by done. by apply IH.
Qed.

Lemma fold_left_insert_lookup (l : list (Z * coord)) (d : store) (k : pykey) :
  fold_left (λ d e, <[KInt e.1 := e.2]> d) l d !! k
  = match last (filter (λ e, KInt e.1 = k) l) with
    | Some e => Some e.2
    | None => d !! k
    end.
Proof.
  revert d. induction l as [|[id p] l IH]; intros d; [done|].
  cbn [fold_left fst snd]. rewrite IH, filter_cons. cbn [fst].
  case_decide as Hk.
  - rewrite last_cons. destruct (last _); [done|].
    subst k. cbn [snd]. apply lookup_insert_eq.
  - destruct (last _); [done|]. apply lookup_insert_ne. congruence.
Qed.

(** X16.  The structured loader checks neither the range nor the
    uniqueness of identifiers.  For a file whose ["keypoints"] list is made
    of records [{id, x, y}] with integer ids, no negative number and no
    integer too large for a float, read while the image has a positive
    size, the store afterwards holds, under every id that occurs in the
    list (inside 1..68 or not), the pair of the last record with that id,
    and nothing else; no dialog is shown and the call returns. *)
Theorem json_load_keeps_every_identifier (w : MainWindow) (image : image_path)
    (data : json) (l : list (Z * coord)) :
  annotation_format w = FmtJson →
  json_files (disk w) !! stem image = Some (Some data) →
  dict_get_keypoints data = Ok (JArr (point_records l)) →
  is_Some (size_ok (image_size w)) →
  Forall (λ e, ¬ (e.2.1 < q0)%Qc ∧ ¬ (e.2.2 < q0)%Qc) l →
  Forall (λ e, int_too_large e.2.1 = false ∧ int_too_large e.2.2 = false) l →
  (∀ k, keypoints_data (load_annotations image w) !! k
        = snd <$> last (filter (λ e, KInt e.1 = k) l))
  ∧ dialogs (load_annotations image w) = dialogs w
  ∧ raises (load_annotations_call image) w = false.
Proof.
  intros Hfmt Hfile Hdata Hsz Hl Hfin.
  assert (json_items (Some data) = Ok (point_records l)) as Hitems.
  { unfold json_items. by rewrite Hdata. }
  assert (∀ k, keypoints_data (load_annotations image w) !! k
               = snd <$> last (filter (λ e, KInt e.1 = k) l)) as Hstore.
  { intros k. rewrite keypoints_data_load_annotations, Hfmt, Hfile, Hitems.
    rewrite decode_json_point_records by done. cbn [fst].
    rewrite fold_left_insert_lookup, lookup_empty.
    by destruct (last _). }
  split; [exact Hstore|]. split.
  - unfold load_annotations.
    change (annotation_format (set_keypoints_data ∅ w)) with (annotation_format w).
    change (disk (set_keypoints_data ∅ w)) with (disk w).
    rewrite Hfmt, Hfile, dialogs_load_json, Hitems.
    change (image_size (set_keypoints_data ∅ w)) with (image_size w).
    by rewrite decode_json_point_records.
  - destruct (load_annotations_call_unfold image w) as [_ ->].
    apply sorted_raises_int_keys. intros k [p Hk]. rewrite Hstore in Hk.
    destruct (last _) as [e|] eqn:Hlast; [|done].
    apply last_Some_elem_of, list_elem_of_filter in Hlast as [<- _].
    by eexists.
Qed.

Lemma json_load_keeps_every_identifier_witness :
  (∀ k, keypoints_data (load_annotations face (json_window json_out_of_range)) !! k
        = snd <$> last (filter (λ e, KInt e.1 = k) records_out_of_range))
  ∧ dialogs (load_annotations face (json_window json_out_of_range))
    = dialogs (json_window json_out_of_range)
  ∧ raises (load_annotations_call face) (json_window json_out_of_range) = false.
Proof.
  apply (json_load_keeps_every_identifier
           (json_window json_out_of_range) face json_out_of_range
           records_out_of_range).
  - reflexivity.
  - reflexivity.
  - reflexivity.
  - vm_compute. eexists. reflexivity.
  - repeat constructor; cbn [fst snd]; intros H; vm_compute in H; discriminate.
  - repeat constructor.
Defined.
(** ** The converter's result and files *)

Lemma convert_keypoints_records (coords : list Qc) (indices : list nat) (g : nat → coord) :
  (∀ i, i ∈ indices →
     coords !! (i * 2)%nat = Some (g i).1 ∧ coords !! (i * 2 + 1)%nat = Some (g i).2) →
  convert_keypoints coords indices
  = Ok (map (λ i : nat, point_record (Z.of_nat i + 1) (round6 (g i).1) (round6 (g i).2))
            indices).
Proof.
  induction indices as [|i indices IH]; intros Hin; [done|].
  cbn [convert_keypoints map].
  destruct (Hin i) as [-> ->]; [by left|].
  rewrite IH; [done|]. intros j Hj. apply Hin. by right.
Qed.

Lemma convert_txt_to_json_cases (content : string) (image_file : image_path)
    (f : filesystem) :
  (∃ coords keypoints,
      floats_of (String.words (str_strip content)) = Ok coords
      ∧ length coords = 136%nat
      ∧ convert_keypoints coords (seq 0 68) = Ok keypoints
      ∧ convert_txt_to_json content image_file f
        = (true, Printed ("  ✓ 成功转换: " +:+ stem image_file +:+ ".json"),
           write_json (stem image_file)
             (JObj [("image_name", JStr (path_name image_file));
                    ("keypoints", JArr keypoints)]) f))
  ∨ ((∀ coords, floats_of (String.words (str_strip content)) = Ok coords →
                length coords ≠ 136%nat)
     ∧ ∃ line, convert_txt_to_json content image_file f = (false, line, f)).
Proof.
  unfold convert_txt_to_json.
  destruct (floats_of _) as [coords|e] eqn:Hfl.
  - case_decide as Hlen.
    + right. split; [by intros ? [= <-]|by eexists].
    + left.
      destruct (convert_keypoints_ok coords (seq 0 68)) as [kps Hkps].
      { intros i Hi%elem_of_seq. lia. }
      rewrite Hkps. by exists coords, kps.
  - right. split; [done|by eexists].
Qed.

(** X17.  For a text file whose tokens are all plain decimal numbers, the
    converter answers [True] exactly when there are 136 of them, and when
    it answers [False] no file has changed.  Whenever it answers [True] it
    has written the structured file of the image and nothing else: every
    text file and every other structured file is as before. *)
Theorem converter_outcome (content : string) (image_file : image_path)
    (f : filesystem) :
  (∀ coords, floats_of (String.words (str_strip content)) = Ok coords →
     ((convert_txt_to_json content image_file f).1.1 = true
      ↔ length coords = 136%nat)
     ∧ ((convert_txt_to_json content image_file f).1.1 = false →
        (convert_txt_to_json content image_file f).2 = f))
  ∧ ((convert_txt_to_json content image_file f).1.1 = true →
     txt_files (convert_txt_to_json content image_file f).2 = txt_files f
     ∧ is_Some (json_files (convert_txt_to_json content image_file f).2
                  !! stem image_file)
     ∧ ∀ name, name ≠ stem image_file →
         json_files (convert_txt_to_json content image_file f).2 !! name
         = json_files f !! name).
Proof.
  destruct (convert_txt_to_json_cases content image_file f)
    as [(coords & kps & Hfl & Hlen & _ & ->)|(Hbad & line & ->)]; cbn [fst snd].
  - split.
    + intros coords' Hfl'. rewrite Hfl in Hfl'. injection Hfl' as <-. done.
    + intros _. split; [done|]. cbn [write_json json_files txt_files].
      split; [rewrite lookup_insert_eq; by eexists|].
      intros name Hname. by rewrite lookup_insert_ne.
  - split; [|done].
    intros coords Hfl. split; [|done].
    split; [done|]. intros Hlen. by destruct (Hbad coords Hfl).
Qed.

Lemma converter_outcome_witness :
  ((convert_txt_to_json (str_join " " (txt_coords only_point_one)) face no_files).1.1
   = true
   ↔ length (flat_map (λ id, [(saved_pair only_point_one id).1;
                               (saved_pair only_point_one id).2]) (seqZ 1 68))
     = 136%nat)
  ∧ txt_files
      (convert_txt_to_json (str_join " " (txt_coords only_point_one)) face no_files).2
    = txt_files no_files.
Proof.
  destruct (converter_outcome (str_join " " (txt_coords only_point_one)) face
              no_files) as [Hplain Hframe].
  split.
  - apply (Hplain _ (floats_of_saved_text only_point_one)).
  - apply Hframe, (Hplain _ (floats_of_saved_text only_point_one)).
    by rewrite length_flat_map_pair, length_seqZ.
Defined.

Lemma seqZ_1_68 : seqZ 1 68 = map (λ i : nat, Z.of_nat i + 1) (seq 0 68).
Proof. reflexivity. Qed.

Lemma json_keypoints_saved_pairs (d : store) (id : Z) :
  (let '(ratio_x, ratio_y) := default unset (d !! KInt id) in
   JObj [("id", JNum (qc id 1));
         ("x", JNum (round6 ratio_x));
         ("y", JNum (round6 ratio_y))])
  = point_record id (round6 (saved_pair d id).1) (round6 (saved_pair d id).2).
Proof.
  unfold saved_pair, point_record.
  destruct (d !! KInt id) as [[x y]|]; cbn [default from_option unset fst snd].
  - by rewrite !round6_idemp.
  - reflexivity.
Qed.

(** X18.  Converting a text file that the tool saved gives the structured
    file the tool would have saved itself.  For any window and image, the
    converter run on the text that [_save_txt_annotations] writes answers
    [True] and leaves the files exactly as [_save_json_annotations] leaves
    them. *)
Theorem converting_a_saved_file (w : MainWindow) (image : image_path) :
  txt_files (disk (save_txt_annotations image w)) !! stem image
  = Some (str_join " " (txt_coords (keypoints_data w)))
  ∧ convert_txt_to_json (str_join " " (txt_coords (keypoints_data w))) image (disk w)
    = (true, Printed ("  ✓ 成功转换: " +:+ stem image +:+ ".json"),
       disk (save_json_annotations image w)).
Proof.
  split; [apply lookup_insert_eq|].
  unfold convert_txt_to_json. rewrite floats_of_saved_text.
  rewrite decide_False
    by (intros Hne; apply Hne; by rewrite length_flat_map_pair, length_seqZ).
  rewrite (convert_keypoints_records _ _
             (λ i, saved_pair (keypoints_data w) (Z.of_nat i + 1))).
  - do 2 f_equal. unfold save_json_annotations. cbn [disk set_status set_disk].
    do 6 f_equal. unfold json_keypoints. rewrite seqZ_1_68, map_map.
    apply map_ext. intros i. symmetry. apply json_keypoints_saved_pairs.
  - intros i Hi%elem_of_seq.
    destruct (flat_map_pair_lookup (saved_pair (keypoints_data w)) (seqZ 1 68) i)
      as [-> ->].
    rewrite lookup_seqZ_lt by lia. cbn [fmap option_fmap option_map compose].
    by replace (1 + Z.of_nat i) with (Z.of_nat i + 1) by lia.
Qed.

(** ** Switching the annotation format *)

(** The store a load produces depends on the active format, the image size
    and the file of the image in that format, and on nothing else. *)
Lemma load_annotations_store_ext (image : image_path) (a b : MainWindow) :
  annotation_format a = annotation_format b →
  image_size a = image_size b →
  match annotation_format a with
  | FmtTxt => txt_files (disk a) !! stem image = txt_files (disk b) !! stem image
  | FmtJson => json_files (disk a) !! stem image = json_files (disk b) !! stem image
  end →
  keypoints_data (load_annotations image a) = keypoints_data (load_annotations image b).
Proof.
  intros Hfmt Hsz Hfile. rewrite !keypoints_data_load_annotations, <- Hfmt, <- Hsz.
  destruct (annotation_format a); by rewrite Hfile.
Qed.

(** Saving in one format leaves the files of the other format alone. *)
Lemma save_annotations_other_format (w : MainWindow) :
  match annotation_format w with
  | FmtTxt => json_files (disk (save_annotations w)) = json_files (disk w)
  | FmtJson => txt_files (disk (save_annotations w)) = txt_files (disk w)
  end.
Proof.
  rewrite save_annotations_unfold. destruct (current_image w).
  - destruct (sorted_raises _); by destruct (annotation_format w).
  - by destruct (annotation_format w).
Qed.

Lemma toggle_annotation_format_unfold (reply : bool) (w : MainWindow)
    (image : image_path) :
  current_image w = Some image →
  negb (bool_decide (keypoints_data w = ∅)) && (auto_save w || reply)
    && raises save_annotations_call w = false →
  ∃ w1 t,
    (keypoints_data w ≠ ∅ → auto_save w = true ∨ reply = true →
       w1 = save_annotations w ∧ raises save_annotations_call w = false)
    ∧ (keypoints_data w = ∅ ∨ (auto_save w = false ∧ reply = false) → w1 = w)
    ∧ (w1 = save_annotations w ∨ w1 = w)
    ∧ toggle_annotation_format reply w
      = load_annotations image
          (set_status t
             (set_annotation_format
                match annotation_format w with
                | FmtTxt => FmtJson
                | FmtJson => FmtTxt
                end w1))
    ∧ raises (toggle_annotation_format_call reply) w
      = sorted_raises (keypoints_data (toggle_annotation_format reply w)).
Proof.
  intros Hcur Hok. pose proof (current_image_index_nonneg w image Hcur) as Hidx.
  destruct (toggle_annotation_format_run reply w) as [Hw Hr].
  cbv zeta in Hw, Hr. rewrite Hw, Hr. clear Hw Hr.
  rewrite (bool_decide_true (0 <= current_image_index w)) by done.
  cbn [andb]. rewrite Hok, Hcur. cbn [orb].
  exists (if negb (bool_decide (keypoints_data w = ∅)) && (auto_save w || reply)
          then save_annotations w else w),
         match annotation_format w with
         | FmtTxt => "标注格式已切换为 JSON"
         | FmtJson => "标注格式已切换为 TXT"
         end.
  split; [|split; [|split; [|split; reflexivity]]].
  - intros Hne Hyes. rewrite (bool_decide_false (keypoints_data w = ∅)) in * by done.
    replace (auto_save w || reply) with true in *
      by (destruct Hyes as [-> | ->]; by rewrite ?orb_true_r).
    done.
  - intros [Hempty|[-> ->]].
    + by rewrite (bool_decide_true (keypoints_data w = ∅)).
    + by rewrite andb_false_r.
  - clear Hok. destruct (negb _ && _); auto.
Qed.

Lemma toggle_annotation_format_returns (reply : bool) (w : MainWindow) :
  raises (toggle_annotation_format_call reply) w = false →
  negb (bool_decide (keypoints_data w = ∅)) && (auto_save w || reply)
    && raises save_annotations_call w = false.
Proof.
  destruct (toggle_annotation_format_run reply w) as [_ Hr]. cbv zeta in Hr.
  rewrite Hr. intros [Hsave _]%orb_false_elim.
  destruct (raises save_annotations_call w) eqn:Hraise; [|by rewrite andb_false_r].
  rewrite raises_save_annotations in Hraise.
  destruct (current_image w) as [image|] eqn:Hcur; [|done].
  rewrite (bool_decide_true (0 <= current_image_index w)) in Hsave
    by by eapply current_image_index_nonneg.
  by rewrite andb_true_r in Hsave |- *.
Qed.

(** X19.  Switching the annotation format and switching back amounts to a
    save and a reload in the original format, when neither switch is ended
    by an exception.  With an image open and a store that is not empty,
    when auto-save is on or the operator answers Yes to the first question,
    the store after the two switches is the one obtained by saving and
    loading again in the original format (whatever the files of the other
    format hold and whatever is answered the second time), and the format
    is the original one.  When the store is empty, or auto-save is off and
    the operator answers No, the two switches bring back what the file of
    the original format holds: edits that were not saved are gone. *)
Theorem switching_format_twice (w : MainWindow) (image : image_path)
    (reply1 reply2 : bool) :
  current_image w = Some image →
  raises (toggle_annotation_format_call reply1) w = false →
  raises (toggle_annotation_format_call reply2)
    (toggle_annotation_format reply1 w) = false →
  annotation_format
    (toggle_annotation_format reply2 (toggle_annotation_format reply1 w))
  = annotation_format w
  ∧ (keypoints_data w ≠ ∅ → auto_save w = true ∨ reply1 = true →
     keypoints_data
       (toggle_annotation_format reply2 (toggle_annotation_format reply1 w))
     = keypoints_data (load_annotations image (save_annotations w)))
  ∧ (keypoints_data w = ∅ ∨ (auto_save w = false ∧ reply1 = false) →
     keypoints_data
       (toggle_annotation_format reply2 (toggle_annotation_format reply1 w))
     = keypoints_data (load_annotations image w)).
Proof.
  intros Hcur Hret1 Hret2.
  destruct (toggle_annotation_format_unfold reply1 w image Hcur
              (toggle_annotation_format_returns _ _ Hret1))
    as (w1 & t1 & Hsaved & Hkept & Hw1 & Heq1 & _).
  set (wa := toggle_annotation_format reply1 w) in *.
  assert (settings w1 = settings w) as Hset1.
  { destruct Hw1 as [-> | ->]; [apply save_annotations_settings|done]. }
  injection Hset1 as Hf1 Hi1 _ Hfmt1 _ Hsz1.
  assert (settings wa
          = settings (set_status t1
               (set_annotation_format
                  match annotation_format w with
                  | FmtTxt => FmtJson
                  | FmtJson => FmtTxt
                  end w1))) as Hseta
    by (rewrite Heq1; apply load_annotations_settings).
  injection Hseta as Hfa Hia _ Hfmta _ Hsza. cbn in Hfa, Hia, Hfmta, Hsza.
  assert (disk wa = disk w1) as Hdiska
    by (rewrite Heq1, load_annotations_disk; reflexivity).
  assert (current_image wa = Some image) as Hcura.
  { rewrite <- Hcur. apply current_image_ext; congruence. }
  destruct (toggle_annotation_format_unfold reply2 wa image Hcura
              (toggle_annotation_format_returns _ _ Hret2))
    as (w2 & t2 & _ & _ & Hw2 & Heq2 & _).
  rewrite Heq2, Hfmta.
  assert (settings w2 = settings wa) as Hset2.
  { destruct Hw2 as [-> | ->]; [apply save_annotations_settings|done]. }
  injection Hset2 as _ _ _ _ _ Hsz2.
  (* the files of the original format are those of [w1] *)
  assert (match annotation_format w with
          | FmtTxt => txt_files (disk w2) = txt_files (disk w1)
          | FmtJson => json_files (disk w2) = json_files (disk w1)
          end) as Hfiles.
  { destruct Hw2 as [-> | ->].
    - pose proof (save_annotations_other_format wa) as Hother.
      rewrite Hfmta in Hother. rewrite <- Hdiska.
      by destruct (annotation_format w).
    - rewrite Hdiska. by destruct (annotation_format w). }
  assert (∀ w0, w1 = w0 →
            keypoints_data
              (load_annotations image
                 (set_status t2
                    (set_annotation_format
                       match match annotation_format w with
                             | FmtTxt => FmtJson
                             | FmtJson => FmtTxt
                             end with
                       | FmtTxt => FmtJson
                       | FmtJson => FmtTxt
                       end w2)))
            = keypoints_data (load_annotations image w0)) as Hstore.
  { intros w0 <-. apply load_annotations_store_ext.
    - cbn. rewrite Hfmt1. by destruct (annotation_format w).
    - cbn. congruence.
    - cbn. destruct (annotation_format w); cbn; by rewrite Hfiles. }
  split; [|split].
  - pose proof (load_annotations_settings image
                  (set_status t2
                     (set_annotation_format
                        match match annotation_format w with
                              | FmtTxt => FmtJson
                              | FmtJson => FmtTxt
                              end with
                        | FmtTxt => FmtJson
                        | FmtJson => FmtTxt
                        end w2))) as [= _ _ _ Hfmt _ _].
    rewrite Hfmt. cbn. by destruct (annotation_format w).
  - intros Hne Hyes. apply Hstore. by apply Hsaved.
  - intros Hno. apply Hstore. by apply Hkept.
Qed.

Lemma switching_format_twice_witness :
  annotation_format
    (toggle_annotation_format true
       (toggle_annotation_format true
          (set_keypoints_data only_point_one sample_window)))
  = FmtTxt
  ∧ keypoints_data
      (toggle_annotation_format true
         (toggle_annotation_format true
            (set_keypoints_data only_point_one sample_window)))
    = keypoints_data
        (load_annotations face
           (save_annotations (set_keypoints_data only_point_one sample_window)))
  ∧ keypoints_data
      (toggle_annotation_format false (toggle_annotation_format false sample_window))
    = keypoints_data (load_annotations face sample_window).
Proof.
  destruct (switching_format_twice
              (set_keypoints_data only_point_one sample_window) face true true)
    as (Hfmt & Hsaved & _); [reflexivity|vm_compute; reflexivity..|].
  destruct (switching_format_twice sample_window face false false)
    as (_ & _ & Hkept); [reflexivity|vm_compute; reflexivity..|].
  split; [exact Hfmt|]. split.
  - apply Hsaved.
    + unfold only_point_one. cbn [keypoints_data set_keypoints_data].
      apply insert_non_empty.
    + left. reflexivity.
  - apply Hkept. left. reflexivity.
Defined.

(** X20.  Switching the format does not carry the points over.  With an
    image open that has no annotation file in the format switched to, and
    a store whose keys can be sorted (so that a save before the switch is
    not ended by an exception), the switch returns, the store is empty
    after it and no dialog is shown, whatever the store held; both history
    stacks are as before the switch. *)
Theorem switching_format_does_not_convert (w : MainWindow) (image : image_path)
    (reply : bool) :
  current_image w = Some image →
  sorted_raises (keypoints_data w) = false →
  match annotation_format w with
  | FmtTxt => json_files (disk w) !! stem image = None
  | FmtJson => txt_files (disk w) !! stem image = None
  end →
  raises (toggle_annotation_format_call reply) w = false
  ∧ keypoints_data (toggle_annotation_format reply w) = ∅
  ∧ dialogs (toggle_annotation_format reply w) = dialogs w
  ∧ undo_stack (toggle_annotation_format reply w) = undo_stack w
  ∧ redo_stack (toggle_annotation_format reply w) = redo_stack w.
Proof.
  intros Hcur Hsorted Hnone.
  assert (raises save_annotations_call w = false) as Hsave
    by by rewrite raises_save_annotations, Hcur.
  destruct (toggle_annotation_format_unfold reply w image Hcur)
    as (w1 & t & _ & _ & Hw1 & Heq & Hraises).
  { by rewrite Hsave, andb_false_r. }
  rewrite Hraises, Heq. clear Hraises Heq.
  assert (history w1 = history w ∧ dialogs w1 = dialogs w) as [[= _ Hu Hr] Hdl].
  { destruct Hw1 as [-> | ->]; [|done].
    split; [apply save_annotations_history|apply save_annotations_dialogs]. }
  assert (match annotation_format w with
          | FmtTxt => json_files (disk w1) !! stem image = None
          | FmtJson => txt_files (disk w1) !! stem image = None
          end) as Hnone1.
  { destruct Hw1 as [-> | ->]; [|done].
    pose proof (save_annotations_other_format w) as Hother.
    destruct (annotation_format w); by rewrite Hother. }
  unfold load_annotations.
  cbn [annotation_format set_keypoints_data set_status set_annotation_format disk].
  destruct (annotation_format w); rewrite Hnone1; cbn; by rewrite Hu, Hr, Hdl.
Qed.

Lemma switching_format_does_not_convert_witness :
  raises (toggle_annotation_format_call true)
    (set_keypoints_data only_point_one sample_window) = false
  ∧ keypoints_data
      (toggle_annotation_format true (set_keypoints_data only_point_one sample_window))
    = ∅
  ∧ dialogs
      (toggle_annotation_format true (set_keypoints_data only_point_one sample_window))
    = dialogs (set_keypoints_data only_point_one sample_window)
  ∧ undo_stack
      (toggle_annotation_format true (set_keypoints_data only_point_one sample_window))
    = undo_stack (set_keypoints_data only_point_one sample_window)
  ∧ redo_stack
      (toggle_annotation_format true (set_keypoints_data only_point_one sample_window))
    = redo_stack (set_keypoints_data only_point_one sample_window).
Proof.
  apply (switching_format_does_not_convert
           (set_keypoints_data only_point_one sample_window) face true);
    reflexivity.
Defined.

(** X21.  What a switch of format writes.  With an image open, the switch
    writes at most one file, the annotation file of the current image in
    the format that was active before the switch: when the store is not
    empty and auto-save is on or the operator answers Yes, the files
    afterwards are those an explicit save leaves; when the store is empty
    (even with auto-save on), or auto-save is off and the operator answers
    No, no file changes.  With no image open nothing is written either. *)
Theorem switching_format_writes (w : MainWindow) (reply : bool) :
  (∀ image, current_image w = Some image →
     keypoints_data w ≠ ∅ → auto_save w = true ∨ reply = true →
     disk (toggle_annotation_format reply w) = disk (save_annotations w))
  ∧ (keypoints_data w = ∅ ∨ (auto_save w = false ∧ reply = false) →
     disk (toggle_annotation_format reply w) = disk w)
  ∧ (current_image w = None →
     disk (toggle_annotation_format reply w) = disk w).
Proof.
  destruct (toggle_annotation_format_run reply w) as [Hw _]. cbv zeta in Hw.
  rewrite Hw. clear Hw.
  assert (∀ w1, disk (match current_image w with
                      | Some image_path => load_annotations image_path w1
                      | None => w1
                      end) = disk w1) as Hload.
  { intros w1. destruct (current_image w); [apply load_annotations_disk|done]. }
  split; [|split].
  - intros image Hcur Hne Hyes.
    rewrite (bool_decide_true (0 <= current_image_index w))
      by by eapply current_image_index_nonneg.
    rewrite (bool_decide_false (keypoints_data w = ∅)) by done.
    replace (auto_save w || reply) with true
      by (destruct Hyes as [-> | ->]; by rewrite ?orb_true_r).
    cbn [andb negb].
    destruct (raises save_annotations_call w) eqn:Hraise.
    + by rewrite save_annotations_raised.
    + cbv iota. by rewrite Hload.
  - intros Hno.
    replace (bool_decide (0 <= current_image_index w)
             && negb (bool_decide (keypoints_data w = ∅))
             && (auto_save w || reply)) with false.
    + cbn [andb]. cbv iota. by rewrite Hload.
    + destruct Hno as [Hempty|[-> ->]].
      * rewrite (bool_decide_true (keypoints_data w = ∅)) by done.
        by rewrite andb_false_r.
      * by rewrite andb_false_r.
  - intros Hnone.
    assert (save_annotations w = w) as Hsave
      by by rewrite save_annotations_unfold, Hnone.
    destruct (_ && _ && raises _ _); [done|].
    rewrite Hload. cbn [disk set_status set_annotation_format].
    destruct (_ && _ && _); by rewrite ?Hsave.
Qed.

Lemma switching_format_writes_witness :
  disk (toggle_annotation_format false
          (set_keypoints_data only_point_one sample_window))
  = disk (save_annotations (set_keypoints_data only_point_one sample_window))
  ∧ disk (toggle_annotation_format false sample_window) = disk sample_window
  ∧ disk (toggle_annotation_format true init_window) = disk init_window.
Proof.
  destruct (switching_format_writes
              (set_keypoints_data only_point_one sample_window) false)
    as (Hsaved & _ & _).
  destruct (switching_format_writes sample_window false) as (_ & Hkept & _).
  destruct (switching_format_writes init_window true) as (_ & _ & Hnone).
  split; [|split].
  - apply (Hsaved face).
    + reflexivity.
    + unfold only_point_one. cbn [keypoints_data set_keypoints_data].
      apply insert_non_empty.
    + left. reflexivity.
  - apply Hkept. left. reflexivity.
  - apply Hnone. reflexivity.
Defined.

(** ** Moving between images *)

Lemma load_current_image_Some (sz : Qc * Qc) (w : MainWindow) (image : image_path) :
  current_image w = Some image →
  raises (load_current_image_call sz) w = false →
  load_current_image sz w
  = set_redo_stack []
      (set_undo_stack [] (load_annotations image (set_image_size (Some sz) w))).
Proof.
  intros Hcur. destruct (load_current_image_run sz w) as [-> ->].
  rewrite Hcur. cbv zeta. by intros ->.
Qed.

Lemma load_current_image_disk (sz : Qc * Qc) (w : MainWindow) :
  disk (load_current_image sz w) = disk w.
Proof.
  destruct (load_current_image_run sz w) as [-> _].
  destruct (current_image w); [|done]. cbv zeta.
  destruct (sorted_raises _); cbn [disk set_redo_stack set_undo_stack];
    by rewrite load_annotations_disk.
Qed.

Lemma load_current_image_index (sz : Qc * Qc) (w : MainWindow) :
  image_files (load_current_image sz w) = image_files w
  ∧ current_image_index (load_current_image sz w) = current_image_index w
  ∧ auto_save (load_current_image sz w) = auto_save w
  ∧ annotation_format (load_current_image sz w) = annotation_format w.
Proof.
  destruct (load_current_image_run sz w) as [-> _].
  destruct (current_image w) as [image|]; [|done]. cbv zeta.
  pose proof (load_annotations_settings image (set_image_size (Some sz) w))
    as [= Hf Hi Ha Hfmt _ _].
  by destruct (sorted_raises _).
Qed.

Lemma current_image_lookup (w : MainWindow) (i : Z) (image : image_path) :
  0 <= i →
  image_files w !! Z.to_nat i = Some image →
  ∀ w', image_files w' = image_files w → current_image_index w' = i →
        current_image w' = Some image.
Proof.
  intros Hi Hl w' Hf Hidx. unfold current_image. rewrite Hf, Hidx.
  apply lookup_lt_Some in Hl as Hlt. by rewrite decide_False by lia.
Qed.

Lemma current_image_lookup_inv (w : MainWindow) (image : image_path) :
  current_image w = Some image →
  0 <= current_image_index w
  ∧ image_files w !! Z.to_nat (current_image_index w) = Some image.
Proof. unfold current_image. case_decide; [done|]. intros Hl. split; [lia|done]. Qed.

Lemma auto_saved_settings (w : MainWindow) :
  settings (if auto_save w then save_annotations w else w) = settings w.
Proof. destruct (auto_save w); [apply save_annotations_settings|done]. Qed.

(** A move that returns: the save before it (if any) and the load after it
    have both returned. *)
Lemma next_image_unfold (sz : Qc * Qc) (w : MainWindow) (image' : image_path) :
  0 <= current_image_index w + 1 →
  image_files w !! Z.to_nat (current_image_index w + 1) = Some image' →
  raises (next_image_call sz) w = false →
  next_image sz w
  = set_redo_stack []
      (set_undo_stack []
         (load_annotations image'
            (set_image_size (Some sz)
               (set_current_image_index (current_image_index w + 1)
                  (if auto_save w then save_annotations w else w)))))
  ∧ (auto_save w = true → raises save_annotations_call w = false).
Proof.
  intros Hi Hl. apply lookup_lt_Some in Hl as Hlt.
  destruct (next_image_run sz w) as [-> ->]. cbv zeta.
  rewrite !decide_True by lia.
  intros [Hsave Hload]%orb_false_elim. rewrite Hsave.
  pose proof (auto_saved_settings w) as [= Hf Hidx _ _ _ _].
  split.
  - apply load_current_image_Some; [|done].
    by apply (current_image_lookup w (current_image_index w + 1)).
  - intros Hauto. by rewrite Hauto in Hsave.
Qed.

Lemma previous_image_unfold (sz : Qc * Qc) (w : MainWindow) (image' : image_path) :
  0 < current_image_index w →
  image_files w !! Z.to_nat (current_image_index w - 1) = Some image' →
  raises (previous_image_call sz) w = false →
  previous_image sz w
  = set_redo_stack []
      (set_undo_stack []
         (load_annotations image'
            (set_image_size (Some sz)
               (set_current_image_index (current_image_index w - 1)
                  (if auto_save w then save_annotations w else w)))))
  ∧ (auto_save w = true → raises save_annotations_call w = false).
Proof.
  intros Hi Hl.
  destruct (previous_image_run sz w) as [-> ->]. cbv zeta.
  rewrite !decide_True by lia.
  intros [Hsave Hload]%orb_false_elim. rewrite Hsave.
  pose proof (auto_saved_settings w) as [= Hf Hidx _ _ _ _].
  split.
  - apply load_current_image_Some; [|done].
    apply (current_image_lookup w (current_image_index w - 1)); [lia|done..].
  - intros Hauto. by rewrite Hauto in Hsave.
Qed.

(** X22.  Moving to another image empties the history.  [next_image] does
    nothing on the last image and [previous_image] nothing on the first (no
    file is written, the store and the stacks stay).  When there is an
    image to move to and the move is not ended by an exception, the index
    moves by exactly one, both stacks are empty afterwards, and an undo
    right after the move leaves the store of the new image as it is. *)
Theorem moving_empties_the_history (w : MainWindow) (sz : Qc * Qc) :
  (Z.of_nat (length (image_files w)) - 1 <= current_image_index w →
   next_image sz w = w)
  ∧ (current_image_index w <= 0 → previous_image sz w = w)
  ∧ (-1 <= current_image_index w < Z.of_nat (length (image_files w)) - 1 →
     raises (next_image_call sz) w = false →
     current_image_index (next_image sz w) = current_image_index w + 1
     ∧ history (undo (next_image sz w))
       = (keypoints_data (next_image sz w), [], []))
  ∧ (0 < current_image_index w <= Z.of_nat (length (image_files w)) →
     raises (previous_image_call sz) w = false →
     current_image_index (previous_image sz w) = current_image_index w - 1
     ∧ history (undo (previous_image sz w))
       = (keypoints_data (previous_image sz w), [], [])).
Proof.
  assert (∀ w' d, w' = set_redo_stack [] (set_undo_stack [] d) →
            history (undo w') = (keypoints_data w', [], [])) as Hundo.
  { intros w' d ->. by rewrite undo_empty. }
  split; [|split; [|split]].
  - intros Hlast. destruct (next_image_run sz w) as [-> _].
    by rewrite decide_False by lia.
  - intros Hfirst. destruct (previous_image_run sz w) as [-> _].
    by rewrite decide_False by lia.
  - intros Hi Hret.
    destruct (lookup_lt_is_Some_2 (image_files w)
                (Z.to_nat (current_image_index w + 1))) as [image' Hl]; [lia|].
    destruct (next_image_unfold sz w image' ltac:(lia) Hl Hret) as [Heq _].
    split; [|by eapply Hundo].
    rewrite Heq. cbn [current_image_index set_redo_stack set_undo_stack].
    by pose proof (load_annotations_settings image'
                     (set_image_size (Some sz)
                        (set_current_image_index (current_image_index w + 1)
                           (if auto_save w then save_annotations w else w))))
      as [= _ -> _ _ _ _].
  - intros Hi Hret.
    destruct (lookup_lt_is_Some_2 (image_files w)
                (Z.to_nat (current_image_index w - 1))) as [image' Hl]; [lia|].
    destruct (previous_image_unfold sz w image' ltac:(lia) Hl Hret) as [Heq _].
    split; [|by eapply Hundo].
    rewrite Heq. cbn [current_image_index set_redo_stack set_undo_stack].
    by pose proof (load_annotations_settings image'
                     (set_image_size (Some sz)
                        (set_current_image_index (current_image_index w - 1)
                           (if auto_save w then save_annotations w else w))))
      as [= _ -> _ _ _ _].
Qed.

Lemma moving_empties_the_history_witness :
  current_image_index (next_image (qc 640 1, qc 480 1) two_image_window)
  = current_image_index two_image_window + 1
  ∧ history (undo (next_image (qc 640 1, qc 480 1) two_image_window))
    = (keypoints_data (next_image (qc 640 1, qc 480 1) two_image_window), [], []).
Proof.
  destruct (moving_empties_the_history two_image_window (qc 640 1, qc 480 1))
    as (_ & _ & Hnext & _).
  apply Hnext.
  - cbn. lia.
  - vm_compute. reflexivity.
Defined.

(** The store a load produces, for two images and two windows that agree on
    the format, the image size and the content of the annotation file. *)
Lemma load_annotations_store_ext2 (image image' : image_path) (a b : MainWindow) :
  annotation_format a = annotation_format b →
  image_size a = image_size b →
  match annotation_format a with
  | FmtTxt => txt_files (disk a) !! stem image = txt_files (disk b) !! stem image'
  | FmtJson => json_files (disk a) !! stem image = json_files (disk b) !! stem image'
  end →
  keypoints_data (load_annotations image a) = keypoints_data (load_annotations image' b).
Proof.
  intros Hfmt Hsz Hfile. rewrite !keypoints_data_load_annotations, <- Hfmt, <- Hsz.
  destruct (annotation_format a); by rewrite Hfile.
Qed.

(** A save leaves the annotation files of every other stem alone. *)
Lemma save_annotations_other_stem (w : MainWindow) (image : image_path) (name : string) :
  current_image w = Some image →
  name ≠ stem image →
  txt_files (disk (save_annotations w)) !! name = txt_files (disk w) !! name
  ∧ json_files (disk (save_annotations w)) !! name = json_files (disk w) !! name.
Proof.
  intros Hcur Hname. rewrite save_annotations_unfold, Hcur.
  destruct (sorted_raises _); [done|].
  destruct (annotation_format w);
    cbn [save_txt_annotations save_json_annotations disk set_status set_disk
         write_txt write_json txt_files json_files];
    by rewrite lookup_insert_ne.
Qed.

(** X23.  Going to the next image and back (both pictures readable), when
    neither move is ended by an exception.  With auto-save on and the two
    images having different file stems, the store shown on return is the
    one obtained by saving and loading again, when the picture has the size
    it had before.  With auto-save off the store shown on return is what
    the annotation file of the image holds, and no file has changed: edits
    that were not saved are gone. *)
Theorem next_then_previous (w : MainWindow) (image image' : image_path)
    (sz sz' : Qc * Qc) :
  current_image w = Some image →
  image_files w !! Z.to_nat (current_image_index w + 1) = Some image' →
  image_size w = Some sz →
  raises (next_image_call sz') w = false →
  raises (previous_image_call sz) (next_image sz' w) = false →
  current_image_index (previous_image sz (next_image sz' w)) = current_image_index w
  ∧ (auto_save w = true → stem image' ≠ stem image →
     keypoints_data (previous_image sz (next_image sz' w))
     = keypoints_data (load_annotations image (save_annotations w)))
  ∧ (auto_save w = false →
     keypoints_data (previous_image sz (next_image sz' w))
     = keypoints_data (load_annotations image w)
     ∧ disk (previous_image sz (next_image sz' w)) = disk w).
Proof.
  intros Hcur Hnext Hsz Hret1 Hret2.
  destruct (current_image_lookup_inv w image Hcur) as [Hidx Hl].
  set (w1 := if auto_save w then save_annotations w else w).
  assert (settings w1 = settings w) as Hset1 by apply auto_saved_settings.
  pose proof Hset1 as [= Hf1 Hi1 Ha1 Hfmt1 _ Hsz1].
  destruct (next_image_unfold sz' w image' ltac:(lia) Hnext Hret1) as [HN _].
  fold w1 in HN.
  set (wN := next_image sz' w) in *.
  pose proof (load_annotations_settings image'
                (set_image_size (Some sz')
                   (set_current_image_index (current_image_index w + 1) w1)))
    as [= HfN HiN HaN HfmtN _ _].
  pose proof (load_annotations_disk image'
                (set_image_size (Some sz')
                   (set_current_image_index (current_image_index w + 1) w1)))
    as HdN.
  assert (image_files wN = image_files w) as HfN'
    by (rewrite HN; cbn; rewrite HfN; exact Hf1).
  assert (current_image_index wN = current_image_index w + 1) as HiN'
    by (rewrite HN; cbn; rewrite HiN; reflexivity).
  assert (auto_save wN = auto_save w) as HaN'
    by (rewrite HN; cbn; rewrite HaN; exact Ha1).
  assert (annotation_format wN = annotation_format w) as HfmtN'
    by (rewrite HN; cbn; rewrite HfmtN; exact Hfmt1).
  assert (disk wN = disk w1) as HdN'
    by (rewrite HN; cbn; rewrite HdN; reflexivity).
  assert (current_image wN = Some image') as HcurN.
  { apply (current_image_lookup w (current_image_index w + 1)); [lia|done..]. }
  assert (image_files wN !! Z.to_nat (current_image_index wN - 1) = Some image)
    as Hprev.
  { rewrite HfN', HiN'.
    by replace (current_image_index w + 1 - 1) with (current_image_index w) by lia. }
  destruct (previous_image_unfold sz wN image ltac:(lia) Hprev Hret2) as [HP _].
  set (w1' := if auto_save wN then save_annotations wN else wN) in *.
  assert (settings w1' = settings wN) as [= Hf1' Hi1' Ha1' Hfmt1' _ _]
    by apply auto_saved_settings.
  rewrite HP.
  split; [|split].
  - cbn [current_image_index set_redo_stack set_undo_stack].
    pose proof (load_annotations_settings image
                  (set_image_size (Some sz)
                     (set_current_image_index (current_image_index wN - 1) w1')))
      as [= _ Hi _ _ _ _].
    rewrite Hi. cbn. lia.
  - intros Hauto Hstem.
    cbn [keypoints_data set_redo_stack set_undo_stack].
    apply load_annotations_store_ext.
    + cbn. rewrite Hfmt1', HfmtN'. symmetry.
      by pose proof (save_annotations_settings w) as [= _ _ _ Hfmt _ _].
    + cbn. symmetry. rewrite <- Hsz.
      by pose proof (save_annotations_settings w) as [= _ _ _ _ _ Hs].
    + cbn [annotation_format disk set_image_size set_current_image_index].
      assert (w1 = save_annotations w) as Hw1 by (unfold w1; by rewrite Hauto).
      assert (w1' = save_annotations wN) as Hw1'
        by (unfold w1'; by rewrite HaN', Hauto).
      destruct (save_annotations_other_stem wN image' (stem image) HcurN)
        as [Htxt Hjson]; [done|].
      rewrite Hw1', Htxt, Hjson, HdN', Hw1.
      match goal with |- match ?x with _ => _ end => destruct x end; reflexivity.
  - intros Hauto.
    assert (w1 = w) as Hw1 by (unfold w1; by rewrite Hauto).
    assert (w1' = wN) as Hw1' by (unfold w1'; by rewrite HaN', Hauto).
    split.
    + cbn [keypoints_data set_redo_stack set_undo_stack].
      apply load_annotations_store_ext.
      * cbn. by rewrite Hfmt1', HfmtN'.
      * cbn. by rewrite Hsz.
      * cbn [annotation_format disk set_image_size set_current_image_index].
        rewrite Hw1', HdN', Hw1.
        match goal with |- match ?x with _ => _ end => destruct x end; reflexivity.
    + cbn [disk set_redo_stack set_undo_stack].
      rewrite load_annotations_disk.
      cbn [disk set_image_size set_current_image_index].
      by rewrite Hw1', HdN', Hw1.
Qed.

Lemma next_then_previous_witness :
  current_image_index
    (previous_image (qc 800 1, qc 600 1)
       (next_image (qc 640 1, qc 480 1) two_image_window))
  = current_image_index two_image_window
  ∧ keypoints_data
      (previous_image (qc 800 1, qc 600 1)
         (next_image (qc 640 1, qc 480 1) two_image_window))
    = keypoints_data (load_annotations face (save_annotations two_image_window)).
Proof.
  destruct (next_then_previous two_image_window face side
              (qc 800 1, qc 600 1) (qc 640 1, qc 480 1))
    as (Hidx & Hsaved & _); [reflexivity|reflexivity|reflexivity|
                             vm_compute; reflexivity..|].
  split; [exact Hidx|]. apply Hsaved; [reflexivity|]. cbn. discriminate.
Defined.

(** X24.  Two pictures whose names differ only in the extension share one
    annotation file.  With auto-save on, moving from a picture to the next
    one in the list when both have the same file stem (and the same size),
    the move not being ended by an exception, shows on the second picture
    the points of the first, as a save followed by a load gives them,
    whatever was annotated for the second before. *)
Theorem same_stem_shares_annotations (w : MainWindow) (image image' : image_path)
    (sz : Qc * Qc) :
  current_image w = Some image →
  image_files w !! Z.to_nat (current_image_index w + 1) = Some image' →
  stem image' = stem image →
  image_size w = Some sz →
  auto_save w = true →
  raises (next_image_call sz) w = false →
  current_image (next_image sz w) = Some image'
  ∧ keypoints_data (next_image sz w)
    = keypoints_data (load_annotations image (save_annotations w)).
Proof.
  intros Hcur Hnext Hstem Hsz Hauto Hret.
  destruct (current_image_lookup_inv w image Hcur) as [Hidx Hl].
  destruct (next_image_unfold sz w image' ltac:(lia) Hnext Hret) as [-> _].
  rewrite Hauto.
  pose proof (save_annotations_settings w) as [= Hf Hi _ Hfmt _ Hs].
  split.
  - apply (current_image_lookup w (current_image_index w + 1)); [lia|done|..].
    + cbn [image_files set_redo_stack set_undo_stack].
      pose proof (load_annotations_settings image'
                    (set_image_size (Some sz)
                       (set_current_image_index (current_image_index w + 1)
                          (save_annotations w)))) as [= Hf' _ _ _ _ _].
      rewrite Hf'. exact Hf.
    + cbn [current_image_index set_redo_stack set_undo_stack].
      pose proof (load_annotations_settings image'
                    (set_image_size (Some sz)
                       (set_current_image_index (current_image_index w + 1)
                          (save_annotations w)))) as [= _ Hi' _ _ _ _].
      rewrite Hi'. reflexivity.
  - cbn [keypoints_data set_redo_stack set_undo_stack].
    apply load_annotations_store_ext2.
    + reflexivity.
    + cbn. by rewrite Hs, Hsz.
    + cbn [annotation_format disk set_image_size set_current_image_index].
      rewrite Hstem.
      match goal with |- match ?x with _ => _ end => destruct x end; reflexivity.
Qed.

Lemma same_stem_shares_annotations_witness :
  current_image (next_image (qc 800 1, qc 600 1) same_stem_window) = Some face_png
  ∧ keypoints_data (next_image (qc 800 1, qc 600 1) same_stem_window)
    = keypoints_data (load_annotations face (save_annotations same_stem_window)).
Proof.
  apply (same_stem_shares_annotations same_stem_window face face_png
           (qc 800 1, qc 600 1)); reflexivity.
Defined.

(** ** Editing, then closing the window *)

Lemma settings_undo (w : MainWindow) : settings (undo w) = settings w.
Proof. unfold undo. by destruct (last (undo_stack w)). Qed.

Lemma settings_redo (w : MainWindow) : settings (redo w) = settings w.
Proof. unfold redo. by destruct (last (redo_stack w)). Qed.

Lemma settings_mutate (m : mutation) (w : MainWindow) :
  settings (mutate m w) = settings w.
Proof.
  destruct m as [kp x y|kp x y|row|id1 id2|[]]; cbn [mutate]; try done.
  - unfold on_keypoint_added. by destruct (pixel_to_ratio _ _ _).
  - unfold on_keypoint_moved. by destruct (pixel_to_ratio _ _ _).
  - unfold delete_selected_keypoint. case_decide; [|done].
    by destruct (keypoints_data w !! _).
Qed.

Lemma settings_run (cs : list command) (w : MainWindow) :
  settings (run cs w) = settings w.
Proof.
  revert w. induction cs as [|c cs IH]; intros w; [done|].
  cbn [run fold_left]. change (fold_left step cs ?x) with (run cs x).
  rewrite IH. destruct c; cbn [step];
    auto using settings_undo, settings_redo, settings_mutate.
Qed.

(** X25.  Edits reach the disk only through a save.  After any sequence of
    mutations, undos and redos, closing the window with auto-save off, or
    with no image open, leaves every file as it was before the first edit.
    Closing with auto-save on and an image open changes no file of any
    other image; when the keys of the store can be sorted (the debug print
    of [save_annotations] does not raise) it writes the annotation file of
    that image in the active format, from the store as it is when the
    window closes. *)
Theorem closing_after_edits (w : MainWindow) (cs : list command) :
  (auto_save w = false ∨ current_image w = None →
   disk (closeEvent (run cs w)) = disk w)
  ∧ (∀ image, auto_save w = true → current_image w = Some image →
       (sorted_raises (keypoints_data (run cs w)) = false →
        match annotation_format w with
        | FmtTxt =>
            txt_files (disk (closeEvent (run cs w))) !! stem image
            = Some (str_join " " (txt_coords (keypoints_data (run cs w))))
        | FmtJson =>
            json_files (disk (closeEvent (run cs w))) !! stem image
            = Some (Some (JObj [("image_name", JStr (path_name image));
                                ("keypoints",
                                 JArr (json_keypoints
                                         (keypoints_data (run cs w))))]))
        end)
       ∧ ∀ name, name ≠ stem image →
           txt_files (disk (closeEvent (run cs w))) !! name = txt_files (disk w) !! name
           ∧ json_files (disk (closeEvent (run cs w))) !! name
             = json_files (disk w) !! name).
Proof.
  pose proof (settings_run cs w) as [= Hf Hi Ha Hfmt _ _].
  assert (current_image (run cs w) = current_image w) as Hcur
    by (by apply current_image_ext).
  split.
  - intros Hno. rewrite closeEvent_unfold, Ha.
    destruct Hno as [Hauto|Hnone].
    + rewrite Hauto. cbn [andb]. apply disk_run.
    + destruct (_ && _); [|apply disk_run].
      rewrite save_annotations_unfold, Hcur, Hnone. apply disk_run.
  - intros image Hauto Himage.
    assert (closeEvent (run cs w) = save_annotations (run cs w)) as ->.
    { rewrite closeEvent_unfold, Ha, Hauto, Hi.
      rewrite bool_decide_true; [done|].
      by apply (current_image_index_nonneg w image). }
    split.
    + intros Hsorted.
      pose proof (save_annotations_writes (run cs w) image
                    ltac:(by rewrite Hcur) Hsorted) as Hw.
      by rewrite Hfmt in Hw.
    + intros name Hname.
      destruct (save_annotations_other_stem (run cs w) image name
                  ltac:(by rewrite Hcur) Hname) as [-> ->].
      by rewrite disk_run.
Qed.

Lemma closing_after_edits_witness :
  disk (closeEvent (run sample_commands (toggle_auto_save false sample_window)))
  = disk (toggle_auto_save false sample_window)
  ∧ txt_files (disk (closeEvent (run sample_commands sample_window))) !! "face"
    = Some (str_join " "
              (txt_coords (keypoints_data (run sample_commands sample_window)))).
Proof.
  destruct (closing_after_edits (toggle_auto_save false sample_window)
              sample_commands) as [Hoff _].
  destruct (closing_after_edits sample_window sample_commands) as [_ Hon].
  split.
  - apply Hoff. left. reflexivity.
  - apply (Hon face); reflexivity.
Defined.

(** ** The reference view *)

(** X26.  The minimum size given to the reference view is always within
    200..500 pixels wide and 300..600 pixels high, whatever the size of the
    reference picture; the height is 400 unless the width was clamped to
    200 or to 500.  No size is set exactly when the view reports no size or
    a width or height of zero. *)
Theorem reference_view_size_bounds (img_size : option (Qc * Qc)) :
  (∀ optimal_height optimal_width,
     reference_view_size img_size = Some (optimal_height, optimal_width) →
     200 <= optimal_width <= 500
     ∧ 300 <= optimal_height <= 600
     ∧ (optimal_height = 400 ∨ optimal_width = 200 ∨ optimal_width = 500))
  ∧ (reference_view_size img_size = None
     ↔ img_size = None
       ∨ ∃ img_width img_height, img_size = Some (img_width, img_height)
                                 ∧ (img_width = q0 ∨ img_height = q0)).
Proof.
  unfold reference_view_size. split.
  - intros h w'. destruct img_size as [[iw ih]|]; [|done].
    destruct (_ && _); [|done]. cbv zeta.
    set (ow := Z.max 200 (Z.min 500 _)).
    intros [= <- <-].
    assert (200 <= ow <= 500) as How by (unfold ow; lia).
    split; [done|].
    destruct (bool_decide (ow = 500) || bool_decide (ow = 200)) eqn:Hc.
    + split; [lia|]. right.
      apply orb_true_iff in Hc as [Hc|Hc]; apply bool_decide_eq_true in Hc; auto.
    + split; [lia|]. left. lia.
  - destruct img_size as [[iw ih]|].
    + destruct (bool_decide (iw = q0)) eqn:Hw; cbn [negb andb].
      { apply bool_decide_eq_true in Hw. split; [|done].
        intros _. right. exists iw, ih. auto. }
      destruct (bool_decide (ih = q0)) eqn:Hh; cbn [negb andb].
      { apply bool_decide_eq_true in Hh. split; [|done].
        intros _. right. exists iw, ih. auto. }
      apply bool_decide_eq_false in Hw, Hh. split; [done|].
      intros [?|(a & b & [= <- <-] & [?|?])]; done.
    + split; [auto|done].
Qed.

Lemma reference_view_size_bounds_witness :
  200 <= 500 <= 500 ∧ 300 <= 375 <= 600 ∧ (375 = 400 ∨ 500 = 200 ∨ 500 = 500).
Proof.
  destruct (reference_view_size_bounds (Some (qc 800 1, qc 600 1))) as [Hb _].
  apply Hb. vm_compute. reflexivity.
Defined.

Lemma load_reference_point_record (img_size : option (Qc * Qc))
    (d : reference_store) (id : Z) (x y : Qc) :
  load_reference_point img_size d (point_record id x y)
  = match img_size with
    | Some _ =>
        if int_too_large x then Raise OverflowError
        else if int_too_large y then Raise OverflowError
        else Ok (<[KInt id := (JNum x, JNum y)]> d)
    | None => Raise TypeError
    end.
Proof.
  unfold load_reference_point, point_record, subscript. simpl json_get.
  cbv beta iota. unfold times_size, as_number.
  destruct img_size as [[iw ih]|]; cbn [fmap option_fmap option_map fst snd]; [|done].
  destruct (int_too_large x); [done|]. destruct (int_too_large y); [done|].
  by rewrite key_of_json_int.
Qed.

Lemma load_reference_points_records (sz : Qc * Qc) (l : list (Z * coord))
    (d : reference_store) :
  Forall (λ e, int_too_large e.2.1 = false ∧ int_too_large e.2.2 = false) l →
  load_reference_points (Some sz) (point_records l) d
  = (fold_left (λ d e, <[KInt e.1 := (JNum e.2.1, JNum e.2.2)]> d) l d, None).
Proof.
  intros Hl. revert d.
  induction Hl as [|[id [x y]] l [Hx Hy] Hl IH]; intros d; [done|].
  cbn [point_records map load_reference_points fold_left fst snd] in *.
  rewrite load_reference_point_record, Hx, Hy. apply IH.
Qed.

Lemma fold_left_insert_reference_lookup (l : list (Z * coord)) (d : reference_store)
    (k : pykey) :
  fold_left (λ d e, <[KInt e.1 := (JNum e.2.1, JNum e.2.2)]> d) l d !! k
  = match last (filter (λ e, KInt e.1 = k) l) with
    | Some e => Some (JNum e.2.1, JNum e.2.2)
    | None => d !! k
    end.
Proof.
  revert d. induction l as [|[id p] l IH]; intros d; [done|].
  cbn [fold_left fst snd]. rewrite IH, filter_cons. cbn [fst].
  case_decide as Hk.
  - rewrite last_cons. destruct (last _); [done|].
    subst k. cbn [snd]. apply lookup_insert_eq.
  - destruct (last _); [done|]. apply lookup_insert_ne. congruence.
Qed.

(** X27.  The loader of the reference picture keeps every record of the
    file, with no check on the sign, the range or the identifier.  For a
    file whose ["keypoints"] list is made of records [{id, x, y}] with
    integer ids and no integer too large for a float, read while the
    reference view reports a size, the dictionary of reference points holds
    under every id of the list the two numbers of the last record with that
    id, negative numbers such as the pair (-1, -1) of an unset point
    included, and the status bar reports the length of the list.  When the
    view reports no size and the list is not empty, nothing is stored and
    the status bar reports the failure. *)
Theorem reference_keeps_every_record (img_size : option (Qc * Qc)) (data : json)
    (l : list (Z * coord)) :
  dict_get_keypoints data = Ok (JArr (point_records l)) →
  (is_Some img_size →
   Forall (λ e, int_too_large e.2.1 = false ∧ int_too_large e.2.2 = false) l →
   (∀ k, (load_reference_keypoints img_size (Some (Some data))).1 !! k
         = (λ e, (JNum e.2.1, JNum e.2.2)) <$> last (filter (λ e, KInt e.1 = k) l))
   ∧ (load_reference_keypoints img_size (Some (Some data))).2
     = StatusText ("标准图加载了 " +:+ pretty.pretty (length l) +:+ " 个关键点"))
  ∧ (img_size = None → l ≠ [] →
     load_reference_keypoints img_size (Some (Some data))
     = (∅, StatusExc "标准图JSON加载失败：" TypeError)).
Proof.
  intros Hdata.
  assert (json_items (Some data) = Ok (point_records l)) as Hitems.
  { unfold json_items. by rewrite Hdata. }
  unfold load_reference_keypoints. rewrite Hitems. split.
  - intros [sz ->] Hl. rewrite load_reference_points_records by done.
    cbv beta iota.
    cbn [fst snd]. split.
    + intros k. rewrite fold_left_insert_reference_lookup, lookup_empty.
      by destruct (last _).
    + unfold point_records. by rewrite length_map.
  - intros -> Hl. destruct l as [|[id [x y]] l]; [done|].
    cbn [point_records map load_reference_points fst snd].
    by rewrite load_reference_point_record.
Qed.

Lemma reference_keeps_every_record_witness :
  (∀ k, (load_reference_keypoints (Some (qc 800 1, qc 600 1))
           (Some (Some json_with_unset))).1 !! k
        = (λ e, (JNum e.2.1, JNum e.2.2))
            <$> last (filter (λ e, KInt e.1 = k) records_with_unset))
  ∧ (load_reference_keypoints (Some (qc 800 1, qc 600 1))
       (Some (Some json_with_unset))).2
    = StatusText ("标准图加载了 " +:+ pretty.pretty (length records_with_unset)
                  +:+ " 个关键点").
Proof.
  destruct (reference_keeps_every_record (Some (qc 800 1, qc 600 1))
              json_with_unset records_with_unset) as [Hsome _].
  - reflexivity.
  - apply Hsome; [eexists; reflexivity|]. repeat constructor.
Defined.

(** ** Converting a directory *)

Lemma convert_flag_well_formed (content : string) (image_file : image_path)
    (f : filesystem) :
  (convert_txt_to_json content image_file f).1.1 = well_formed content.
Proof.
  unfold well_formed.
  destruct (convert_txt_to_json_cases content image_file f)
    as [(coords & kps & Hfl & Hlen & _ & ->)|(Hbad & line & ->)]; cbn [fst snd].
  - rewrite Hfl. by rewrite bool_decide_true.
  - destruct (floats_of _) as [coords|]; [|done].
    by rewrite bool_decide_false by by apply Hbad.
Qed.

Lemma convert_txt_to_json_files (content : string) (image_file : image_path)
    (f : filesystem) :
  txt_files (convert_txt_to_json content image_file f).2 = txt_files f
  ∧ ∀ name, name ≠ stem image_file →
      json_files (convert_txt_to_json content image_file f).2 !! name
      = json_files f !! name.
Proof.
  destruct (convert_txt_to_json_cases content image_file f)
    as [(coords & kps & _ & _ & _ & ->)|(_ & line & ->)]; cbn [fst snd]; [|done].
  split; [done|]. intros name Hname.
  cbn [write_json json_files]. by rewrite lookup_insert_ne.
Qed.

Lemma find_image_stem (path_exists : image_path → bool) (txt_stem : string)
    (exts : list string) (image_file : image_path) :
  find_image path_exists txt_stem exts = Some image_file →
  stem image_file = txt_stem ∧ path_exists image_file = true.
Proof.
  induction exts as [|ext exts IH]; [done|]. cbn [find_image].
  match goal with
  | |- context [if path_exists ?p then _ else _] => destruct (path_exists p) eqn:He
  end.
  - intros [= <-]. by split.
  - apply IH.
Qed.

Lemma convert_one_effect (path_exists : image_path → bool)
    (success_count fail_count : nat) (out : list console) (f : filesystem)
    (txt_file : string * string) :
  ∃ out' f',
    convert_one path_exists (success_count, fail_count, out, f) txt_file
    = (if convertible path_exists txt_file
       then ((success_count + 1)%nat, fail_count, out', f')
       else (success_count, (fail_count + 1)%nat, out', f'))
    ∧ txt_files f' = txt_files f
    ∧ ∀ name, name ≠ txt_file.1 → json_files f' !! name = json_files f !! name.
Proof.
  destruct txt_file as [txt_stem content]. unfold convert_one, convertible.
  cbn [fst snd].
  destruct (find_image _ _ _) as [image_file|] eqn:Hfind.
  - apply find_image_stem in Hfind as (Hstem & _).
    pose proof (convert_flag_well_formed content image_file f) as Hflag.
    destruct (convert_txt_to_json_files content image_file f) as [Htxt Hjson].
    destruct (convert_txt_to_json content image_file f) as [[converted line] f'].
    cbn [fst snd] in *. subst converted. rewrite Hstem in Hjson.
    destruct (well_formed content); by eexists _, _.
  - by eexists _, _.
Qed.

Lemma fold_convert_one (path_exists : image_path → bool)
    (listing : list (string * string)) (success_count fail_count : nat)
    (out : list console) (f : filesystem) :
  ∃ out' f',
    fold_left (convert_one path_exists) listing (success_count, fail_count, out, f)
    = ((success_count
        + length (filter (λ file, convertible path_exists file = true) listing))%nat,
       (fail_count
        + length (filter (λ file, convertible path_exists file ≠ true) listing))%nat,
       out', f')
    ∧ txt_files f' = txt_files f
    ∧ ∀ name, name ∉ listing.*1 → json_files f' !! name = json_files f !! name.
Proof.
  revert success_count fail_count out f.
  induction listing as [|file listing IH]; intros s fc out f.
  - exists out, f. cbn. by rewrite !Nat.add_0_r.
  - cbn [fold_left].
    destruct (convert_one_effect path_exists s fc out f file)
      as (out1 & f1 & -> & Htxt1 & Hjson1).
    rewrite !filter_cons.
    destruct (convertible path_exists file) eqn:Hc.
    + destruct (IH (s + 1)%nat fc out1 f1) as (out' & f' & -> & Htxt & Hjson).
      exists out', f'. rewrite decide_True by done.
      rewrite decide_False by (intros Hne; by apply Hne).
      cbn [length]. split; [f_equal; f_equal; f_equal; lia|].
      split; [congruence|].
      intros name Hname. cbn [fmap list_fmap] in Hname.
      apply not_elem_of_cons in Hname as [Hne Hname].
      rewrite Hjson by done. by apply Hjson1.
    + destruct (IH s (fc + 1)%nat out1 f1) as (out' & f' & -> & Htxt & Hjson).
      exists out', f'. rewrite decide_False by done.
      rewrite decide_True by done.
      cbn [length]. split; [f_equal; f_equal; f_equal; lia|].
      split; [congruence|].
      intros name Hname. cbn [fmap list_fmap] in Hname.
      apply not_elem_of_cons in Hname as [Hne Hname].
      rewrite Hjson by done. by apply Hjson1.
Qed.

Lemma convertible_partition (path_exists : image_path → bool)
    (l : list (string * string)) :
  (length (filter (λ file, convertible path_exists file = true) l)
   + length (filter (λ file, convertible path_exists file ≠ true) l))%nat
  = length l.
Proof.
  induction l as [|file l IH]; [done|].
  rewrite !filter_cons. destruct (convertible path_exists file).
  - rewrite decide_True by done. rewrite decide_False by (intros Hne; by apply Hne).
    cbn [length]. lia.
  - rewrite decide_False by done. rewrite decide_True by done.
    cbn [length]. lia.
Qed.

(** X28.  The batch converter counts every text file once.  For a
    directory that exists and holds at least one text file, the last two
    lines printed give a number of successes and a number of failures that
    add up to the number of text files.  When the tokens of every text
    file are plain decimal numbers, the successes are the text files that
    have a picture with the same stem (in one of the eight extensions
    tried) and that hold 136 numbers, so a text file with no picture counts
    as a failure.  No text file is modified, and no structured file is
    written for a stem that has no text file. *)
Theorem batch_convert_counts (directory : string) (listing : list (string * string))
    (path_exists : image_path → bool) (f : filesystem) :
  listing ≠ [] →
  ∃ (lines : list console) (success_count fail_count : nat),
    (batch_convert directory true listing path_exists f).1
    = lines ++ [Printed ("成功: " +:+ pretty.pretty success_count +:+ " 个");
                Printed ("失败: " +:+ pretty.pretty fail_count +:+ " 个")]
    ∧ (success_count + fail_count = length listing)%nat
    ∧ (Forall (λ file, ∃ coords,
                 floats_of (String.words (str_strip file.2)) = Ok coords) listing →
       success_count
       = length (filter (λ file, convertible path_exists file = true) listing))
    ∧ txt_files (batch_convert directory true listing path_exists f).2 = txt_files f
    ∧ ∀ name, name ∉ listing.*1 →
        json_files (batch_convert directory true listing path_exists f).2 !! name
        = json_files f !! name.
Proof.
  intros Hne. unfold batch_convert. cbn [negb].
  destruct listing as [|file listing]; [done|].
  set (l := file :: listing).
  destruct (fold_convert_one path_exists l 0 0
              [Printed ("找到 " +:+ pretty.pretty (length l) +:+ " 个txt标注文件");
               Printed rule60] f) as (out' & f' & -> & Htxt & Hjson).
  cbv beta iota. cbn [fst snd Nat.add].
  exists (out' ++ [Printed (newline +:+ rule60); Printed "转换完成！"]),
    (length (filter (λ file, convertible path_exists file = true) l)),
    (length (filter (λ file, convertible path_exists file ≠ true) l)).
  split; [by rewrite <- app_assoc|].
  split; [|done].
  apply convertible_partition.
Qed.

Lemma batch_convert_counts_witness :
  ∃ (lines : list console) (success_count fail_count : nat),
    (batch_convert "demo" true sample_listing only_face_exists no_files).1
    = lines ++ [Printed ("成功: " +:+ pretty.pretty success_count +:+ " 个");
                Printed ("失败: " +:+ pretty.pretty fail_count +:+ " 个")]
    ∧ (success_count + fail_count = length sample_listing)%nat
    ∧ success_count
      = length (filter (λ file, convertible only_face_exists file = true)
                  sample_listing)
    ∧ txt_files (batch_convert "demo" true sample_listing only_face_exists no_files).2
      = txt_files no_files.
Proof.
  destruct (batch_convert_counts "demo" sample_listing only_face_exists no_files)
    as (lines & success_count & fail_count & Hout & Hsum & Hcount & Htxt & _).
  - discriminate.
  - exists lines, success_count, fail_count.
    split; [exact Hout|]. split; [exact Hsum|]. split; [|exact Htxt].
    apply Hcount.
    repeat constructor; exists parsed_point_5_unset; vm_compute; reflexivity.
Defined.

(** ** Checking the installation *)

(** X29.  [check_dependencies] answers [True] exactly when the major
    version of Python is at least 3 and its minor version at least 7, the
    PyQt5 imports succeed, the standard modules import and
    [keypoint_annotation_tool.py] is present; the reference picture
    directory plays no part.  The two version numbers are tested
    separately, so every version whose minor number is below 7 is turned
    down, whatever its major number. *)
Theorem check_dependencies_result (env : installation) :
  ((check_dependencies env).2 = true
   ↔ 3 <= (python_version env).1.1 ∧ 7 <= (python_version env).1.2
     ∧ (∃ qt_version_str, pyqt5_import env = inl qt_version_str)
     ∧ stdlib_import env = None
     ∧ tool_exists env = true)
  ∧ ((python_version env).1.2 < 7 → (check_dependencies env).2 = false).
Proof.
  assert ((check_dependencies env).2
          = bool_decide (3 <= (python_version env).1.1)
            && bool_decide (7 <= (python_version env).1.2)
            && (if pyqt5_import env is inl _ then true else false)
            && (if stdlib_import env is None then true else false)
            && tool_exists env) as ->.
  { unfold check_dependencies.
    destruct (python_version env) as [[major minor] micro]. cbn [fst snd].
    destruct (bool_decide (3 <= major)), (bool_decide (7 <= minor)),
      (pyqt5_import env), (stdlib_import env), (tool_exists env),
      (std_pic_dir_exists env), (std_image_exists env); reflexivity. }
  split.
  - rewrite !andb_true_iff, !bool_decide_eq_true.
    destruct (pyqt5_import env) as [v|e], (stdlib_import env) as [e'|];
      split; try (intros [[[[? ?] ?] ?] ?]; done);
      try (intros (? & ? & [? ?] & ? & ?); done).
    intros [[[[? ?] _] _] ?]. repeat split; eauto.
  - intros Hminor. rewrite (bool_decide_false (7 <= _)) by lia.
    by rewrite andb_false_r.
Qed.

Lemma check_dependencies_result_witness :
  (check_dependencies python_4_0).2 = false.
Proof.
  destruct (check_dependencies_result python_4_0) as [_ Hminor].
  apply Hminor. cbn. lia.
Defined.
(** ** What writes the annotation files *)

Lemma disk_step (w : MainWindow) (c : command) : disk (step w c) = disk w.
Proof. apply (disk_run [c] w). Qed.

Lemma disk_navigation (sz : Qc * Qc) (i : Z) (w : MainWindow) :
  disk (if auto_save w && raises save_annotations_call w then w
        else load_current_image sz
               (set_current_image_index i
                  (if auto_save w then save_annotations w else w)))
  = disk (if auto_save w then save_annotations w else w).
Proof.
  destruct (auto_save w); cbn [andb].
  - destruct (raises save_annotations_call w) eqn:Hraise.
    + by rewrite save_annotations_raised.
    + by rewrite load_current_image_disk.
  - by rewrite load_current_image_disk.
Qed.

Lemma disk_next_image (sz : Qc * Qc) (w : MainWindow) :
  disk (next_image sz w) = disk w
  ∨ (auto_save w = true ∧ disk (next_image sz w) = disk (save_annotations w)).
Proof.
  destruct (next_image_run sz w) as [-> _]. cbv zeta.
  case_decide; [|by left]. rewrite disk_navigation.
  destruct (auto_save w); auto.
Qed.

Lemma disk_previous_image (sz : Qc * Qc) (w : MainWindow) :
  disk (previous_image sz w) = disk w
  ∨ (auto_save w = true ∧ disk (previous_image sz w) = disk (save_annotations w)).
Proof.
  destruct (previous_image_run sz w) as [-> _]. cbv zeta.
  case_decide; [|by left]. rewrite disk_navigation.
  destruct (auto_save w); auto.
Qed.

Lemma disk_closeEvent (w : MainWindow) :
  disk (closeEvent w) = disk w
  ∨ (auto_save w = true ∧ disk (closeEvent w) = disk (save_annotations w)).
Proof.
  rewrite closeEvent_unfold. destruct (auto_save w); cbn [andb]; [|by left].
  destruct (bool_decide _); auto.
Qed.

Lemma disk_toggle_annotation_format (reply : bool) (w : MainWindow) :
  disk (toggle_annotation_format reply w) = disk w
  ∨ (keypoints_data w ≠ ∅ ∧ (auto_save w = true ∨ reply = true)
     ∧ disk (toggle_annotation_format reply w) = disk (save_annotations w)).
Proof.
  destruct (toggle_annotation_format_run reply w) as [-> _]. cbv zeta.
  assert (∀ w1, disk (match current_image w with
                      | Some image_path => load_annotations image_path w1
                      | None => w1
                      end) = disk w1) as Hload.
  { intros w1. destruct (current_image w); [apply load_annotations_disk|done]. }
  destruct (bool_decide (0 <= current_image_index w)); cbn [andb];
    [|left; by rewrite Hload].
  case_bool_decide as Hempty; cbn [negb andb]; [left; by rewrite Hload|].
  destruct (auto_save w || reply) eqn:Hyes; cbn [andb]; [|left; by rewrite Hload].
  destruct (raises save_annotations_call w) eqn:Hraise; [by left|].
  right. split; [done|]. split.
  - apply orb_true_iff in Hyes. destruct Hyes; auto.
  - by rewrite Hload.
Qed.

(** C8 (as corrected).  An undo or a redo never writes an annotation file,
    whatever the auto-save setting, and neither does any sequence of
    mutations, undos and redos.  Among the handlers of a session, a file
    changes only through [save_annotations], and the files afterwards are
    those an explicit save leaves: the handler is the explicit save, a move
    to the next or the previous image with auto-save on, the closing of the
    window with auto-save on, or a switch of the annotation format while
    the store is not empty, with auto-save on or the operator answering
    Yes. *)
Theorem files_change_only_through_save_annotations (w : MainWindow) :
  disk (undo w) = disk w
  ∧ disk (redo w) = disk w
  ∧ (∀ cs, disk (run cs w) = disk w)
  ∧ (∀ h, disk (handle h w) ≠ disk w →
       disk (handle h w) = disk (save_annotations w)
       ∧ (h = Save
          ∨ (auto_save w = true
             ∧ ∃ pixmap_size, h = NextImage pixmap_size
                              ∨ h = PreviousImage pixmap_size)
          ∨ (auto_save w = true ∧ h = Close)
          ∨ (∃ reply, h = ToggleFormat reply
                      ∧ keypoints_data w ≠ ∅
                      ∧ (auto_save w = true ∨ reply = true)))).
Proof.
  split; [apply disk_undo|]. split; [apply disk_redo|].
  split; [intros cs; apply disk_run|].
  intros [c| |sz|sz|reply|enabled|] Hchanged; cbn [handle] in *.
  - by rewrite disk_step in Hchanged.
  - auto.
  - destruct (disk_next_image sz w) as [Hsame|[Hauto Hsaved]]; [done|].
    split; [done|]. right. left. split; [done|]. exists sz. by left.
  - destruct (disk_previous_image sz w) as [Hsame|[Hauto Hsaved]]; [done|].
    split; [done|]. right. left. split; [done|]. exists sz. by right.
  - destruct (disk_toggle_annotation_format reply w)
      as [Hsame|(Hne & Hyes & Hsaved)]; [done|].
    split; [done|]. do 3 right. by exists reply.
  - done.
  - destruct (disk_closeEvent w) as [Hsame|[Hauto Hsaved]]; [done|].
    split; [done|]. right. right. left. done.
Qed.

Lemma files_change_only_through_save_annotations_witness :
  disk (handle Close (set_keypoints_data only_point_one sample_window))
  = disk (save_annotations (set_keypoints_data only_point_one sample_window)).
Proof.
  destruct (files_change_only_through_save_annotations
              (set_keypoints_data only_point_one sample_window))
    as (_ & _ & _ & Hhandle).
  apply (Hhandle Close).
  intros Heq. apply (f_equal (λ f, txt_files f !! "face")) in Heq.
  vm_compute in Heq. discriminate.
Defined.

(** C8, the claim as written fails: closing the window with auto-save on
    writes the annotation file, and so does a switch of the annotation
    format, though neither is an explicit save or a move to another
    image. *)
Lemma closing_and_switching_format_write :
  disk (closeEvent (set_keypoints_data only_point_one sample_window))
  ≠ disk (set_keypoints_data only_point_one sample_window)
  ∧ disk (toggle_annotation_format false
            (set_keypoints_data only_point_one sample_window))
    ≠ disk (set_keypoints_data only_point_one sample_window).
Proof.
  split; intros Heq; apply (f_equal (λ f, txt_files f !! "face")) in Heq;
    vm_compute in Heq; discriminate.
Qed.
